(** * TravelTools: response parser, weather resolver, mock travel catalog

    A shallow embedding of [lab12/travel_tools_server.py] and the proofs of
    its specification.

    Conventions of the embedding.
    - A Python [str] is the list of its Unicode code points.  What CPython
      reads from its Unicode database for code points outside ASCII is a
      parameter (class [Unicode]); on ASCII the tables are written out.
    - A Python value as [json.loads] builds it is a [value]; [VNone] is
      Python's [None].  A [dict] is an association list read at its first
      binding of a key.
    - A Python [float] is an IEEE binary64 number, a [spec_float] of the
      Standard Library's [SpecFloat] with precision 53 and [emax] 1024.
    - Code that can raise returns an [outcome]; code that talks to the
      network runs in [IO], which threads the log of the requests sent. *)

From Stdlib Require Import ZArith NArith List String Ascii Bool Lia.
From Stdlib Require Import DecimalPos DecimalN.
From Stdlib Require Import Floats.SpecFloat.
Import ListNotations.
Local Open Scope Z_scope.
Set Warnings "-register-all".

(** ** Strings *)

Definition char := N.
Bind Scope N_scope with char.
Definition str := list char.

(** An ASCII literal as a Python string. *)
Definition lit (s : string) : str := map N_of_ascii (list_ascii_of_string s).

Definition str_eq_dec : forall a b : str, {a = b} + {a <> b} :=
  list_eq_dec N.eq_dec.

Definition str_eqb (a b : str) : bool :=
  if str_eq_dec a b then true else false.

(** What the interpreter looks up in its Unicode database, asked only for
    code points from 128 on. *)
Class Unicode := {
  uni_isspace : char -> bool;         (* Py_UNICODE_ISSPACE *)
  uni_todecimal : char -> option Z;   (* Py_UNICODE_TODECIMAL *)
  uni_isprintable : char -> bool;     (* Py_UNICODE_ISPRINTABLE *)
  uni_lower : str -> str              (* str.lower() of a non-ASCII string *)
}.

Definition is_ascii (c : char) : bool := (c <? 128)%N.

(** [str.isspace] on ASCII: TAB..CR, FS..US and the space. *)
Definition ascii_isspace (c : char) : bool :=
  ((9 <=? c) && (c <=? 13) || (28 <=? c) && (c <=? 32))%N.

Definition ascii_lower_char (c : char) : char :=
  if ((65 <=? c) && (c <=? 90))%N then (c + 32)%N else c.

Definition ascii_digit (c : char) : option Z :=
  if ((48 <=? c) && (c <=? 57))%N then Some (Z.of_N c - 48) else None.

Section Text.
Context {U : Unicode}.

Definition isspace (c : char) : bool :=
  if is_ascii c then ascii_isspace c else uni_isspace c.

(** The value of a decimal digit, as the [\d] of [re] and [int()] see it. *)
Definition todecimal (c : char) : option Z :=
  if is_ascii c then ascii_digit c else uni_todecimal c.

(** [s.lower()] *)
Definition lower (s : str) : str :=
  if forallb is_ascii s then map ascii_lower_char s else uni_lower s.

(** [s.lstrip()], [s.rstrip()], [s.strip()] *)
Fixpoint lstrip (s : str) : str :=
  match s with
  | c :: rest => if isspace c then lstrip rest else s
  | [] => []
  end.

Definition rstrip (s : str) : str := rev (lstrip (rev s)).

Definition strip (s : str) : str := rstrip (lstrip s).

(** [s.lstrip(chars)] for a one-character [chars]. *)
Fixpoint lstrip_char (c0 : char) (s : str) : str :=
  match s with
  | c :: rest => if (c =? c0)%N then lstrip_char c0 rest else s
  | [] => []
  end.

(** *** [repr] of a string *)

Definition hex_digit (n : N) : char :=
  if (n <? 10)%N then (48 + n)%N else (87 + n)%N.

Fixpoint hex_fixed (width : nat) (n : N) : str :=
  match width with
  | O => []
  | S k => hex_fixed k (n / 16)%N ++ [hex_digit (n mod 16)%N]
  end.

Definition repr_quote (s : str) : char :=
  if existsb (N.eqb 39) s && negb (existsb (N.eqb 34) s) then 34%N else 39%N.

Definition repr_char (quote c : char) : str :=
  if ((c =? quote) || (c =? 92))%N then [92%N; c]
  else if (c =? 9)%N then lit "\t"
  else if (c =? 10)%N then lit "\n"
  else if (c =? 13)%N then lit "\r"
  else if ((c <? 32) || (c =? 127))%N then lit "\x" ++ hex_fixed 2 c
  else if (c <? 127)%N then [c]
  else if uni_isprintable c then [c]
  else if (c <=? 255)%N then lit "\x" ++ hex_fixed 2 c
  else if (c <=? 65535)%N then lit "\u" ++ hex_fixed 4 c
  else lit "\U" ++ hex_fixed 8 c.

(** [repr(s)], what [f"{s!r}"] inserts. *)
Definition repr (s : str) : str :=
  let quote := repr_quote s in
  [quote] ++ flat_map (repr_char quote) s ++ [quote].

End Text.

(** ** Decimal rendering of integers *)

Fixpoint uint_chars (d : Decimal.uint) : str :=
  match d with
  | Decimal.Nil => []
  | Decimal.D0 r => 48%N :: uint_chars r
  | Decimal.D1 r => 49%N :: uint_chars r
  | Decimal.D2 r => 50%N :: uint_chars r
  | Decimal.D3 r => 51%N :: uint_chars r
  | Decimal.D4 r => 52%N :: uint_chars r
  | Decimal.D5 r => 53%N :: uint_chars r
  | Decimal.D6 r => 54%N :: uint_chars r
  | Decimal.D7 r => 55%N :: uint_chars r
  | Decimal.D8 r => 56%N :: uint_chars r
  | Decimal.D9 r => 57%N :: uint_chars r
  end.

(** [str(n)] for [n >= 0]. *)
Definition dec (n : Z) : str := uint_chars (N.to_uint (Z.to_N n)).

(** [str(n)] *)
Definition str_of_int (n : Z) : str :=
  if n <? 0 then 45%N :: dec (- n) else dec n.

(** [s.zfill(width)] for a string of digits: ["%0{width}d"]. *)
Definition zfill (width : nat) (s : str) : str :=
  repeat 48%N (width - List.length s) ++ s.

(** ** Exceptions *)

Inductive exn :=
  | KeyError
  | IndexError
  | TypeError
  | AttributeError         (* [.get] on a value that has no such method *)
  | OverflowError          (* int too large for a float; date out of range *)
  | ValueError             (* NaN timestamp; time zone offset out of range *)
  | RuntimeError (msg : str)  (* raised by the planner, with its message *)
  | TimestampOutOfRange.   (* [fromtimestamp] beyond year 1..9999: an
                              OverflowError, OSError or ValueError, by
                              magnitude and platform *)

Inductive outcome (A : Type) :=
  | Ret (a : A)
  | Raise (e : exn).
Arguments Ret {A} a.
Arguments Raise {A} e.

Definition obind {A B} (c : outcome A) (k : A -> outcome B) : outcome B :=
  match c with
  | Ret a => k a
  | Raise e => Raise e
  end.

Declare Scope outcome_scope.
Delimit Scope outcome_scope with outcome.
Notation "x <- c ;; k" := (obind c (fun x => k))
  (at level 61, c at next level, right associativity) : outcome_scope.

(** [try: c  except Exception: h] *)
Definition try_except {A} (c : outcome A) (h : A) : A :=
  match c with
  | Ret a => a
  | Raise _ => h
  end.

(** ** Python values *)

Inductive value :=
  | VNone
  | VBool (b : bool)
  | VInt (n : Z)
  | VFloat (f : spec_float)
  | VStr (s : str)
  | VList (l : list value)
  | VDict (d : list (str * value)).

Definition dict := list (str * value).

Fixpoint dict_lookup (d : dict) (key : str) : option value :=
  match d with
  | [] => None
  | (k, v) :: rest => if str_eqb k key then Some v else dict_lookup rest key
  end.

(** [key in d] *)
Definition dict_contains (d : dict) (key : str) : bool :=
  match dict_lookup d key with
  | Some _ => true
  | None => false
  end.

(** [d[key]] *)
Definition dict_getitem (d : dict) (key : str) : outcome value :=
  match dict_lookup d key with
  | Some v => Ret v
  | None => Raise KeyError
  end.

(** [d.get(key, default)] *)
Definition dict_get (d : dict) (key : str) (default : value) : value :=
  match dict_lookup d key with
  | Some v => v
  | None => default
  end.

(** ** Response parser *)

Local Open Scope outcome_scope.

(** [_safe_get(d, path)] *)
Fixpoint _safe_get (cur : value) (path : list str) : outcome value :=
  match path with
  | [] => Ret cur
  | key :: rest =>
      match cur with
      | VDict d =>
          if negb (dict_contains d key) then Ret VNone
          else v <- dict_getitem d key ;; _safe_get v rest
      | _ => Ret VNone
      end
  end.

(** ** Floats *)

Definition float := spec_float.

(** The binary64 number nearest to the integer [n], ties to even. *)
Definition float_of_Z (n : Z) : float := binary_normalize 53 1024 n 0 false.

(** [float(n)] for an int [n] *)
Definition float_of_int (n : Z) : outcome float :=
  match float_of_Z n with
  | S754_infinity _ => Raise OverflowError
  | f => Ret f
  end.

Definition is_finite (f : float) : bool :=
  match f with
  | S754_zero _ | S754_finite _ _ _ => true
  | _ => false
  end.

(** The integer nearest to [num / den], ties to even ([den > 0]). *)
Definition round_half_even (num den : Z) : Z :=
  let q := num / den in
  let r := num mod den in
  match 2 * r ?= den with
  | Lt => q
  | Gt => q + 1
  | Eq => if Z.even q then q else q + 1
  end.

(** [|m * 2^e * scale|] rounded to an integer, ties to even. *)
Definition scaled_magnitude (m : positive) (e : Z) (scale : Z) : Z :=
  match e with
  | Zneg k => round_half_even (Zpos m * scale) (2 ^ Zpos k)
  | _ => Zpos m * scale * 2 ^ e
  end.

(** [f"{x:.1f}"]: the exact value of [x] rounded to one decimal place,
    ties to even; the sign is that of [x] also when the digits are zero. *)
Definition fmt_1f (x : float) : str :=
  match x with
  | S754_nan => lit "nan"
  | S754_infinity s => if s then lit "-inf" else lit "inf"
  | S754_zero s => (if s then lit "-" else []) ++ lit "0.0"
  | S754_finite s m e =>
      let tenths := scaled_magnitude m e 10 in
      (if s then lit "-" else []) ++ dec (tenths / 10) ++ lit "." ++ dec (tenths mod 10)
  end.

(** [_fmt_temp_c(temp_c)]; the degree sign is U+00B0. *)
Definition _fmt_temp_c (temp_c : float) : str := fmt_1f temp_c ++ [176%N; 67%N].

(** [modf] of the finite number [(-1)^s * m * 2^e]: the integral part, and
    the fractional part with the sign of the number. *)
Definition modf (s : bool) (m : positive) (e : Z) : Z * float :=
  match e with
  | Zneg k =>
      let q := Zpos m / 2 ^ Zpos k in
      let r := Zpos m mod 2 ^ Zpos k in
      (if s then - q else q, binary_normalize 53 1024 (if s then - r else r) e s)
  | _ => (if s then - (Zpos m * 2 ^ e) else Zpos m * 2 ^ e, S754_zero s)
  end.

(** The value of a float rounded to an integer, ties to even
    ([_PyTime_RoundHalfEven]). *)
Definition float_round_half_even (x : float) : Z :=
  match x with
  | S754_finite s m e =>
      let a := scaled_magnitude m e 1 in
      if s then - a else a
  | _ => 0
  end.

(** [_PyTime_ObjectToTimeval(x, ROUND_HALF_EVEN)] for a float: seconds and
    microseconds, [0 <= microseconds < 10^6]. *)
Definition timeval_of_float (x : float) : outcome (Z * Z) :=
  match x with
  | S754_nan => Raise ValueError
  | S754_infinity _ => Raise OverflowError
  | S754_zero _ => Ret (0, 0)
  | S754_finite s m e =>
      let '(intpart, frac) := modf s m e in
      let floatpart :=
        float_round_half_even (SFmul 53 1024 frac (float_of_Z 1000000)) in
      let '(intpart, floatpart) :=
        if floatpart >=? 1000000 then (intpart + 1, floatpart - 1000000)
        else if floatpart <? 0 then (intpart - 1, floatpart + 1000000)
        else (intpart, floatpart) in
      if (- 2 ^ 63 <=? intpart) && (intpart <=? 2 ^ 63)
      then Ret (intpart, floatpart)
      else Raise OverflowError
  end.

(** ** Calendar dates ([datetime.date]) *)

Record Date := mkDate { year : Z; month : Z; day : Z }.

Definition _MAXORDINAL : Z := 3652059.

Definition _DAYS_IN_MONTH : list Z :=
  [-1; 31; 28; 31; 30; 31; 30; 31; 31; 30; 31; 30; 31].

Definition _DAYS_BEFORE_MONTH : list Z :=
  [-1; 0; 31; 59; 90; 120; 151; 181; 212; 243; 273; 304; 334].

Definition _is_leap (y : Z) : bool :=
  (y mod 4 =? 0) && (negb (y mod 100 =? 0) || (y mod 400 =? 0)).

Definition _days_before_year (y : Z) : Z :=
  let y := y - 1 in
  y * 365 + y / 4 - y / 100 + y / 400.

Definition _days_in_month (y m : Z) : Z :=
  if (m =? 2) && _is_leap y then 29 else nth (Z.to_nat m) _DAYS_IN_MONTH 0.

Definition _days_before_month (y m : Z) : Z :=
  nth (Z.to_nat m) _DAYS_BEFORE_MONTH 0
  + (if (2 <? m) && _is_leap y then 1 else 0).

Definition _ymd2ord (y m d : Z) : Z :=
  _days_before_year y + _days_before_month y m + d.

Definition _DI400Y : Z := 146097.
Definition _DI100Y : Z := 36524.
Definition _DI4Y : Z := 1461.

Definition _ord2ymd (n : Z) : Date :=
  let n := n - 1 in
  let n400 := n / _DI400Y in
  let n := n mod _DI400Y in
  let y := n400 * 400 + 1 in
  let n100 := n / _DI100Y in
  let n := n mod _DI100Y in
  let n4 := n / _DI4Y in
  let n := n mod _DI4Y in
  let n1 := n / 365 in
  let n := n mod 365 in
  let y := y + n100 * 100 + n4 * 4 + n1 in
  if (n1 =? 4) || (n100 =? 4) then mkDate (y - 1) 12 31
  else
    let leapyear := (n1 =? 3) && (negb (n4 =? 24) || (n100 =? 3)) in
    let m := Z.shiftr (n + 50) 5 in
    let preceding :=
      nth (Z.to_nat m) _DAYS_BEFORE_MONTH 0
      + (if (2 <? m) && leapyear then 1 else 0) in
    if n <? preceding then
      let m := m - 1 in
      let preceding :=
        preceding - (nth (Z.to_nat m) _DAYS_IN_MONTH 0
                     + (if (m =? 2) && leapyear then 1 else 0)) in
      mkDate y m (n - preceding + 1)
    else mkDate y m (n - preceding + 1).

(** The check of the [date] constructor. *)
Definition valid_date (d : Date) : bool :=
  (1 <=? year d) && (year d <=? 9999) && (1 <=? month d) && (month d <=? 12)
  && (1 <=? day d) && (day d <=? _days_in_month (year d) (month d)).

(** [date(y, m, d)] *)
Definition new_date (y m d : Z) : outcome Date :=
  if valid_date (mkDate y m d) then Ret (mkDate y m d) else Raise ValueError.

(** [d.toordinal()] and [date.fromordinal(n)] *)
Definition toordinal (d : Date) : Z := _ymd2ord (year d) (month d) (day d).
Definition fromordinal (n : Z) : Date := _ord2ymd n.

Definition date_eqb (a b : Date) : bool :=
  (year a =? year b) && (month a =? month b) && (day a =? day b).

(** [a <= b]: the comparison of the (year, month, day) triples. *)
Definition date_leb (a b : Date) : bool :=
  (year a <? year b)
  || (year a =? year b)
     && ((month a <? month b) || (month a =? month b) && (day a <=? day b)).

(** [d + timedelta(days=n)] *)
Definition date_add_days (d : Date) (n : Z) : outcome Date :=
  let o := toordinal d + n in
  if (0 <? o) && (o <=? _MAXORDINAL) then Ret (fromordinal o)
  else Raise OverflowError.

(** [d.isoformat()] *)
Definition isoformat (d : Date) : str :=
  zfill 4 (dec (year d)) ++ lit "-" ++ zfill 2 (dec (month d))
  ++ lit "-" ++ zfill 2 (dec (day d)).

(** ** Date-times ([datetime.datetime]) *)

Record DateTime := mkDateTime {
  dt_date : Date; hour : Z; minute : Z; second : Z; microsecond : Z }.

(** The ordinal of 1970-01-01. *)
Definition EPOCH_ORDINAL : Z := 719163.

(** Whole seconds from the midnight before 0001-01-01. *)
Definition datetime_seconds (t : DateTime) : Z :=
  toordinal (dt_date t) * 86400 + hour t * 3600 + minute t * 60 + second t.

Definition datetime_microseconds (t : DateTime) : Z :=
  datetime_seconds t * 1000000 + microsecond t.

Definition datetime_of_seconds (secs us : Z) : DateTime :=
  let rem := secs mod 86400 in
  mkDateTime (fromordinal (secs / 86400))
             (rem / 3600) (rem mod 3600 / 60) (rem mod 60) us.

(** [datetime.fromtimestamp(x, tz=timezone.utc)] *)
Definition utcfromtimestamp (x : float) : outcome DateTime :=
  tv <- timeval_of_float x ;;
  let secs := EPOCH_ORDINAL * 86400 + fst tv in
  if (0 <? secs / 86400) && (secs / 86400 <=? _MAXORDINAL)
  then Ret (datetime_of_seconds secs (snd tv))
  else Raise TimestampOutOfRange.

(** [timezone(timedelta(seconds=n))], kept as its offset [n]: the
    [timedelta] takes at most 999999999 days, the zone an offset strictly
    between -24 h and 24 h. *)
Definition new_timezone (n : Z) : outcome Z :=
  if 999999999 <? Z.abs (n / 86400) then Raise OverflowError
  else if (-86400 <? n) && (n <? 86400) then Ret n
  else Raise ValueError.

(** [t.astimezone(tz)] for [t] in UTC: [t] itself when [tz] is UTC (the
    zone of offset 0 is the UTC singleton), else the wall clock of the zone,
    [t + tz.utcoffset]. *)
Definition astimezone (t : DateTime) (tz : Z) : outcome DateTime :=
  if tz =? 0 then Ret t
  else
    let secs := datetime_seconds t + tz in
    if (0 <? secs / 86400) && (secs / 86400 <=? _MAXORDINAL)
    then Ret (datetime_of_seconds secs (microsecond t))
    else Raise OverflowError.

(** [abs((a - b).total_seconds())] for two date-times of one zone, kept as
    the whole number of microseconds.  [total_seconds()] is that number
    divided by [10^6] and rounded to binary64; where the program compares
    two of them both are at most 12 h, there neighbouring binary64 numbers
    are less than [10^-11] apart and two different microsecond counts are
    at least [10^-6] apart, so [<] on the floats is [<] on the counts. *)
Definition abs_distance (a b : DateTime) : Z :=
  Z.abs (datetime_microseconds a - datetime_microseconds b).

(** ** Type tests and conversions of Python values *)

(** [isinstance(v, (int, float))]; a [bool] is an [int]. *)
Definition is_number (v : value) : bool :=
  match v with
  | VInt _ | VBool _ | VFloat _ => true
  | _ => false
  end.

(** The integer of [v] when [isinstance(v, int)]. *)
Definition as_int (v : value) : option Z :=
  match v with
  | VInt n => Some n
  | VBool b => Some (if b then 1 else 0)
  | _ => None
  end.

(** [float(v)] for a number [v] *)
Definition py_float (v : value) : outcome float :=
  match v with
  | VInt n => float_of_int n
  | VBool b => Ret (float_of_Z (if b then 1 else 0))
  | VFloat x => Ret x
  | _ => Raise TypeError
  end.

(** [bool(v)] *)
Definition truthy (v : value) : bool :=
  match v with
  | VNone => false
  | VBool b => b
  | VInt n => negb (n =? 0)
  | VFloat (S754_zero _) => false
  | VFloat _ => true
  | VStr s => negb (Nat.eqb (List.length s) 0)
  | VList l => negb (Nat.eqb (List.length l) 0)
  | VDict d => negb (Nat.eqb (List.length d) 0)
  end.

(** [v.get(key, default)] *)
Definition py_get (v : value) (key : str) (default : value) : outcome value :=
  match v with
  | VDict d => Ret (dict_get d key default)
  | _ => Raise AttributeError
  end.

(** [v[0]]; the keys of a dict are strings, none is [0]. *)
Definition getitem0 (v : value) : outcome value :=
  match v with
  | VList (x :: _) => Ret x
  | VList [] => Raise IndexError
  | VStr (c :: _) => Ret (VStr [c])
  | VStr [] => Raise IndexError
  | VDict _ => Raise KeyError
  | _ => Raise TypeError
  end.

(** The [try] block that both weather paths run on their record:
<<
    desc = None
    try:
        weather_list = data.get("weather", [])
        if weather_list and isinstance(weather_list[0], dict):
            desc = weather_list[0].get("description")
    except Exception:
        desc = None
>> *)
Definition description_of (data : value) : value :=
  try_except
    (weather_list <- py_get data (lit "weather") (VList []) ;;
     if truthy weather_list then
       first <- getitem0 weather_list ;;
       match first with
       | VDict d0 => Ret (dict_get d0 (lit "description") VNone)
       | _ => Ret VNone
       end
     else Ret VNone)
    VNone.

(** ** The outside world and the [IO] monad *)

Record Request := mkRequest {
  req_url : str; req_params : list (str * str); req_timeout : Z }.

(** What [resp.json()] does: returns the decoded value, or raises [e] with
    [str(e) = msg]. *)
Inductive Body :=
  | JsonBody (data : value)
  | BadBody (msg : str).

(** What [requests.get] does: raises [e] with [str(e) = msg], or returns a
    response. *)
Inductive Reply :=
  | Failed (msg : str)
  | Response (status_code : Z) (text : str) (body : Body).

Record World := mkWorld {
  environ : str -> option str;        (* os.environ *)
  utc_today : Date;                   (* datetime.now(timezone.utc).date() *)
  requests_get : Request -> Reply }.  (* the network *)

(** A computation that may send requests: from the log of the requests sent
    so far to its outcome and the extended log. *)
Definition IO (A : Type) : Type := list Request -> outcome A * list Request.

Definition io_ret {A} (a : A) : IO A := fun log => (Ret a, log).

Definition io_bind {A B} (c : IO A) (k : A -> IO B) : IO B :=
  fun log =>
    match c log with
    | (Ret a, log') => k a log'
    | (Raise e, log') => (Raise e, log')
    end.

Definition io_lift {A} (c : outcome A) : IO A := fun log => (c, log).

Definition http_get (w : World) (r : Request) : IO Reply :=
  fun log => (Ret (requests_get w r), log ++ [r]).

Declare Scope io_scope.
Delimit Scope io_scope with io.
Notation "x <- c ;; k" := (io_bind c (fun x => k))
  (at level 61, c at next level, right associativity) : io_scope.
Notation "' p <- c ;; k" := (io_bind c (fun p => k))
  (at level 61, p pattern, c at next level, right associativity) : io_scope.

(** [os.environ.get(key, default)] *)
Definition environ_get (w : World) (key default : str) : str :=
  match environ w key with
  | Some v => v
  | None => default
  end.

(** The truth value of a [str | None]. *)
Definition truthy_str (e : option str) : bool :=
  match e with
  | Some (_ :: _) => true
  | _ => false
  end.

Section Server.
Context {U : Unicode}.

(** ** Parsing the date

    [datetime.strptime(s, "%Y-%m-%d")] matches [s] against
<<
    (?P<Y>\d\d\d\d)-(?P<m>1[0-2]|0[1-9]|[1-9])-(?P<d>3[0-1]|[1-2]\d|0[1-9]|[1-9]| [1-9])
>>
    takes the first match of the backtracking search, refuses text left
    after it, and builds the date from the [int()] of the groups.  A
    matcher returns its matches in the order the search tries them. *)

(** A character class [[lo-hi]] of ASCII digits, with the digit's value. *)
Definition cls (lo hi : char) (c : char) : option Z :=
  if ((lo <=? c) && (c <=? hi))%N then Some (Z.of_N c - 48) else None.

(** A space, worth nothing for [int()]. *)
Definition blank (c : char) : option Z :=
  if (c =? 32)%N then Some 0 else None.

Definition re_one (p : char -> option Z) (s : str) : list (Z * str) :=
  match s with
  | a :: rest =>
      match p a with
      | Some x => [(x, rest)]
      | None => []
      end
  | [] => []
  end.

Definition re_two (p q : char -> option Z) (s : str) : list (Z * str) :=
  match s with
  | a :: b :: rest =>
      match p a, q b with
      | Some x, Some y => [(10 * x + y, rest)]
      | _, _ => []
      end
  | _ => []
  end.

Definition re_lit (c : char) (s : str) : list str :=
  match s with
  | a :: rest => if (a =? c)%N then [rest] else []
  | [] => []
  end.

Definition re_Y (s : str) : list (Z * str) :=
  match s with
  | a :: b :: c :: d :: rest =>
      match todecimal a, todecimal b, todecimal c, todecimal d with
      | Some a, Some b, Some c, Some d =>
          [(1000 * a + 100 * b + 10 * c + d, rest)]
      | _, _, _, _ => []
      end
  | _ => []
  end.

Definition re_m (s : str) : list (Z * str) :=
  re_two (cls 49 49) (cls 48 50) s
  ++ re_two (cls 48 48) (cls 49 57) s
  ++ re_one (cls 49 57) s.

Definition re_d (s : str) : list (Z * str) :=
  re_two (cls 51 51) (cls 48 49) s
  ++ re_two (cls 49 50) todecimal s
  ++ re_two (cls 48 48) (cls 49 57) s
  ++ re_one (cls 49 57) s
  ++ re_two blank (cls 49 57) s.

Definition re_ymd (s : str) : list (Z * Z * Z * str) :=
  flat_map (fun '(y, s1) =>
    flat_map (fun s2 =>
      flat_map (fun '(m, s3) =>
        flat_map (fun s4 =>
          map (fun '(d, s5) => (y, m, d, s5)) (re_d s4))
          (re_lit 45 s3))
        (re_m s2))
      (re_lit 45 s1))
    (re_Y s).

(** [datetime.strptime(s, "%Y-%m-%d").date()] *)
Definition strptime_ymd (s : str) : outcome Date :=
  match re_ymd s with
  | [] => Raise ValueError
  | (y, m, d, rest) :: _ =>
      match rest with
      | [] => new_date y m d
      | _ :: _ => Raise ValueError
      end
  end.

(** [_parse_yyyy_mm_dd(value)] *)
Definition _parse_yyyy_mm_dd (value : str) : option Date :=
  match strptime_ymd (strip value) with
  | Ret d => Some d
  | Raise _ => None
  end.

(** ** Requests to OpenWeatherMap *)

Definition OPENWEATHER_BASE_URL : str :=
  lit "https://api.openweathermap.org/data/2.5".

Definition owm_params (city api_key : str) : list (str * str) :=
  [(lit "q", city); (lit "appid", api_key); (lit "units", lit "metric")].

(** The request [_owm_request(endpoint, params)] sends. *)
Definition owm_request_of (endpoint : str) (params : list (str * str)) : Request :=
  mkRequest (OPENWEATHER_BASE_URL ++ lit "/" ++ lstrip_char 47 endpoint) params 15.

Local Open Scope io_scope.

(** [_owm_request(endpoint, params)]: the decoded body and no error, or
    [None] and the error text. *)
Definition _owm_request (w : World) (endpoint : str)
    (params : list (str * str)) : IO (value * option str) :=
  reply <- http_get w (owm_request_of endpoint params) ;;
  match reply with
  | Failed msg => io_ret (VNone, Some (lit "Request failed: " ++ msg))
  | Response status_code text body =>
      if status_code >=? 400 then
        io_ret (VNone, Some (lit "OpenWeatherMap error " ++ str_of_int status_code
                             ++ lit ": " ++ text))
      else
        match body with
        | JsonBody data => io_ret (data, None)
        | BadBody msg => io_ret (VNone, Some (lit "Request failed: " ++ msg))
        end
  end.

(** What a weather path returns: temperature, conditions, error. *)
Definition weather := (option float * option str * option str)%type.

Definition UNKNOWN_CONDITIONS : str := lit "Unknown conditions".

(** [desc] unless [not isinstance(desc, str) or not desc.strip()]. *)
Definition conditions_or_unknown (desc : value) : str :=
  match desc with
  | VStr s =>
      match strip s with
      | [] => UNKNOWN_CONDITIONS
      | _ :: _ => s
      end
  | _ => UNKNOWN_CONDITIONS
  end.

(** The temperature and the description of a weather record, lines 75-89
    of [_weather_from_current] and 134-148 of [_weather_from_forecast],
    which differ in the message [missing] only. *)
Definition weather_fields (record : value) (missing : str) : outcome weather :=
  (temp <- _safe_get record [lit "main"; lit "temp"] ;;
   let desc := description_of record in
   if negb (is_number temp) then Ret (None, None, Some missing)
   else
     let desc := conditions_or_unknown desc in
     t <- py_float temp ;;
     Ret (Some t, Some desc, None))%outcome.

Definition MISSING_TEMPERATURE : str :=
  lit "Unexpected OpenWeatherMap response: missing temperature".
Definition MISSING_FORECAST_TEMPERATURE : str :=
  lit "Unexpected OpenWeatherMap response: missing forecast temperature".
Definition MISSING_FORECAST_LIST : str :=
  lit "Unexpected OpenWeatherMap response: missing forecast list".
Definition INVALID_FORECAST_ENTRY : str :=
  lit "Unexpected OpenWeatherMap response: invalid forecast entry".

(** [_weather_from_current(city, api_key)] *)
Definition _weather_from_current (w : World) (city api_key : str) : IO weather :=
  ' (data, err) <- _owm_request w (lit "weather") (owm_params city api_key) ;;
  if truthy_str err then io_ret (None, None, err)
  else io_lift (weather_fields data MISSING_TEMPERATURE).

(** Lines 115-120 of the loop: the UTC date-time of an entry moved to the
    zone [tz], or [None] for an entry the loop skips (not a dict, or
    without a numeric ["dt"]). *)
Definition entry_local_dt (tz : Z) (item : value) : outcome (option (dict * DateTime)) :=
  match item with
  | VDict d =>
      let dt_unix := dict_get d (lit "dt") VNone in
      if negb (is_number dt_unix) then Ret None
      else
        (x <- py_float dt_unix ;;
         utc <- utcfromtimestamp x ;;
         local_dt <- astimezone utc tz ;;
         Ret (Some (d, local_dt)))%outcome
  | _ => Ret None
  end.

(** [datetime(d.year, d.month, d.day, 12, 0, tzinfo=tz)] *)
Definition noon_of (target_date : Date) : DateTime :=
  mkDateTime target_date 12 0 0 0.

(** The loop of [_weather_from_forecast] over the entries, lines 114-126,
    from the [best] and [best_delta] it has so far. *)
Fixpoint scan_entries (tz : Z) (target_date : Date)
    (entries : list value) (best : option dict) (best_delta : option Z)
    : outcome (option dict * option Z) :=
  match entries with
  | [] => Ret (best, best_delta)
  | item :: rest =>
      (found <- entry_local_dt tz item ;;
       match found with
       | None => scan_entries tz target_date rest best best_delta
       | Some (d, local_dt) =>
           if negb (date_eqb (dt_date local_dt) target_date) then
             scan_entries tz target_date rest best best_delta
           else
             let delta := abs_distance local_dt (noon_of target_date) in
             if match best_delta with
                | None => true
                | Some bd => delta <? bd
                end
             then scan_entries tz target_date rest (Some d) (Some delta)
             else scan_entries tz target_date rest best best_delta
       end)%outcome
  end.

(** [_weather_from_forecast] on the decoded body, lines 100-148. *)
Definition forecast_of_data (data : value) (target_date : Date) : outcome weather :=
  (tzv <- _safe_get data [lit "city"; lit "timezone"] ;;
   let tz_offset_seconds :=
     match as_int tzv with
     | Some n => n
     | None => 0
     end in
   tz <- new_timezone tz_offset_seconds ;;
   entries <- py_get data (lit "list") (VList []) ;;
   match entries with
   | VList ((first :: _) as entries) =>
       found <- scan_entries tz target_date entries None None ;;
       match fst found with
       | Some best => weather_fields (VDict best) MISSING_FORECAST_TEMPERATURE
       | None =>
           match first with
           | VDict best => weather_fields (VDict best) MISSING_FORECAST_TEMPERATURE
           | _ => Ret (None, None, Some INVALID_FORECAST_ENTRY)
           end
       end
   | _ => Ret (None, None, Some MISSING_FORECAST_LIST)
   end)%outcome.

(** [_weather_from_forecast(city, api_key, target_date)] *)
Definition _weather_from_forecast (w : World) (city api_key : str)
    (target_date : Date) : IO weather :=
  ' (data, err) <- _owm_request w (lit "forecast") (owm_params city api_key) ;;
  if truthy_str err then io_ret (None, None, err)
  else io_lift (forecast_of_data data target_date).

(** ** The weather resolver *)

Definition UNAVAILABLE : str :=
  lit "Weather lookup unavailable: missing OPENWEATHER_API_KEY environment variable.".
Definition INVALID_DATE : str :=
  lit "Invalid date format. Please use YYYY-MM-DD.".

(** [os.environ.get("OPENWEATHER_API_KEY", "").strip()] *)
Definition api_key_of (w : World) : str :=
  strip (environ_get w (lit "OPENWEATHER_API_KEY") []).

Definition unavailable_message (city date : str) : str :=
  UNAVAILABLE ++ [10%N]
  ++ lit "Input: city=" ++ repr city ++ lit ", date=" ++ repr date.

(** [today <= target <= today + timedelta(days=5)]: the sum is computed
    only when the first comparison holds. *)
Definition in_forecast_window (today target : Date) : outcome bool :=
  if date_leb today target then
    (limit <- date_add_days today 5 ;; Ret (date_leb target limit))%outcome
  else Ret false.

Definition failed_prefix (city : str) (target : Date) (source : str) : str :=
  lit "Weather lookup failed for " ++ city ++ lit " on " ++ isoformat target
  ++ lit " (" ++ source ++ lit "): ".

(** Lines 174-179: the path taken and its source tag. *)
Definition weather_path (w : World) (in_window : bool) (city api_key : str)
    (target : Date) : IO (weather * str) :=
  if in_window then
    r <- _weather_from_forecast w city api_key target ;;
    io_ret (r, lit "forecast")
  else
    r <- _weather_from_current w city api_key ;;
    io_ret (r, lit "current").

(** Lines 181-186: the sentence returned for the result of a path. *)
Definition weather_sentence (city : str) (target : Date) (source : str)
    (result : weather) : str :=
  let '(temp_c, conditions, err) := result in
  if truthy_str err then
    failed_prefix city target source
    ++ match err with
       | Some e => e
       | None => lit "None"
       end
  else
    match temp_c, conditions with
    | Some t, Some c =>
        lit "Weather for " ++ city ++ lit " on " ++ isoformat target
        ++ lit " (" ++ source ++ lit "): " ++ _fmt_temp_c t
        ++ lit ", " ++ c ++ lit "."
    | _, _ => failed_prefix city target source ++ lit "unexpected response"
    end.

(** [get_weather_impl(city, date)] *)
Definition get_weather_impl (w : World) (city date : str) : IO str :=
  let api_key := api_key_of w in
  match api_key with
  | [] => io_ret (unavailable_message city date)
  | _ :: _ =>
      match _parse_yyyy_mm_dd date with
      | None => io_ret INVALID_DATE
      | Some target =>
          let today := utc_today w in
          in_window <- io_lift (in_forecast_window today target) ;;
          ' (result, source) <- weather_path w in_window city api_key target ;;
          io_ret (weather_sentence city target source result)
      end
  end.

(** [get_weather(city, date)], the tool. *)
Definition get_weather (w : World) (city date : str) : IO str :=
  get_weather_impl w city date.

(** ** The mock travel catalog *)

Record _MockFlight := mkFlight {
  airline : str; price : str; notes : option str }.

Record _MockHotel := mkHotel {
  name : str; rate_per_night : str; neighborhood : option str }.

(** A destination's entry: its ["flights"] and its ["hotels"]. *)
Record Catalog := mkCatalog {
  flights : list _MockFlight; hotels : list _MockHotel }.

Definition _MOCK_DATA : list (str * Catalog) :=
  [ (lit "tokyo",
     mkCatalog
       [ mkFlight (lit "Japan Airlines (JAL)") (lit "USD 1,120")
                  (Some (lit "Round-trip estimate"));
         mkFlight (lit "All Nippon Airways (ANA)") (lit "USD 1,080")
                  (Some (lit "Round-trip estimate"));
         mkFlight (lit "Singapore Airlines") (lit "USD 980")
                  (Some (lit "1 stop, round-trip estimate")) ]
       [ mkHotel (lit "Shinjuku City Hotel") (lit "USD 165/night")
                 (Some (lit "Shinjuku"));
         mkHotel (lit "Asakusa Riverside Inn") (lit "USD 120/night")
                 (Some (lit "Asakusa"));
         mkHotel (lit "Ginza Central Stay") (lit "USD 210/night")
                 (Some (lit "Ginza")) ]);
    (lit "udaipur",
     mkCatalog
       [ mkFlight (lit "IndiGo") (lit "INR 9,800")
                  (Some (lit "Round-trip estimate"));
         mkFlight (lit "Air India") (lit "INR 11,200")
                  (Some (lit "Round-trip estimate"));
         mkFlight (lit "Vistara") (lit "INR 12,750")
                  (Some (lit "Round-trip estimate")) ]
       [ mkHotel (lit "Lakeview Heritage Hotel") (lit "INR 5,500/night")
                 (Some (lit "Lake Pichola"));
         mkHotel (lit "Old City Haveli Stay") (lit "INR 3,200/night")
                 (Some (lit "Old City"));
         mkHotel (lit "Aravalli Resort & Spa") (lit "INR 8,900/night")
                 (Some (lit "Outskirts")) ]) ].

(** [_MOCK_DATA.get(key)] *)
Fixpoint mock_data_get (table : list (str * Catalog)) (key : str) : option Catalog :=
  match table with
  | [] => None
  | (k, c) :: rest => if str_eqb k key then Some c else mock_data_get rest key
  end.

(** ["\n".join(lines)] *)
Fixpoint join_lines (lines : list str) : str :=
  match lines with
  | [] => []
  | [l] => l
  | l :: rest => l ++ [10%N] ++ join_lines rest
  end.

Definition flight_line (f : _MockFlight) : str :=
  let extra :=
    match notes f with
    | Some ((_ :: _) as n) => lit " (" ++ n ++ lit ")"
    | _ => []
    end in
  lit "- " ++ airline f ++ lit ": " ++ price f ++ extra.

(** The dash before the neighbourhood is U+2014. *)
Definition hotel_line (h : _MockHotel) : str :=
  let extra :=
    match neighborhood h with
    | Some ((_ :: _) as n) => [32%N; 8212%N; 32%N] ++ n
    | _ => []
    end in
  lit "- " ++ name h ++ lit ": " ++ rate_per_night h ++ extra.

Definition UNSUPPORTED : str :=
  lit "Mock search only supports destination 'Tokyo' or 'Udaipur' right now.".

(** [search_travel_options_impl(origin, destination, depart_date,
    return_date)]; the arrow of the route line is U+2192.  An entry of
    [_MOCK_DATA] is a dict of two keys, never empty, so [not data] holds
    for a missing key only. *)
Definition search_travel_options_impl
    (origin destination depart_date return_date : str) : str :=
  let dest_key := lower (strip destination) in
  match mock_data_get _MOCK_DATA dest_key with
  | None =>
      UNSUPPORTED ++ [10%N]
      ++ lit "Input: origin=" ++ repr origin
      ++ lit ", destination=" ++ repr destination
      ++ lit ", depart_date=" ++ repr depart_date
      ++ lit ", return_date=" ++ repr return_date
  | Some data =>
      join_lines
        ([ lit "Travel options (MOCK DATA)";
           lit "Route: " ++ origin ++ [32%N; 8594%N; 32%N] ++ destination;
           lit "Dates: " ++ depart_date ++ lit " to " ++ return_date;
           [];
           lit "Flights:" ]
         ++ map flight_line (flights data)
         ++ [ []; lit "Hotels:" ]
         ++ map hotel_line (hotels data))
  end.

(** [search_travel_options(...)], the tool. *)
Definition search_travel_options
    (origin destination depart_date return_date : str) : str :=
  search_travel_options_impl origin destination depart_date return_date.

End Server.

(** * The planner's use of the lookups

    The functions of [lab12/streamlit_app.py] that build the client of the
    model, compute the dates of a trip and call the two lookups for them.
    [date.today()], the date of the local clock, is the argument
    [local_today]; the resolver has its own clock, the UTC date of the
    world.  Building the client is a call into a library: what it does,
    return or raise, is the argument [construct]. *)

(** The client [ChatGoogleGenerativeAI(model=..., temperature=...,
    max_output_tokens=...)], kept as its three settings. *)
Record ChatGoogleGenerativeAI := mkChatGoogleGenerativeAI {
  model : str;
  temperature : float;
  max_output_tokens : Z }.

(** The mapping that [run_planner] hands to the prompt. *)
Record PromptInputs := mkPromptInputs {
  p_user_request : str;
  p_city : str;
  p_origin : str;
  p_num_days : Z;
  p_travel_dates : str;
  p_weather_summary : str;
  p_travel_options : str;
  p_preferences : str }.

Section App.
Context {U : Unicode}.

Local Open Scope io_scope.

(** [_build_default_user_request(city, num_days, month_label)] *)
Definition _build_default_user_request (city : str) (num_days : Z)
    (month_label : option str) : str :=
  match month_label with
  | Some ((_ :: _) as label) =>
      lit "Plan a " ++ str_of_int num_days ++ lit "-day trip to " ++ city
      ++ lit " in " ++ label ++ lit "."
  | _ =>
      lit "Plan a " ++ str_of_int num_days ++ lit "-day trip to " ++ city
      ++ lit "."
  end.

(** [[start + timedelta(days=i) for i in range(i0, i0 + count)]] *)
Fixpoint date_range_from (start : Date) (i0 : Z) (count : nat)
    : outcome (list Date) :=
  match count with
  | O => Ret []
  | S k =>
      (d <- date_add_days start i0 ;;
       rest <- date_range_from start (i0 + 1) k ;;
       Ret (d :: rest))%outcome
  end.

(** [_compute_date_range(start, num_days)]; [range(n)] is empty for
    [n <= 0]. *)
Definition _compute_date_range (start : Date) (num_days : Z)
    : outcome (list Date) :=
  date_range_from start 0 (Z.to_nat num_days).

(** The loop of [_get_weather_block] over the trip dates: the lines it
    appends. *)
Fixpoint trip_weather (w : World) (city : str) (trip_dates : list Date)
    : IO (list str) :=
  match trip_dates with
  | [] => io_ret []
  | d :: rest =>
      line <- get_weather_impl w city (isoformat d) ;;
      lines <- trip_weather w city rest ;;
      io_ret (line :: lines)
  end.

(** [_get_weather_block(city, trip_dates)] *)
Definition _get_weather_block (w : World) (local_today : Date) (city : str)
    (trip_dates : list Date) : IO str :=
  let today_str := isoformat local_today in
  current <- get_weather_impl w city today_str ;;
  lines <- trip_weather w city trip_dates ;;
  io_ret (join_lines
            ([ lit "Current weather (today, " ++ today_str ++ lit "):";
               current;
               [];
               lit "Weather during trip:" ]
             ++ lines)).

(** [_get_travel_options(origin, destination, depart, return_date)] *)
Definition _get_travel_options (origin destination : str)
    (depart return_date : Date) : str :=
  search_travel_options_impl origin destination
    (isoformat depart) (isoformat return_date).

Definition MISSING_GOOGLE_API_KEY : str :=
  lit "GOOGLE_API_KEY environment variable is not set. Set it to a valid Gemini API key to run the app.".

(** The float [0.4]: the binary64 number nearest to 2/5. *)
Definition float_0_4 : float := SFdiv 53 1024 (float_of_Z 2) (float_of_Z 5).

(** [_get_llm(model_name)] *)
Definition _get_llm (w : World)
    (construct : ChatGoogleGenerativeAI -> option exn) (model_name : str)
    : outcome ChatGoogleGenerativeAI :=
  let api_key := strip (environ_get w (lit "GOOGLE_API_KEY") []) in
  match api_key with
  | [] => Raise (RuntimeError MISSING_GOOGLE_API_KEY)
  | _ :: _ =>
      let llm := mkChatGoogleGenerativeAI model_name float_0_4 2048 in
      match construct llm with
      | Some e => Raise e
      | None => Ret llm
      end
  end.

Definition NO_PREFERENCES : str := lit "No additional preferences provided.".

(** Lines 142-165 of [run_planner]: the client, then from the dates of
    the trip to the mapping handed to the prompt; the call of the model
    with it is what follows.  [trip_dates[0]] raises on the empty list;
    [trip_dates[-1]] is the last date. *)
Definition run_planner_inputs (w : World)
    (construct : ChatGoogleGenerativeAI -> option exn) (local_today : Date)
    (city origin : str) (start_date : Date) (num_days : Z)
    (month_label : option str) (preferences model_name : str)
    : IO (ChatGoogleGenerativeAI * PromptInputs) :=
  llm <- io_lift (_get_llm w construct model_name) ;;
  trip_dates <- io_lift (_compute_date_range start_date num_days) ;;
  match trip_dates with
  | [] => io_lift (Raise IndexError)
  | first_date :: _ =>
      let last_date := last trip_dates first_date in
      let travel_dates_str :=
        isoformat first_date ++ lit " to " ++ isoformat last_date in
      weather_summary <- _get_weather_block w local_today city trip_dates ;;
      let travel_options :=
        _get_travel_options origin city first_date last_date in
      let user_request :=
        _build_default_user_request city num_days month_label in
      io_ret (llm,
              mkPromptInputs user_request city origin num_days
                travel_dates_str weather_summary travel_options
                (match preferences with
                 | [] => NO_PREFERENCES
                 | _ :: _ => preferences
                 end))
  end.

End App.

(** * Specification *)

(** ** The response parser *)

(** [path_value v path r]: every key of [path] is present and every value
    on the way is a mapping; [r] is the value stored at the end. *)
Inductive path_value : value -> list str -> value -> Prop :=
  | path_here v : path_value v [] v
  | path_step d key rest v r :
      dict_lookup d key = Some v ->
      path_value v rest r ->
      path_value (VDict d) (key :: rest) r.

Definition is_dict (v : value) : bool :=
  match v with
  | VDict _ => true
  | _ => false
  end.

(** [path_broken v path]: somewhere on the way a value is not a mapping or
    lacks the next key. *)
Inductive path_broken : value -> list str -> Prop :=
  | broken_not_mapping v key rest :
      is_dict v = false -> path_broken v (key :: rest)
  | broken_missing d key rest :
      dict_lookup d key = None -> path_broken (VDict d) (key :: rest)
  | broken_deeper d key rest v :
      dict_lookup d key = Some v ->
      path_broken v rest ->
      path_broken (VDict d) (key :: rest).

(** ** Calendar arithmetic *)

(** The month and the day of the [n]-th day of a year, counted from 0: the
    end of [_ord2ymd]. *)
Definition month_day_of (n : Z) (leapyear : bool) : Z * Z :=
  let m := Z.shiftr (n + 50) 5 in
  let preceding :=
    nth (Z.to_nat m) _DAYS_BEFORE_MONTH 0
    + (if (2 <? m) && leapyear then 1 else 0) in
  if n <? preceding then
    let m := m - 1 in
    let preceding :=
      preceding - (nth (Z.to_nat m) _DAYS_IN_MONTH 0
                   + (if (m =? 2) && leapyear then 1 else 0)) in
    (m, n - preceding + 1)
  else (m, n - preceding + 1).

(** [_days_in_month] and [_days_before_month] of a year that is leap or
    not. *)
Definition dim_of (leap : bool) (m : Z) : Z :=
  if (m =? 2) && leap then 29 else nth (Z.to_nat m) _DAYS_IN_MONTH 0.
Definition dbm_of (leap : bool) (m : Z) : Z :=
  nth (Z.to_nat m) _DAYS_BEFORE_MONTH 0 + (if (2 <? m) && leap then 1 else 0).

(** Day [k] of a year falls on a day of a month, and on the right one. *)
Definition yday_ok (leap : bool) (k : nat) : bool :=
  let r := Z.of_nat k in
  let '(m, d) := month_day_of r leap in
  (1 <=? m) && (m <=? 12) && (1 <=? d) && (d <=? dim_of leap m)
  && (dbm_of leap m + d =? r + 1).

(** [a < b]: the comparison of the (year, month, day) triples. *)
Definition date_lt (a b : Date) : Prop :=
  year a < year b
  \/ (year a = year b
      /\ (month a < month b \/ (month a = month b /\ day a < day b))).

(** ** ISO calendar dates *)

(** The date a string denotes in the ISO form [YYYY-MM-DD]: four digits, a
    hyphen, two digits, a hyphen, two digits, of a date of the calendar. *)
Definition iso_calendar_date (s : str) : option Date :=
  match s with
  | [y1; y2; y3; y4; h1; m1; m2; h2; d1; d2] =>
      match ascii_digit y1, ascii_digit y2, ascii_digit y3, ascii_digit y4,
            ascii_digit m1, ascii_digit m2, ascii_digit d1, ascii_digit d2 with
      | Some a, Some b, Some c, Some d, Some e, Some f, Some g, Some h =>
          let date := mkDate (1000 * a + 100 * b + 10 * c + d) (10 * e + f) (10 * g + h) in
          if (h1 =? 45)%N && (h2 =? 45)%N && valid_date date then Some date else None
      | _, _, _, _, _, _, _, _ => None
      end
  | _ => None
  end.


(** ** The weather resolver *)

(** What [_owm_request] makes of a reply. *)
Definition owm_outcome (reply : Reply) : value * option str :=
  match reply with
  | Failed msg => (VNone, Some (lit "Request failed: " ++ msg))
  | Response status_code text body =>
      if status_code >=? 400 then
        (VNone, Some (lit "OpenWeatherMap error " ++ str_of_int status_code
                      ++ lit ": " ++ text))
      else
        match body with
        | JsonBody data => (data, None)
        | BadBody msg => (VNone, Some (lit "Request failed: " ++ msg))
        end
  end.

Definition FORECAST_URL : str := OPENWEATHER_BASE_URL ++ lit "/forecast".
Definition CURRENT_URL : str := OPENWEATHER_BASE_URL ++ lit "/weather".

(** The clock is such that [today + timedelta(days=5)] is a date. *)
Definition window_representable (w : World) : bool :=
  (0 <? toordinal (utc_today w) + 5)
  && (toordinal (utc_today w) + 5 <=? _MAXORDINAL).

(** ** Results of a weather path *)

(** The path as the window decision picks it. *)
Definition chosen_path `{Unicode} (w : World) (in_window : bool)
    (city api_key : str) (target : Date) : IO weather :=
  if in_window then _weather_from_forecast w city api_key target
  else _weather_from_current w city api_key.

Definition source_tag (in_window : bool) : str :=
  if in_window then lit "forecast" else lit "current".

(** A result carries a temperature and conditions that are not blank, and
    no error; or an error text, and neither of the two. *)
Definition well_formed `{Unicode} (r : weather) : Prop :=
  match r with
  | (Some _, Some c, None) => strip c <> []
  | (None, None, Some e) => e <> []
  | _ => False
  end.

(** An outcome is a well-formed result, or the failure of the call by an
    exception. *)
Definition well_formed_outcome `{Unicode} (o : outcome weather) : Prop :=
  match o with
  | Ret r => well_formed r
  | Raise _ => True
  end.




Definition is_digit (c : char) : bool := ((48 <=? c) && (c <=? 57))%N.

Fixpoint skip_digits (s : str) : str :=
  match s with
  | c :: rest => if is_digit c then skip_digits rest else s
  | [] => []
  end.

(** An optional minus sign, one digit or more, a point, exactly one digit. *)
Definition one_decimal_place (s : str) : bool :=
  let body :=
    match s with
    | c :: rest => if (c =? 45)%N then rest else s
    | [] => s
    end in
  match body with
  | c :: _ =>
      is_digit c
      && match skip_digits body with
         | [p; d] => (p =? 46)%N && is_digit d
         | _ => false
         end
  | [] => false
  end.

(** ** The forecast entries *)

(** The feed's UTC offset in seconds: the ["timezone"] of its ["city"] when
    that is an int, 0 when it is absent or anything else. *)
Definition feed_offset (data : value) : Z :=
  match data with
  | VDict top =>
      match dict_lookup top (lit "city") with
      | Some (VDict c) =>
          match dict_lookup c (lit "timezone") with
          | Some v =>
              match as_int v with
              | Some n => n
              | None => 0
              end
          | None => 0
          end
      | _ => 0
      end
  | _ => 0
  end.

(** The record of an entry whose local date is the target date, with its
    distance to 12:00 local time in microseconds; [None] for every other
    entry. *)
Definition entry_distance (tz : Z) (target : Date) (item : value)
    : outcome (option (dict * Z)) :=
  (found <- entry_local_dt tz item ;;
   match found with
   | Some (d, local_dt) =>
       if date_eqb (dt_date local_dt) target
       then Ret (Some (d, abs_distance local_dt (noon_of target)))
       else Ret None
   | None => Ret None
   end)%outcome.

(** The timestamp of the entry, if it has one, converts to a local
    date-time. *)
Definition converts (tz : Z) (item : value) : bool :=
  match entry_local_dt tz item with
  | Ret _ => true
  | Raise _ => false
  end.

(** Entry [i] is on the target date at distance [delta]; no entry on the
    target date is nearer to noon, and those before entry [i] are farther. *)
Definition first_nearest (tz : Z) (target : Date) (entries : list value)
    (i : nat) (best : dict) (delta : Z) : Prop :=
  nth_error entries i = Some (VDict best)
  /\ entry_distance tz target (VDict best) = Ret (Some (best, delta))
  /\ forall j item d' delta',
       nth_error entries j = Some item ->
       entry_distance tz target item = Ret (Some (d', delta')) ->
       delta <= delta' /\ ((j < i)%nat -> delta < delta').

(** What the scan knows after the entries [seen]: none was on the target
    date and it has no best, or its best is the first nearest of them. *)
Definition scanned (tz : Z) (target : Date) (seen : list value)
    (best : option dict) (best_delta : option Z) : Prop :=
  match best, best_delta with
  | None, None =>
      forall item, In item seen -> entry_distance tz target item = Ret None
  | Some d, Some delta => exists i, first_nearest tz target seen i d delta
  | _, _ => False
  end.

(** ** The travel catalog *)


(** ** Digits of the ISO form *)

(** The character of a decimal digit. *)
Definition digit_char (k : Z) : char := Z.to_N (48 + k).

(** The number [y] written with four digits, the number [n] with two. *)
Definition four_digits (y : Z) : str :=
  [ digit_char (y / 1000); digit_char (y / 100 mod 10);
    digit_char (y / 10 mod 10); digit_char (y mod 10) ].
Definition two_digits (n : Z) : str :=
  [ digit_char (n / 10); digit_char (n mod 10) ].

Definition four_digits_ok (y : nat) : bool :=
  str_eqb (zfill 4 (dec (Z.of_nat y))) (four_digits (Z.of_nat y)).
Definition two_digits_ok (n : nat) : bool :=
  str_eqb (zfill 2 (dec (Z.of_nat n))) (two_digits (Z.of_nat n)).

(** ** The requests of a lookup *)

(** The date is at least the UTC date of the clock and at most five days
    after it. *)
Definition within_window (w : World) (d : Date) : bool :=
  (toordinal (utc_today w) <=? toordinal d)
  && (toordinal d <=? toordinal (utc_today w) + 5).

(** The request of a lookup for the city and the date. *)
Definition lookup_request `{Unicode} (w : World) (city : str) (d : Date) : Request :=
  mkRequest
    (if within_window w d then FORECAST_URL else CURRENT_URL)
    [(lit "q", city); (lit "appid", api_key_of w); (lit "units", lit "metric")]
    15.

(** All characters are white space. *)
Definition all_space `{Unicode} (s : str) : bool := forallb isspace s.

(** ** The reasons of a failed lookup *)

(** The texts that a path returns as its error: of a request that
    failed, of a status from 400 on, of a reply of an unexpected shape. *)
Definition known_reason (e : str) : Prop :=
  (exists msg, e = lit "Request failed: " ++ msg)
  \/ (exists status_code text,
        e = lit "OpenWeatherMap error " ++ str_of_int status_code
            ++ lit ": " ++ text)
  \/ In e [ MISSING_TEMPERATURE; MISSING_FORECAST_TEMPERATURE;
            MISSING_FORECAST_LIST; INVALID_FORECAST_ENTRY ].

(** ** Sample data for the examples *)

(** A Unicode database that knows nothing beyond ASCII.  The examples use
    ASCII text only, which no database is asked about. *)
Definition ascii_only : Unicode :=
  {| uni_isspace := fun _ => false;
     uni_todecimal := fun _ => None;
     uni_isprintable := fun _ => false;
     uni_lower := fun s => s |}.

(** A world with the given credential, date and reply to every request. *)
Definition sample_world (key : option str) (today : Date) (reply : Reply) : World :=
  mkWorld (fun name => if str_eqb name (lit "OPENWEATHER_API_KEY") then key else None)
          today (fun _ => reply).

(** The first of January 2030, the day of the examples. *)
Definition sample_today : Date := mkDate 2030 1 1.

(** A forecast entry: timestamp, temperature in half degrees, description. *)
Definition sample_entry (dt : Z) (half_degrees : Z) (desc : string) : value :=
  VDict [ (lit "dt", VInt dt);
          (lit "main",
           VDict [(lit "temp", VFloat (binary_normalize 53 1024 half_degrees (-1) false))]);
          (lit "weather", VList [VDict [(lit "description", VStr (lit desc))]]) ].

(** A feed of a zone nine hours east of UTC: an entry of 1 January, then the
    entries of 09:00, 12:00 and 15:00 local time of 2 January, then one of
    3 January. *)
Definition sample_feed : value :=
  VDict [ (lit "city", VDict [(lit "timezone", VInt 32400)]);
          (lit "list",
           VList [ sample_entry 1893477600 10 "the day before";
                   sample_entry 1893542400 21 "nine";
                   sample_entry 1893553200 43 "noon";
                   sample_entry 1893564000 45 "three";
                   sample_entry 1893639600 30 "the day after" ]) ].

Definition sample_entries : list value :=
  match sample_feed with
  | VDict [_; (_, VList l)] => l
  | _ => []
  end.

(** The feed with an entry whose timestamp is [10^20] at its end. *)
Definition overflowing_feed : value :=
  VDict [ (lit "list",
           VList [ sample_entry 1893553200 43 "noon";
                   VDict [(lit "dt", VInt (10 ^ 20))] ]) ].

(** A report of current conditions with the given temperature. *)
Definition sample_current (temp : value) : value :=
  VDict [ (lit "main", VDict [(lit "temp", temp)]);
          (lit "weather", VList [VDict [(lit "description", VStr (lit "clear sky"))]]) ].

Definition ok_world (data : value) : World :=
  sample_world (Some (lit "secret")) sample_today (Response 200 [] (JsonBody data)).

(** A world of the planner: the key of the model, the credential of the
    weather provider, the date and the reply to every request. *)
Definition planner_world (model_key weather_key : option str) (today : Date)
    (reply : Reply) : World :=
  mkWorld (fun name =>
             if str_eqb name (lit "GOOGLE_API_KEY") then model_key
             else if str_eqb name (lit "OPENWEATHER_API_KEY") then weather_key
             else None)
          today (fun _ => reply).

(** A library that builds every client. *)
Definition builds_every_client : ChatGoogleGenerativeAI -> option exn :=
  fun _ => None.

(** * Proofs *)

Lemma Ret_inj {A} (a b : A) : Ret a = Ret b -> a = b.
Proof. intros H. injection H as H. exact H. Qed.

(** ** The response parser *)

Lemma dict_contains_lookup d key :
  dict_contains d key = true <-> exists v, dict_lookup d key = Some v.
Proof.
  unfold dict_contains. destruct (dict_lookup d key) as [v|].
  - split; [eauto | reflexivity].
  - split; [discriminate | intros [v Hv]; discriminate].
Qed.

Lemma _safe_get_step d key rest :
  _safe_get (VDict d) (key :: rest) =
  match dict_lookup d key with
  | Some v => _safe_get v rest
  | None => Ret VNone
  end.
Proof.
  simpl. unfold dict_contains, dict_getitem.
  destruct (dict_lookup d key); reflexivity.
Qed.

Lemma _safe_get_value cur path r :
  path_value cur path r -> _safe_get cur path = Ret r.
Proof.
  induction 1 as [v | d key rest v r Hlook _ IH].
  - reflexivity.
  - rewrite _safe_get_step, Hlook. exact IH.
Qed.

Lemma _safe_get_broken cur path :
  path_broken cur path -> _safe_get cur path = Ret VNone.
Proof.
  induction 1 as [v key rest Hnd | d key rest Hlook | d key rest v Hlook _ IH].
  - destruct v; try reflexivity. discriminate.
  - rewrite _safe_get_step, Hlook. reflexivity.
  - rewrite _safe_get_step, Hlook. exact IH.
Qed.

Lemma path_value_or_broken path : forall cur,
  (exists r, path_value cur path r) \/ path_broken cur path.
Proof.
  induction path as [| key rest IH]; intro cur.
  - left. exists cur. constructor.
  - destruct cur as [| b | n | f | s | l | d];
      try (right; apply broken_not_mapping; reflexivity).
    destruct (dict_lookup d key) as [v|] eqn:Hlook.
    + destruct (IH v) as [[r Hr] | Hb].
      * left. exists r. econstructor; eassumption.
      * right. eapply broken_deeper; eassumption.
    + right. apply broken_missing. exact Hlook.
Qed.

Lemma _safe_get_returns cur path : exists r, _safe_get cur path = Ret r.
Proof.
  destruct (path_value_or_broken path cur) as [[r Hr] | Hb].
  - exists r. apply _safe_get_value. exact Hr.
  - exists VNone. apply _safe_get_broken. exact Hb.
Qed.

(** C3. [_safe_get] returns the value stored at the path when every key on
    the way is present in a mapping, returns [None] when a key is missing or
    a value on the way is not a mapping, and one of the two always holds:
    it returns for every value and every path, it never raises. *)
Theorem safe_get_total_and_exact (cur : value) (path : list str) :
  (forall r, path_value cur path r -> _safe_get cur path = Ret r)
  /\ (path_broken cur path -> _safe_get cur path = Ret VNone)
  /\ ((exists r, path_value cur path r) \/ path_broken cur path)
  /\ (exists r, _safe_get cur path = Ret r).
Proof.
  split; [| split; [| split]].
  - intros r. apply _safe_get_value.
  - apply _safe_get_broken.
  - apply path_value_or_broken.
  - apply _safe_get_returns.
Qed.

(** ** Calendar arithmetic *)

Lemma days_before_year_succ y :
  _days_before_year (y + 1) = _days_before_year y + 365 + (if _is_leap y then 1 else 0).
Proof.
  unfold _days_before_year, _is_leap.
  replace (y + 1 - 1) with y by lia.
  destruct (y mod 4 =? 0) eqn:H4; destruct (y mod 100 =? 0) eqn:H100; destruct (y mod 400 =? 0) eqn:H400; cbn [andb orb negb];
  rewrite ?Z.eqb_eq, ?Z.eqb_neq in *; 
  Z.div_mod_to_equations; lia.
Qed.

Lemma days_before_year_mono y k :
  0 <= k -> _days_before_year y + 365 * k <= _days_before_year (y + k).
Proof.
  intros Hk. pattern k. apply natlike_ind; [| | exact Hk]; cbv beta.
  - rewrite !Z.add_0_r. apply Z.le_refl.
  - intros x Hx IH. replace (y + Z.succ x) with (y + x + 1) by lia.
    rewrite days_before_year_succ. destruct (_is_leap (y + x)); lia.
Qed.

Lemma yday_ok_all :
  forallb (yday_ok true) (seq 0%nat 366%nat) = true /\ forallb (yday_ok false) (seq 0%nat 365%nat) = true.
Proof. split; vm_compute; reflexivity. Qed.

Lemma month_day_of_spec (leap : bool) (r : Z) :
  0 <= r < 365 + (if leap then 1 else 0) ->
  let '(m, d) := month_day_of r leap in
  1 <= m <= 12 /\ 1 <= d <= dim_of leap m /\ dbm_of leap m + d = r + 1.
Proof.
  intros Hr.
  assert (Hok : yday_ok leap (Z.to_nat r) = true).
  { destruct yday_ok_all as [Ht Hf]. destruct leap.
    - rewrite forallb_forall in Ht. apply Ht. apply in_seq. lia.
    - rewrite forallb_forall in Hf. apply Hf. apply in_seq. lia. }
  unfold yday_ok in Hok. rewrite Z2Nat.id in Hok by lia.
  destruct (month_day_of r leap) as [m d].
  repeat (apply andb_true_iff in Hok; destruct Hok as [Hok ?]).
  rewrite ?Z.leb_le, ?Z.eqb_eq in *. lia.
Qed.

Lemma ord2ymd_correct n :
  1 <= n <= _MAXORDINAL ->
  valid_date (_ord2ymd n) = true /\ toordinal (_ord2ymd n) = n.
Proof.
  unfold _MAXORDINAL. intros Hn.
  unfold _ord2ymd, _DI400Y, _DI100Y, _DI4Y.
  remember (n - 1) as n0 eqn:En0.
  remember (n0 / 146097) as q400 eqn:Eq400.
  remember (n0 mod 146097) as r400 eqn:Er400.
  remember (r400 / 36524) as q100 eqn:Eq100.
  remember (r400 mod 36524) as r100 eqn:Er100.
  remember (r100 / 1461) as q4 eqn:Eq4.
  remember (r100 mod 1461) as r4 eqn:Er4.
  remember (r4 / 365) as q1 eqn:Eq1.
  remember (r4 mod 365) as r eqn:Er.
  assert (Hfacts : n0 = 146097 * q400 + r400 /\ 0 <= r400 < 146097
                   /\ r400 = 36524 * q100 + r100 /\ 0 <= r100 < 36524
                   /\ r100 = 1461 * q4 + r4 /\ 0 <= r4 < 1461
                   /\ r4 = 365 * q1 + r /\ 0 <= r < 365).
  { subst q400 r400 q100 r100 q4 r4 q1 r. 
    repeat split; try (apply Z.div_mod; lia); try (apply Z.mod_pos_bound; lia). }
  clear Eq400 Er400 Eq100 Er100 Eq4 Er4 Eq1 Er.
  destruct Hfacts as (H1 & H2 & H3 & H4 & H5 & H6 & H7 & H8).
  assert (Hq : 0 <= q400 <= 24 /\ 0 <= q100 <= 4 /\ 0 <= q4 <= 24 /\ 0 <= q1 <= 4) by lia.
  destruct ((q1 =? 4) || (q100 =? 4)) eqn:Hend.
  - apply orb_true_iff in Hend. rewrite !Z.eqb_eq in Hend.
    assert (Hleap : _is_leap (q400 * 400 + 1 + q100 * 100 + q4 * 4 + q1 - 1) = true).
    { unfold _is_leap. apply andb_true_iff. split.
      - apply Z.eqb_eq. Z.div_mod_to_equations. lia.
      - apply orb_true_iff.
        destruct (Z.eq_dec q100 4) as [E100 | N100].
        + right. apply Z.eqb_eq. Z.div_mod_to_equations. lia.
        + left. apply negb_true_iff, Z.eqb_neq. Z.div_mod_to_equations. lia. }
    unfold valid_date, toordinal, _ymd2ord, _days_in_month, _days_before_month.
    cbn [year month day]. rewrite Hleap.
    change (nth (Z.to_nat 12) _DAYS_IN_MONTH 0) with 31.
    change (nth (Z.to_nat 12) _DAYS_BEFORE_MONTH 0) with 334.
    change ((12 =? 2) && true) with false. change ((2 <? 12) && true) with true.
    cbv iota. split.
    + repeat (apply andb_true_iff; split); apply Z.leb_le; lia.
    + unfold _days_before_year. Z.div_mod_to_equations. lia.
  - apply orb_false_iff in Hend. rewrite !Z.eqb_neq in Hend.
    set (leapyear := (q1 =? 3) && (negb (q4 =? 24) || (q100 =? 3))).
    set (y := q400 * 400 + 1 + q100 * 100 + q4 * 4 + q1).
    assert (Hleap : _is_leap y = leapyear).
    { unfold _is_leap, leapyear, y.
      destruct (Z.eq_dec q1 3) as [E1 | N1].
      - replace (q1 =? 3) with true by (symmetry; apply Z.eqb_eq; exact E1).
        replace ((q400 * 400 + 1 + q100 * 100 + q4 * 4 + q1) mod 4 =? 0) with true
          by (symmetry; apply Z.eqb_eq; Z.div_mod_to_equations; lia).
        cbn [andb]. 
        destruct (Z.eq_dec q4 24) as [E4 | N4].
        + replace (q4 =? 24) with true by (symmetry; apply Z.eqb_eq; exact E4).
          replace ((q400 * 400 + 1 + q100 * 100 + q4 * 4 + q1) mod 100 =? 0) with true
            by (symmetry; apply Z.eqb_eq; Z.div_mod_to_equations; lia).
          cbn [negb orb].
          destruct (Z.eq_dec q100 3) as [E100 | N100].
          * replace (q100 =? 3) with true by (symmetry; apply Z.eqb_eq; exact E100).
            apply Z.eqb_eq. Z.div_mod_to_equations. lia.
          * replace (q100 =? 3) with false by (symmetry; apply Z.eqb_neq; exact N100).
            apply Z.eqb_neq. Z.div_mod_to_equations. lia.
        + replace (q4 =? 24) with false by (symmetry; apply Z.eqb_neq; exact N4).
          replace ((q400 * 400 + 1 + q100 * 100 + q4 * 4 + q1) mod 100 =? 0) with false
            by (symmetry; apply Z.eqb_neq; Z.div_mod_to_equations; lia).
          reflexivity.
      - replace (q1 =? 3) with false by (symmetry; apply Z.eqb_neq; exact N1).
        replace ((q400 * 400 + 1 + q100 * 100 + q4 * 4 + q1) mod 4 =? 0) with false
          by (symmetry; apply Z.eqb_neq; Z.div_mod_to_equations; lia).
        reflexivity. }
    assert (Htail :
      (let m := Z.shiftr (r + 50) 5 in
       let preceding :=
         nth (Z.to_nat m) _DAYS_BEFORE_MONTH 0
         + (if (2 <? m) && leapyear then 1 else 0) in
       if r <? preceding then
         let m0 := m - 1 in
         let preceding0 :=
           preceding - (nth (Z.to_nat m0) _DAYS_IN_MONTH 0
                        + (if (m0 =? 2) && leapyear then 1 else 0)) in
         mkDate y m0 (r - preceding0 + 1)
       else mkDate y m (r - preceding + 1))
      = mkDate y (fst (month_day_of r leapyear)) (snd (month_day_of r leapyear))).
    { unfold month_day_of. cbv zeta.
      destruct (r <? _); reflexivity. }
    cbv zeta. fold leapyear. fold y. cbv zeta in Htail. rewrite Htail.
    pose proof (month_day_of_spec leapyear r) as Hmd.
    destruct (month_day_of r leapyear) as [m d]. cbn [fst snd].
    assert (Hr : 0 <= r < 365 + (if leapyear then 1 else 0)) by (destruct leapyear; lia).
    specialize (Hmd Hr). destruct Hmd as (Hm & Hd & Hsum).
    unfold dim_of, dbm_of in *.
    unfold valid_date, toordinal, _ymd2ord, _days_in_month, _days_before_month.
    cbn [year month day]. rewrite Hleap. split.
    + unfold y. repeat (apply andb_true_iff; split); apply Z.leb_le; lia.
    + assert (Hdby : _days_before_year y = n0 - r).
      { unfold _days_before_year, y. Z.div_mod_to_equations. lia. }
      lia.
Qed.

Ltac month_cases m H :=
  let Hc := fresh "Hc" in
  assert (Hc : m = 1 \/ m = 2 \/ m = 3 \/ m = 4 \/ m = 5 \/ m = 6 \/ m = 7
               \/ m = 8 \/ m = 9 \/ m = 10 \/ m = 11 \/ m = 12) by lia;
  clear H;
  repeat (destruct Hc as [-> | Hc]); [.. | subst m].

Lemma month_bounds leap m :
  1 <= m <= 12 ->
  0 <= dbm_of leap m /\ 1 <= dim_of leap m
  /\ dbm_of leap m + dim_of leap m <= 365 + (if leap then 1 else 0).
Proof.
  intros Hm. month_cases m Hm; destruct leap; vm_compute; intuition discriminate.
Qed.

Lemma month_length leap m : 1 <= m <= 12 -> 28 <= dim_of leap m <= 31.
Proof.
  intros Hm. month_cases m Hm; destruct leap; vm_compute; intuition discriminate.
Qed.

Lemma month_before leap m m' :
  1 <= m -> m < m' -> m' <= 12 ->
  dbm_of leap m + dim_of leap m <= dbm_of leap m'.
Proof.
  intros H1 Hlt H12.
  assert (Hm : 1 <= m <= 12) by lia. assert (Hm' : 1 <= m' <= 12) by lia.
  month_cases m Hm; month_cases m' Hm'; try lia;
    destruct leap; vm_compute; discriminate.
Qed.

Lemma valid_date_fields d :
  valid_date d = true ->
  1 <= year d <= 9999 /\ 1 <= month d <= 12
  /\ 1 <= day d <= dim_of (_is_leap (year d)) (month d).
Proof.
  unfold valid_date, _days_in_month, dim_of. intros H.
  repeat (apply andb_true_iff in H; destruct H as [H ?]).
  rewrite ?Z.leb_le in *. lia.
Qed.

Lemma toordinal_unfold d :
  toordinal d = _days_before_year (year d) + dbm_of (_is_leap (year d)) (month d) + day d.
Proof. reflexivity. Qed.

Lemma toordinal_in_year d :
  valid_date d = true ->
  _days_before_year (year d) < toordinal d <= _days_before_year (year d + 1).
Proof.
  intros Hv. apply valid_date_fields in Hv. destruct Hv as (_ & Hm & Hd).
  rewrite toordinal_unfold, days_before_year_succ.
  pose proof (month_bounds (_is_leap (year d)) (month d) Hm). lia.
Qed.

Lemma toordinal_lt a b :
  valid_date a = true -> valid_date b = true -> date_lt a b ->
  toordinal a < toordinal b.
Proof.
  intros Ha Hb Hlt.
  pose proof (toordinal_in_year a Ha) as Hya.
  pose proof (toordinal_in_year b Hb) as Hyb.
  pose proof (valid_date_fields a Ha) as (_ & Hma & Hda).
  pose proof (valid_date_fields b Hb) as (_ & Hmb & Hdb).
  destruct Hlt as [Hy | [Hy [Hm | [Hm Hd]]]].
  - pose proof (days_before_year_mono (year a + 1) (year b - year a - 1)) as Hmono.
    replace (year a + 1 + (year b - year a - 1)) with (year b) in Hmono by lia.
    lia.
  - rewrite !toordinal_unfold, <- Hy.
    rewrite <- Hy in Hdb.
    pose proof (month_before (_is_leap (year a)) (month a) (month b)).
    lia.
  - rewrite !toordinal_unfold, <- Hy, <- Hm. lia.
Qed.

Lemma date_leb_cases a b :
  (date_leb a b = true
   /\ (date_lt a b \/ (year a = year b /\ month a = month b /\ day a = day b)))
  \/ (date_leb a b = false /\ date_lt b a).
Proof.
  unfold date_leb, date_lt.
  destruct (Z.ltb_spec (year a) (year b)); [left; cbn; split; [reflexivity | lia] |].
  destruct (Z.eqb_spec (year a) (year b)); [| right; cbn; split; [reflexivity | lia]].
  destruct (Z.ltb_spec (month a) (month b)); [left; cbn; split; [reflexivity | lia] |].
  destruct (Z.eqb_spec (month a) (month b)); [| right; cbn; split; [reflexivity | lia]].
  destruct (Z.leb_spec (day a) (day b)); [left | right]; cbn; split; try reflexivity; lia.
Qed.

Lemma date_leb_ordinal a b :
  valid_date a = true -> valid_date b = true ->
  date_leb a b = (toordinal a <=? toordinal b).
Proof.
  intros Ha Hb.
  destruct (date_leb_cases a b) as [[Hleb [Hlt | (Hy & Hm & Hd)]] | [Hleb Hlt]];
    rewrite Hleb; symmetry.
  - apply Z.leb_le. pose proof (toordinal_lt a b Ha Hb Hlt). lia.
  - apply Z.leb_le. rewrite !toordinal_unfold, Hy, Hm, Hd. lia.
  - apply Z.leb_gt. exact (toordinal_lt b a Hb Ha Hlt).
Qed.

Lemma toordinal_positive d : valid_date d = true -> 1 <= toordinal d.
Proof.
  intros Hv. pose proof (toordinal_in_year d Hv) as Hin.
  apply valid_date_fields in Hv. destruct Hv as (Hy & _ & _).
  pose proof (days_before_year_mono 1 (year d - 1)) as Hmono.
  replace (1 + (year d - 1)) with (year d) in Hmono by lia.
  change (_days_before_year 1) with 0 in Hmono. lia.
Qed.

(** The window test in day numbers: the comparison of dates is that of
    their ordinals, and five days after a date is the date five ordinals
    further. *)
Lemma in_forecast_window_ordinal today target :
  valid_date today = true -> valid_date target = true ->
  toordinal today + 5 <= _MAXORDINAL ->
  in_forecast_window today target =
  Ret ((toordinal today <=? toordinal target)
       && (toordinal target <=? toordinal today + 5)).
Proof.
  intros Htoday Htarget Hmax. unfold in_forecast_window.
  rewrite (date_leb_ordinal today target Htoday Htarget).
  destruct (toordinal today <=? toordinal target); [| reflexivity].
  pose proof (toordinal_positive today Htoday) as Hpos.
  unfold date_add_days.
  replace (0 <? toordinal today + 5) with true by (symmetry; apply Z.ltb_lt; lia).
  replace (toordinal today + 5 <=? _MAXORDINAL) with true
    by (symmetry; apply Z.leb_le; exact Hmax).
  cbn [andb obind].
  destruct (ord2ymd_correct (toordinal today + 5)) as [Hvalid Hord]; [lia |].
  unfold fromordinal.
  rewrite (date_leb_ordinal target _ Htarget Hvalid), Hord. reflexivity.
Qed.

Lemma forecast_url_is_not_current : FORECAST_URL <> CURRENT_URL.
Proof.
  unfold FORECAST_URL, CURRENT_URL. intros H. apply app_inv_head in H.
  discriminate H.
Qed.

(** ** Digits of a date *)

Lemma ascii_digit_cases c v :
  ascii_digit c = Some v ->
  (c = 48 \/ c = 49 \/ c = 50 \/ c = 51 \/ c = 52 \/ c = 53 \/ c = 54 \/ c = 55
   \/ c = 56 \/ c = 57)%N.
Proof.
  unfold ascii_digit. destruct ((48 <=? c) && (c <=? 57))%N eqn:H; [| discriminate].
  intros _. apply andb_true_iff in H. destruct H as [H1 H2].
  apply N.leb_le in H1, H2. lia.
Qed.

Ltac digit_cases c H :=
  let Hc := fresh "Hc" in
  pose proof (ascii_digit_cases _ _ H) as Hc;
  repeat (destruct Hc as [-> | Hc]); [.. | subst c];
  vm_compute in H; injection H as <-.

Lemma re_m_two_digits (s : str) m1 m2 e f rest :
  s = m1 :: m2 :: 45%N :: rest ->
  ascii_digit m1 = Some e -> ascii_digit m2 = Some f -> 1 <= 10 * e + f <= 12 ->
  exists others, re_m s = (10 * e + f, 45%N :: rest) :: others.
Proof.
  intros -> H1 H2 Hm. digit_cases m1 H1; digit_cases m2 H2; try lia;
    eexists; reflexivity.
Qed.

(** ** Decimal digits *)

Lemma uint_chars_digits d : forallb is_digit (uint_chars d) = true.
Proof. induction d; simpl; auto. Qed.

Lemma uint_chars_nonempty d : d <> Decimal.Nil -> uint_chars d <> [].
Proof. destruct d; simpl; intros H; try discriminate. contradiction. Qed.

Lemma dec_digits n : forallb is_digit (dec n) = true.
Proof. apply uint_chars_digits. Qed.

Lemma dec_nonempty n : dec n <> [].
Proof.
  unfold dec. apply uint_chars_nonempty.
  destruct (Z.to_N n) as [| p]; simpl.
  - discriminate.
  - apply Unsigned.to_uint_nonnil.
Qed.

Lemma dec_one_digit k :
  0 <= k < 10 -> exists d, dec k = [d] /\ is_digit d = true.
Proof.
  intros Hk.
  assert (Hcases : k = 0 \/ k = 1 \/ k = 2 \/ k = 3 \/ k = 4 \/ k = 5
                   \/ k = 6 \/ k = 7 \/ k = 8 \/ k = 9) by lia.
  repeat (destruct Hcases as [-> | Hcases]; [eexists; split; reflexivity |]).
  subst k. eexists; split; reflexivity.
Qed.

Lemma skip_digits_to_point ds rest :
  forallb is_digit ds = true -> skip_digits (ds ++ 46%N :: rest) = 46%N :: rest.
Proof.
  induction ds as [| c ds IH]; simpl.
  - reflexivity.
  - intros H. apply andb_true_iff in H. destruct H as [Hc Hds].
    rewrite Hc. exact (IH Hds).
Qed.

Lemma digit_is_not_minus c : is_digit c = true -> (c =? 45)%N = false.
Proof.
  unfold is_digit. intros H. apply andb_true_iff in H. destruct H as [H _].
  apply N.leb_le in H. apply N.eqb_neq. lia.
Qed.

Lemma one_decimal_place_digits (minus : bool) ds d :
  ds <> [] -> forallb is_digit ds = true -> is_digit d = true ->
  one_decimal_place ((if minus then lit "-" else []) ++ ds ++ lit "." ++ [d]) = true.
Proof.
  intros Hne Hds Hd. destruct ds as [| c ds]; [contradiction |].
  assert (Hc : is_digit c = true).
  { simpl in Hds. apply andb_true_iff in Hds. tauto. }
  assert (Hbody : one_decimal_place ((c :: ds) ++ 46%N :: [d]) = true).
  { unfold one_decimal_place. cbn [app]. rewrite (digit_is_not_minus c Hc).
    rewrite Hc. change (c :: ds ++ 46%N :: [d]) with ((c :: ds) ++ 46%N :: [d]).
    rewrite (skip_digits_to_point (c :: ds) [d] Hds). simpl. exact Hd. }
  destruct minus.
  - unfold one_decimal_place. change (lit "-" ++ (c :: ds) ++ lit "." ++ [d])
      with (45%N :: c :: ds ++ 46%N :: [d]).
    cbn [N.eqb Pos.eqb]. rewrite Hc.
    change (c :: ds ++ 46%N :: [d]) with ((c :: ds) ++ 46%N :: [d]).
    rewrite (skip_digits_to_point (c :: ds) [d] Hds). simpl. exact Hd.
  - exact Hbody.
Qed.

Lemma fmt_1f_one_decimal x :
  is_finite x = true -> one_decimal_place (fmt_1f x) = true.
Proof.
  destruct x as [s | s | | s m e]; try discriminate; intros _.
  - destruct s; reflexivity.
  - unfold fmt_1f.
    destruct (dec_one_digit (scaled_magnitude m e 10 mod 10)) as [d [Hd Hdig]].
    { apply Z.mod_pos_bound. lia. }
    rewrite Hd.
    apply one_decimal_place_digits;
      [apply dec_nonempty | apply dec_digits | exact Hdig].
Qed.

(** ** The scan of the forecast entries *)

Section Scan.
Variables (tz : Z) (target : Date).

Lemma entry_distance_record item d delta :
  entry_distance tz target item = Ret (Some (d, delta)) -> item = VDict d.
Proof.
  unfold entry_distance, entry_local_dt.
  destruct item as [| b | n | f | s | l | d0]; try discriminate.
  destruct (negb (is_number (dict_get d0 (lit "dt") VNone))); [discriminate |].
  destruct (py_float _) as [x | e]; [| discriminate]. cbn [obind].
  destruct (utcfromtimestamp x) as [utc | e]; [| discriminate]. cbn [obind].
  destruct (astimezone utc tz) as [local_dt | e]; [| discriminate]. cbn [obind].
  destruct (date_eqb (dt_date local_dt) target); [| discriminate].
  intros H. apply Ret_inj in H. injection H as H _. subst d0. reflexivity.
Qed.

Lemma converts_distance item :
  converts tz item = true -> exists o, entry_distance tz target item = Ret o.
Proof.
  unfold converts, entry_distance.
  destruct (entry_local_dt tz item) as [[[d local_dt] |] | e];
    [| | discriminate]; intros _; cbn [obind].
  - destruct (date_eqb (dt_date local_dt) target); eauto.
  - eauto.
Qed.

Lemma scan_entries_cons item rest best best_delta :
  scan_entries tz target (item :: rest) best best_delta =
  obind (entry_distance tz target item) (fun o =>
    match o with
    | None => scan_entries tz target rest best best_delta
    | Some (d, delta) =>
        if match best_delta with
           | None => true
           | Some bd => delta <? bd
           end
        then scan_entries tz target rest (Some d) (Some delta)
        else scan_entries tz target rest best best_delta
    end).
Proof.
  cbn [scan_entries]. unfold entry_distance.
  destruct (entry_local_dt tz item) as [[[d local_dt] |] | e]; cbn [obind];
    try reflexivity.
  destruct (date_eqb (dt_date local_dt) target); reflexivity.
Qed.

Lemma nth_error_snoc_old {A} (l : list A) (x : A) j y :
  nth_error (l ++ [x]) j = Some y -> (j < List.length l)%nat -> nth_error l j = Some y.
Proof. intros H Hj. rewrite nth_error_app1 in H by exact Hj. exact H. Qed.

Lemma nth_error_snoc_cases {A} (l : list A) (x : A) j y :
  nth_error (l ++ [x]) j = Some y ->
  ((j < List.length l)%nat /\ nth_error l j = Some y) \/ (j = List.length l /\ y = x).
Proof.
  intros H.
  assert (Hlt : (j < List.length (l ++ [x]))%nat).
  { apply nth_error_Some. rewrite H. discriminate. }
  rewrite length_app in Hlt. simpl in Hlt.
  destruct (Nat.lt_ge_cases j (List.length l)) as [Hj | Hj].
  - left. split; [exact Hj | exact (nth_error_snoc_old l x j y H Hj)].
  - right. assert (j = List.length l) by lia. subst j. split; [reflexivity |].
    rewrite nth_error_app2 in H by lia. rewrite Nat.sub_diag in H.
    simpl in H. congruence.
Qed.

(** An entry off the target date changes nothing. *)
Lemma scanned_skip seen item best best_delta :
  scanned tz target seen best best_delta ->
  entry_distance tz target item = Ret None ->
  scanned tz target (seen ++ [item]) best best_delta.
Proof.
  unfold scanned. intros Hinv Hitem.
  destruct best as [d |], best_delta as [delta |]; try contradiction.
  - destruct Hinv as [i [Hnth [Hdist Hmin]]]. exists i.
    assert (Hi : (i < List.length seen)%nat).
    { apply nth_error_Some. rewrite Hnth. discriminate. }
    split; [| split].
    + rewrite nth_error_app1 by exact Hi. exact Hnth.
    + exact Hdist.
    + intros j item' d' delta' Hj Hd'.
      destruct (nth_error_snoc_cases _ _ _ _ Hj) as [[_ Hold] | [_ ->]].
      * exact (Hmin j item' d' delta' Hold Hd').
      * rewrite Hitem in Hd'. discriminate.
  - intros item' Hin. apply in_app_or in Hin. destruct Hin as [Hin | [<- | []]].
    + exact (Hinv item' Hin).
    + exact Hitem.
Qed.

(** An entry on the target date becomes the best when it is the first, or
    strictly nearer to noon than the best so far. *)
Lemma scanned_match seen item d delta best best_delta :
  scanned tz target seen best best_delta ->
  entry_distance tz target item = Ret (Some (d, delta)) ->
  if match best_delta with
     | None => true
     | Some bd => delta <? bd
     end
  then scanned tz target (seen ++ [item]) (Some d) (Some delta)
  else scanned tz target (seen ++ [item]) best best_delta.
Proof.
  intros Hinv Hitem.
  pose proof (entry_distance_record item d delta Hitem) as ->.
  unfold scanned in *.
  destruct best as [d0 |], best_delta as [delta0 |]; try contradiction.
  - destruct Hinv as [i [Hnth [Hdist Hmin]]].
    assert (Hi : (i < List.length seen)%nat).
    { apply nth_error_Some. rewrite Hnth. discriminate. }
    destruct (delta <? delta0) eqn:Hlt.
    + apply Z.ltb_lt in Hlt. exists (List.length seen). split; [| split].
      * rewrite nth_error_app2 by lia. rewrite Nat.sub_diag. reflexivity.
      * exact Hitem.
      * intros j item' d' delta' Hj Hd'.
        destruct (nth_error_snoc_cases _ _ _ _ Hj) as [[Hjlt Hold] | [-> ->]].
        -- destruct (Hmin j item' d' delta' Hold Hd') as [Hle _]. lia.
        -- rewrite Hitem in Hd'. apply Ret_inj in Hd'.
           injection Hd' as _ <-. lia.
    + apply Z.ltb_ge in Hlt. exists i. split; [| split].
      * rewrite nth_error_app1 by exact Hi. exact Hnth.
      * exact Hdist.
      * intros j item' d' delta' Hj Hd'.
        destruct (nth_error_snoc_cases _ _ _ _ Hj) as [[Hjlt Hold] | [-> ->]].
        -- exact (Hmin j item' d' delta' Hold Hd').
        -- rewrite Hitem in Hd'. apply Ret_inj in Hd'.
           injection Hd' as _ <-. lia.
  - exists (List.length seen). split; [| split].
    + rewrite nth_error_app2 by lia. rewrite Nat.sub_diag. reflexivity.
    + exact Hitem.
    + intros j item' d' delta' Hj Hd'.
      destruct (nth_error_snoc_cases _ _ _ _ Hj) as [[Hjlt Hold] | [-> ->]].
      * apply nth_error_In in Hold. rewrite (Hinv item' Hold) in Hd'. discriminate.
      * rewrite Hitem in Hd'. apply Ret_inj in Hd'.
        injection Hd' as _ <-. lia.
Qed.

(** The scan returns when every timestamp converts, and knows the entries
    it has gone through. *)
Lemma scan_entries_scanned rest : forall seen best best_delta,
  forallb (converts tz) rest = true ->
  scanned tz target seen best best_delta ->
  exists best' best_delta',
    scan_entries tz target rest best best_delta = Ret (best', best_delta')
    /\ scanned tz target (seen ++ rest) best' best_delta'.
Proof.
  induction rest as [| item rest IH]; intros seen best best_delta Hconv Hinv.
  - exists best, best_delta. rewrite app_nil_r. split; [reflexivity | exact Hinv].
  - cbn [forallb] in Hconv. apply andb_true_iff in Hconv.
    destruct Hconv as [Hitem Hrest].
    destruct (converts_distance item Hitem) as [o Ho].
    rewrite scan_entries_cons, Ho. cbn [obind].
    replace (seen ++ item :: rest) with ((seen ++ [item]) ++ rest)
      by (rewrite <- app_assoc; reflexivity).
    destruct o as [[d delta] |].
    + pose proof (scanned_match seen item d delta best best_delta Hinv Ho) as Hnext.
      destruct (match best_delta with
                | None => true
                | Some bd => delta <? bd
                end); apply IH; assumption.
    + apply IH; [exact Hrest |]. apply scanned_skip; assumption.
Qed.

Lemma scan_entries_from_start entries :
  forallb (converts tz) entries = true ->
  exists best best_delta,
    scan_entries tz target entries None None = Ret (best, best_delta)
    /\ scanned tz target entries best best_delta.
Proof.
  intros Hconv.
  apply (scan_entries_scanned entries [] None None Hconv).
  intros item [].
Qed.

End Scan.

(** ** The offset of the feed *)

Lemma feed_offset_safe_get data :
  exists tzv,
    _safe_get data [lit "city"; lit "timezone"] = Ret tzv
    /\ match as_int tzv with
       | Some n => n
       | None => 0
       end = feed_offset data.
Proof.
  destruct data as [| b | n | f | s | l | top];
    try (exists VNone; split; reflexivity).
  rewrite _safe_get_step. unfold feed_offset.
  destruct (dict_lookup top (lit "city")) as [c |];
    [| exists VNone; split; reflexivity].
  destruct c as [| b | n | f | s | l | cd];
    try (exists VNone; split; reflexivity).
  rewrite _safe_get_step.
  destruct (dict_lookup cd (lit "timezone")) as [v |];
    [| exists VNone; split; reflexivity].
  exists v. split; reflexivity.
Qed.

Lemma new_timezone_in_range n :
  -86400 < n < 86400 -> new_timezone n = Ret n.
Proof.
  intros Hn. unfold new_timezone.
  assert (Hq : -1 <= n / 86400 <= 0).
  { split; [apply Z.div_le_lower_bound | apply Z.lt_succ_r, Z.div_lt_upper_bound]; lia. }
  replace (999999999 <? Z.abs (n / 86400)) with false
    by (symmetry; apply Z.ltb_ge; lia).
  replace ((-86400 <? n) && (n <? 86400)) with true; [reflexivity |].
  symmetry. apply andb_true_iff. split; apply Z.ltb_lt; lia.
Qed.

Lemma distance_none_converts tz target item :
  entry_distance tz target item = Ret None -> converts tz item = true.
Proof.
  unfold entry_distance, converts.
  destruct (entry_local_dt tz item); [reflexivity | discriminate].
Qed.

(** ** Running the requests *)

Section ServerProofs.
Context {U : Unicode}.

Lemma owm_request_run w endpoint params log :
  _owm_request w endpoint params log =
  (Ret (owm_outcome (requests_get w (owm_request_of endpoint params))),
   log ++ [owm_request_of endpoint params]).
Proof.
  unfold _owm_request, io_bind, http_get, owm_outcome.
  destruct (requests_get w (owm_request_of endpoint params))
    as [msg | status_code text body]; [reflexivity |].
  destruct (status_code >=? 400); [reflexivity |].
  destruct body; reflexivity.
Qed.

(** What the current path returns for a reply. *)
Lemma weather_from_current_run w city api_key log :
  _weather_from_current w city api_key log =
  (let '(data, err) :=
     owm_outcome (requests_get w (owm_request_of (lit "weather") (owm_params city api_key))) in
   if truthy_str err then Ret (None, None, err)
   else weather_fields data MISSING_TEMPERATURE,
   log ++ [owm_request_of (lit "weather") (owm_params city api_key)]).
Proof.
  unfold _weather_from_current, io_bind. rewrite owm_request_run.
  destruct (owm_outcome _) as [data err].
  destruct (truthy_str err); reflexivity.
Qed.

(** What the forecast path returns for a reply. *)
Lemma weather_from_forecast_run w city api_key target log :
  _weather_from_forecast w city api_key target log =
  (let '(data, err) :=
     owm_outcome (requests_get w (owm_request_of (lit "forecast") (owm_params city api_key))) in
   if truthy_str err then Ret (None, None, err)
   else forecast_of_data data target,
   log ++ [owm_request_of (lit "forecast") (owm_params city api_key)]).
Proof.
  unfold _weather_from_forecast, io_bind. rewrite owm_request_run.
  destruct (owm_outcome _) as [data err].
  destruct (truthy_str err); reflexivity.
Qed.

Lemma owm_request_url endpoint params :
  req_url (owm_request_of endpoint params)
  = OPENWEATHER_BASE_URL ++ lit "/" ++ lstrip_char 47 endpoint.
Proof. reflexivity. Qed.

(** Each path sends exactly one request, to its own endpoint, whatever
    comes back. *)
Lemma weather_path_one_request w in_window city api_key target log :
  exists r,
    snd (weather_path w in_window city api_key target log) = log ++ [r]
    /\ req_url r = (if in_window then FORECAST_URL else CURRENT_URL)
    /\ req_params r = owm_params city api_key.
Proof.
  unfold weather_path, io_bind. destruct in_window.
  - rewrite weather_from_forecast_run.
    exists (owm_request_of (lit "forecast") (owm_params city api_key)).
    split; [| split; reflexivity].
    destruct (owm_outcome _) as [data err].
    destruct (truthy_str err); [reflexivity |].
    destruct (forecast_of_data data target); reflexivity.
  - rewrite weather_from_current_run.
    exists (owm_request_of (lit "weather") (owm_params city api_key)).
    split; [| split; reflexivity].
    destruct (owm_outcome _) as [data err].
    destruct (truthy_str err); [reflexivity |].
    destruct (weather_fields data MISSING_TEMPERATURE); reflexivity.
Qed.

(** ** The resolver, step by step *)

Lemma get_weather_no_key w city date log :
  api_key_of w = [] ->
  get_weather_impl w city date log = (Ret (unavailable_message city date), log).
Proof. intros Hkey. unfold get_weather_impl. rewrite Hkey. reflexivity. Qed.

Lemma get_weather_bad_date w city date log :
  api_key_of w <> [] -> _parse_yyyy_mm_dd date = None ->
  get_weather_impl w city date log = (Ret INVALID_DATE, log).
Proof.
  intros Hkey Hparse. unfold get_weather_impl.
  destruct (api_key_of w); [contradiction |]. rewrite Hparse. reflexivity.
Qed.

Lemma get_weather_overflow w city date target e log :
  api_key_of w <> [] -> _parse_yyyy_mm_dd date = Some target ->
  in_forecast_window (utc_today w) target = Raise e ->
  get_weather_impl w city date log = (Raise e, log).
Proof.
  intros Hkey Hparse Hwin. unfold get_weather_impl.
  destruct (api_key_of w); [contradiction |]. rewrite Hparse.
  unfold io_bind, io_lift. rewrite Hwin. reflexivity.
Qed.

Lemma get_weather_run w city date target in_window log :
  api_key_of w <> [] -> _parse_yyyy_mm_dd date = Some target ->
  in_forecast_window (utc_today w) target = Ret in_window ->
  get_weather_impl w city date log =
  (match fst (weather_path w in_window city (api_key_of w) target log) with
   | Ret (result, source) => Ret (weather_sentence city target source result)
   | Raise e => Raise e
   end,
   snd (weather_path w in_window city (api_key_of w) target log)).
Proof.
  intros Hkey Hparse Hwin. unfold get_weather_impl.
  destruct (api_key_of w) as [| c k]; [contradiction |]. rewrite Hparse.
  unfold io_bind at 1. unfold io_lift. rewrite Hwin.
  unfold io_bind at 1.
  destruct (weather_path w in_window city (c :: k) target log) as [[[result source] | e] log'];
    reflexivity.
Qed.

Lemma in_forecast_window_returns w target :
  window_representable w = true ->
  exists in_window, in_forecast_window (utc_today w) target = Ret in_window.
Proof.
  unfold window_representable, in_forecast_window, date_add_days. intros Hrep.
  destruct (date_leb (utc_today w) target); [| eauto].
  apply andb_true_iff in Hrep. destruct Hrep as [H0 H1].
  rewrite H0, H1. simpl. eauto.
Qed.

Lemma unavailable_is_not_invalid city date :
  unavailable_message city date <> INVALID_DATE.
Proof.
  intros H. apply (f_equal (@hd char 0%N)) in H. discriminate H.
Qed.

(** ** ISO dates parse *)

Lemma todecimal_ascii_digit c v : ascii_digit c = Some v -> todecimal c = Some v.
Proof.
  intros H. unfold todecimal. 
  replace (is_ascii c) with true; [exact H |].
  pose proof (ascii_digit_cases c v H) as Hc.
  repeat (destruct Hc as [-> | Hc]); try reflexivity. subst c. reflexivity.
Qed.

Lemma isspace_ascii_digit c v : ascii_digit c = Some v -> isspace c = false.
Proof.
  intros H. pose proof (ascii_digit_cases c v H) as Hc.
  repeat (destruct Hc as [-> | Hc]); try reflexivity. subst c. reflexivity.
Qed.

Lemma re_d_two_digits (s : str) d1 d2 g h :
  s = [d1; d2] ->
  ascii_digit d1 = Some g -> ascii_digit d2 = Some h -> 1 <= 10 * g + h <= 31 ->
  exists others, re_d s = (10 * g + h, []) :: others.
Proof.
  intros -> H1 H2 Hd. 
  pose proof (todecimal_ascii_digit d2 h H2) as Htd.
  digit_cases d1 H1; digit_cases d2 H2; try lia;
    unfold re_d, re_two, re_one; rewrite ?Htd; eexists; reflexivity.
Qed.

(** A string in the ISO form parses, to the date it denotes. *)
Lemma iso_calendar_date_parses s d :
  iso_calendar_date s = Some d -> _parse_yyyy_mm_dd s = Some d.
Proof.
  destruct s as [| y1 [| y2 [| y3 [| y4 [| h1 [| m1 [| m2 [| h2 [| d1 [| d2 [| x s]]]]]]]]]]];
    try discriminate.
  unfold iso_calendar_date.
  destruct (ascii_digit y1) as [a |] eqn:Ha; [| discriminate].
  destruct (ascii_digit y2) as [b |] eqn:Hb; [| discriminate].
  destruct (ascii_digit y3) as [c |] eqn:Hc; [| discriminate].
  destruct (ascii_digit y4) as [d0 |] eqn:Hd; [| discriminate].
  destruct (ascii_digit m1) as [e |] eqn:He; [| discriminate].
  destruct (ascii_digit m2) as [f |] eqn:Hf; [| discriminate].
  destruct (ascii_digit d1) as [g |] eqn:Hg; [| discriminate].
  destruct (ascii_digit d2) as [h |] eqn:Hh; [| discriminate].
  destruct ((h1 =? 45)%N && (h2 =? 45)%N && valid_date _) eqn:Hok; [| discriminate].
  intros Hdate. rewrite <- Hdate. clear Hdate d.
  apply andb_true_iff in Hok. destruct Hok as [Hok Hvalid].
  apply andb_true_iff in Hok. destruct Hok as [Hh1 Hh2].
  apply N.eqb_eq in Hh1, Hh2. subst h1 h2.
  pose proof (valid_date_fields _ Hvalid) as (_ & Hmonth & Hday).
  cbn [year month day] in Hmonth, Hday.
  assert (Hday31 : 1 <= 10 * g + h <= 31).
  { pose proof (month_length (_is_leap (1000 * a + 100 * b + 10 * c + d0)) (10 * e + f) Hmonth).
    lia. }
  unfold _parse_yyyy_mm_dd.
  match goal with
  | |- context [strip ?l] =>
      assert (Hstrip : strip l = l);
        [unfold strip, rstrip; cbn [lstrip]; rewrite (isspace_ascii_digit y1 a Ha);
         cbn [rev app lstrip]; rewrite (isspace_ascii_digit d2 h Hh); reflexivity |]
  end.
  rewrite Hstrip. unfold strptime_ymd, re_ymd, re_Y.
  rewrite (todecimal_ascii_digit y1 a Ha), (todecimal_ascii_digit y2 b Hb),
    (todecimal_ascii_digit y3 c Hc), (todecimal_ascii_digit y4 d0 Hd).
  cbn [flat_map re_lit N.eqb Pos.eqb app].
  match goal with
  | |- context [re_m ?l] =>
      destruct (re_m_two_digits l m1 m2 e f _ eq_refl He Hf Hmonth) as [others_m Hre_m];
      rewrite Hre_m
  end.
  cbn [flat_map re_lit N.eqb Pos.eqb app].
  match goal with
  | |- context [re_d ?l] =>
      destruct (re_d_two_digits l d1 d2 g h eq_refl Hg Hh Hday31) as [others_d Hre_d];
      rewrite Hre_d
  end.
  cbn [map app]. unfold new_date. rewrite Hvalid. reflexivity.
Qed.

(** ** The window decision *)

Lemma parse_valid date target :
  _parse_yyyy_mm_dd date = Some target -> valid_date target = true.
Proof.
  unfold _parse_yyyy_mm_dd, strptime_ymd.
  destruct (re_ymd (strip date)) as [| [[[y m] d] rest] others]; [discriminate |].
  destruct rest; [| discriminate]. unfold new_date.
  destruct (valid_date (mkDate y m d)) eqn:Hvalid; [| discriminate].
  intros H. injection H as <-. exact Hvalid.
Qed.

(** C1. With a credential and a date string that parses to the date [d],
    be it a string in the ISO form or another one that [_parse_yyyy_mm_dd]
    accepts, the one request of the invocation goes to the forecast
    endpoint if and only if [d] is at least today and at most five days
    after today, both ends included, and to the current-conditions endpoint
    if and only if [d] is before today or more than five days after it.
    Days are counted by the ordinal of a date; today is the UTC date of the
    clock, a date five days after which is still a date. *)
Theorem forecast_window_decision (w : World) (city date : str)
    (target : Date) (log : list Request) :
  api_key_of w <> [] ->
  iso_calendar_date date = Some target \/ _parse_yyyy_mm_dd date = Some target ->
  valid_date (utc_today w) = true ->
  toordinal (utc_today w) + 5 <= _MAXORDINAL ->
  let today := toordinal (utc_today w) in
  let d := toordinal target in
  exists r,
    snd (get_weather_impl w city date log) = log ++ [r]
    /\ (req_url r = FORECAST_URL <-> today <= d <= today + 5)
    /\ (req_url r = CURRENT_URL <-> d < today \/ today + 5 < d).
Proof.
  intros Hkey Hdate Htoday Hmax today d.
  assert (Hparse : _parse_yyyy_mm_dd date = Some target).
  { destruct Hdate as [Hiso | Hparse]; [| exact Hparse].
    exact (iso_calendar_date_parses date target Hiso). }
  pose proof (parse_valid date target Hparse) as Htarget.
  pose proof (in_forecast_window_ordinal _ _ Htoday Htarget Hmax) as Hwin.
  fold today d in Hwin.
  rewrite (get_weather_run w city date target _ log Hkey Hparse Hwin).
  destruct (weather_path_one_request w
              ((today <=? d) && (d <=? today + 5)) city (api_key_of w) target log)
    as [r [Hlog [Hurl _]]].
  exists r. split; [exact Hlog |]. rewrite Hurl.
  pose proof forecast_url_is_not_current as Hdiff.
  destruct (Z.leb_spec today d); destruct (Z.leb_spec d (today + 5)); cbn [andb];
    split; split; intros; try lia; try reflexivity; try congruence.
Qed.

(** C10. Without a credential the answer is the unavailable message, which
    carries the [repr] of the city and of the date, whatever the date
    string is, well formed or not, and no request is sent; that message is
    not the invalid-date message; and an invocation that answers with the
    invalid-date message had a credential. *)
Theorem credential_checked_before_date (w : World) (city date : str)
    (log : list Request) :
  (api_key_of w = [] ->
     get_weather_impl w city date log =
       (Ret (UNAVAILABLE ++ [10%N] ++ lit "Input: city=" ++ repr city
             ++ lit ", date=" ++ repr date), log)
     /\ fst (get_weather_impl w city date log) <> Ret INVALID_DATE)
  /\ (fst (get_weather_impl w city date log) = Ret INVALID_DATE ->
      api_key_of w <> []).
Proof.
  split.
  - intros Hkey. rewrite (get_weather_no_key w city date log Hkey). split.
    + reflexivity.
    + intros H. exact (unavailable_is_not_invalid city date (Ret_inj _ _ H)).
  - intros Hout Hkey. rewrite (get_weather_no_key w city date log Hkey) in Hout.
    exact (unavailable_is_not_invalid city date (Ret_inj _ _ Hout)).
Qed.

(** ** What the parser takes *)












(** C7 (amended). No request is sent when the credential is missing or
    blank (the unavailable message is returned) and none when the date
    does not parse; with a credential and a date that parses, exactly one
    request is sent, whatever the path and whatever comes back. *)
Theorem requests_per_invocation (w : World) (city date : str)
    (log : list Request) :
  (api_key_of w = [] ->
     get_weather_impl w city date log = (Ret (unavailable_message city date), log))
  /\ (api_key_of w <> [] -> _parse_yyyy_mm_dd date = None ->
      snd (get_weather_impl w city date log) = log)
  /\ (api_key_of w <> [] -> _parse_yyyy_mm_dd date <> None ->
      window_representable w = true ->
      exists r, snd (get_weather_impl w city date log) = log ++ [r]).
Proof.
  split; [| split].
  - apply get_weather_no_key.
  - intros Hkey Hparse. rewrite (get_weather_bad_date w city date log Hkey Hparse).
    reflexivity.
  - intros Hkey Hparse Hrep.
    destruct (_parse_yyyy_mm_dd date) as [target |] eqn:Hp; [| contradiction].
    destruct (in_forecast_window_returns w target Hrep) as [in_window Hwin].
    rewrite (get_weather_run w city date target in_window log Hkey Hp Hwin).
    destruct (weather_path_one_request w in_window city (api_key_of w) target log)
      as [r [Hlog _]].
    exists r. exact Hlog.
Qed.


(** ** Temperature and conditions *)

Lemma strip_unknown_conditions : strip UNKNOWN_CONDITIONS <> [].
Proof. vm_compute. discriminate. Qed.

Lemma conditions_or_unknown_not_blank desc :
  strip (conditions_or_unknown desc) <> [].
Proof.
  destruct desc; try apply strip_unknown_conditions.
  unfold conditions_or_unknown.
  destruct (strip s) eqn:Hs; [apply strip_unknown_conditions |].
  rewrite Hs. discriminate.
Qed.

Lemma py_float_number v :
  is_number v = true ->
  (exists t, py_float v = Ret t) \/ py_float v = Raise OverflowError.
Proof.
  destruct v; try discriminate; intros _; simpl; eauto.
  unfold float_of_int. destruct (float_of_Z n); eauto.
Qed.

(** The fields of a record, by the case of its temperature. *)
Lemma weather_fields_cases record missing :
  exists temp, _safe_get record [lit "main"; lit "temp"] = Ret temp
  /\ (is_number temp = false ->
      weather_fields record missing = Ret (None, None, Some missing))
  /\ (is_number temp = true ->
      weather_fields record missing =
      obind (py_float temp) (fun t =>
        Ret (Some t, Some (conditions_or_unknown (description_of record)), None))).
Proof.
  destruct (_safe_get_returns record [lit "main"; lit "temp"]) as [temp Htemp].
  exists temp. split; [exact Htemp |].
  split; intros Hnum; unfold weather_fields; rewrite Htemp;
    unfold obind at 1; rewrite Hnum; reflexivity.
Qed.

Lemma weather_fields_raises record missing e :
  weather_fields record missing = Raise e -> e = OverflowError.
Proof.
  destruct (weather_fields_cases record missing) as [temp [_ [Hno Hyes]]].
  destruct (is_number temp) eqn:Hnum.
  - rewrite (Hyes eq_refl).
    destruct (py_float_number temp Hnum) as [[t Ht] | Hraise].
    + rewrite Ht. discriminate.
    + rewrite Hraise. cbn [obind]. intros H. injection H as <-. reflexivity.
  - rewrite (Hno eq_refl). discriminate.
Qed.

Lemma weather_fields_shape record missing :
  missing <> [] -> well_formed_outcome (weather_fields record missing).
Proof.
  intros Hmissing.
  destruct (weather_fields_cases record missing) as [temp [_ [Hno Hyes]]].
  destruct (is_number temp) eqn:Hnum.
  - rewrite (Hyes eq_refl).
    destruct (py_float_number temp Hnum) as [[t Ht] | Hraise].
    + rewrite Ht. simpl. apply conditions_or_unknown_not_blank.
    + rewrite Hraise. exact I.
  - rewrite (Hno eq_refl). exact Hmissing.
Qed.

Lemma forecast_of_data_shape data target :
  well_formed_outcome (forecast_of_data data target).
Proof.
  unfold forecast_of_data.
  destruct (_safe_get_returns data [lit "city"; lit "timezone"]) as [tzv Htzv].
  rewrite Htzv. unfold obind at 1.
  destruct (new_timezone _) as [tz | e]; [| exact I]. unfold obind at 1.
  destruct (py_get data (lit "list") (VList [])) as [entries | e]; [| exact I].
  unfold obind at 1.
  destruct entries as [| b | n | f | s | l | d]; try discriminate.
  destruct l as [| first rest]; [discriminate |].
  destruct (scan_entries tz target (first :: rest) None None) as [found | e];
    [| exact I].
  unfold obind. destruct (fst found) as [best |].
  - apply weather_fields_shape. discriminate.
  - destruct first; try discriminate. apply weather_fields_shape. discriminate.
Qed.

Lemma owm_outcome_error reply data err :
  owm_outcome reply = (data, err) -> truthy_str err = true ->
  well_formed (None, None, err).
Proof.
  intros _ Herr. destruct err as [[| c e] |]; discriminate.
Qed.

Lemma chosen_path_shape w in_window city api_key target log :
  well_formed_outcome (fst (chosen_path w in_window city api_key target log)).
Proof.
  unfold chosen_path. destruct in_window.
  - rewrite weather_from_forecast_run. simpl.
    destruct (owm_outcome _) as [data err] eqn:Hout.
    destruct (truthy_str err) eqn:Herr.
    + exact (owm_outcome_error _ _ _ Hout Herr).
    + apply forecast_of_data_shape.
  - rewrite weather_from_current_run. simpl.
    destruct (owm_outcome _) as [data err] eqn:Hout.
    destruct (truthy_str err) eqn:Herr.
    + exact (owm_outcome_error _ _ _ Hout Herr).
    + apply weather_fields_shape. discriminate.
Qed.

(** ** The sentence of a successful lookup *)

Lemma weather_path_chosen w in_window city api_key target log :
  weather_path w in_window city api_key target log =
  (match fst (chosen_path w in_window city api_key target log) with
   | Ret r => Ret (r, source_tag in_window)
   | Raise e => Raise e
   end,
   snd (chosen_path w in_window city api_key target log)).
Proof.
  unfold weather_path, chosen_path, io_bind, source_tag.
  destruct in_window.
  - destruct (_weather_from_forecast w city api_key target log) as [[r | e] log'];
      reflexivity.
  - destruct (_weather_from_current w city api_key log) as [[r | e] log'];
      reflexivity.
Qed.

(** C9 (amended). When the chosen path resolves a temperature and
    conditions, the answer is exactly
    ["Weather for {city} on {date} ({source}): {temp}°C, {conditions}."],
    with the ISO form of the target date, the source of the window
    decision, and the temperature in the [.1f] format: an optional sign,
    the integer digits, a point and exactly one digit when the temperature
    is finite, and [nan], [inf] or [-inf] when it is not. *)
Theorem successful_lookup_sentence (w : World) (city date : str)
    (target : Date) (in_window : bool) (t : float) (c : str)
    (err : option str) (log : list Request) :
  api_key_of w <> [] ->
  _parse_yyyy_mm_dd date = Some target ->
  in_forecast_window (utc_today w) target = Ret in_window ->
  fst (chosen_path w in_window city (api_key_of w) target log)
    = Ret (Some t, Some c, err) ->
  fst (get_weather_impl w city date log)
    = Ret (lit "Weather for " ++ city ++ lit " on " ++ isoformat target
           ++ lit " (" ++ source_tag in_window ++ lit "): "
           ++ fmt_1f t ++ [176%N; 67%N] ++ lit ", " ++ c ++ lit ".")
  /\ (is_finite t = true -> one_decimal_place (fmt_1f t) = true)
  /\ (is_finite t = false ->
      fmt_1f t = lit "nan" \/ fmt_1f t = lit "inf" \/ fmt_1f t = lit "-inf").
Proof.
  intros Hkey Hparse Hwin Hpath. split; [| split].
  - rewrite (get_weather_run w city date target in_window log Hkey Hparse Hwin).
    rewrite weather_path_chosen. cbn [fst]. rewrite Hpath.
    pose proof (chosen_path_shape w in_window city (api_key_of w) target log) as Hshape.
    rewrite Hpath in Hshape. simpl in Hshape.
    destruct err as [e |]; [contradiction |].
    unfold weather_sentence, truthy_str, _fmt_temp_c.
    rewrite <- !app_assoc. reflexivity.
  - apply fmt_1f_one_decimal.
  - destruct t as [s | s | | s m e]; try discriminate; intros _.
    + destruct s; auto.
    + auto.
Qed.


(** ** The entry the forecast path reads *)

(** The forecast path on a feed whose offset is that of a time zone and
    whose timestamps convert: the fields of the best entry of the scan,
    or of the first entry when the scan found none. *)
Lemma forecast_of_data_scanned data target first rest :
  py_get data (lit "list") (VList []) = Ret (VList (first :: rest)) ->
  -86400 < feed_offset data < 86400 ->
  forallb (converts (feed_offset data)) (first :: rest) = true ->
  exists best best_delta,
    scanned (feed_offset data) target (first :: rest) best best_delta
    /\ forecast_of_data data target =
       match best with
       | Some b => weather_fields (VDict b) MISSING_FORECAST_TEMPERATURE
       | None =>
           match first with
           | VDict b => weather_fields (VDict b) MISSING_FORECAST_TEMPERATURE
           | _ => Ret (None, None, Some INVALID_FORECAST_ENTRY)
           end
       end.
Proof.
  intros Hlist Hoff Hconv.
  destruct (scan_entries_from_start (feed_offset data) target (first :: rest) Hconv)
    as [best [best_delta [Hscan Hinv]]].
  exists best, best_delta. split; [exact Hinv |].
  unfold forecast_of_data.
  destruct (feed_offset_safe_get data) as [tzv [Htzv Hoffset]].
  rewrite Htzv. cbn [obind]. rewrite Hoffset.
  rewrite (new_timezone_in_range _ Hoff). cbn [obind].
  rewrite Hlist. cbn [obind]. rewrite Hscan. cbn [obind fst].
  reflexivity.
Qed.

Lemma forecast_reply_run w city api_key target log status_code text data :
  requests_get w (owm_request_of (lit "forecast") (owm_params city api_key))
    = Response status_code text (JsonBody data) ->
  status_code < 400 ->
  _weather_from_forecast w city api_key target log =
  (forecast_of_data data target,
   log ++ [owm_request_of (lit "forecast") (owm_params city api_key)]).
Proof.
  intros Hreply Hstatus. rewrite weather_from_forecast_run, Hreply.
  unfold owm_outcome.
  replace (status_code >=? 400) with false; [reflexivity |].
  symmetry. rewrite Z.geb_leb. apply Z.leb_gt. lia.
Qed.

(** C2 (amended). On a feed whose offset (the ["timezone"] of its
    ["city"] when an int, a [bool] counting as 0 or 1, and 0 otherwise)
    is strictly between -24 h and 24 h and whose numeric timestamps all
    convert to a local date-time, if some entry is on the target date in
    local time, the forecast path reads the fields of the first nearest
    one: no entry on the target date is nearer to 12:00 local time, and
    every such entry before it in the list is strictly farther. *)
Theorem nearest_to_noon_is_selected (w : World) (city api_key : str)
    (target : Date) (log : list Request) (status_code : Z) (text : str)
    (data : value) (entries : list value) :
  requests_get w (owm_request_of (lit "forecast") (owm_params city api_key))
    = Response status_code text (JsonBody data) ->
  status_code < 400 ->
  py_get data (lit "list") (VList []) = Ret (VList entries) ->
  -86400 < feed_offset data < 86400 ->
  forallb (converts (feed_offset data)) entries = true ->
  (exists item d delta,
     In item entries
     /\ entry_distance (feed_offset data) target item = Ret (Some (d, delta))) ->
  exists i best delta,
    first_nearest (feed_offset data) target entries i best delta
    /\ _weather_from_forecast w city api_key target log =
       (weather_fields (VDict best) MISSING_FORECAST_TEMPERATURE,
        log ++ [owm_request_of (lit "forecast") (owm_params city api_key)]).
Proof.
  intros Hreply Hstatus Hlist Hoff Hconv [item [d [delta [Hin Hitem]]]].
  destruct entries as [| first rest]; [destruct Hin |].
  destruct (forecast_of_data_scanned data target first rest Hlist Hoff Hconv)
    as [best [best_delta [Hinv Hrun]]].
  unfold scanned in Hinv.
  destruct best as [b |], best_delta as [bd |]; try contradiction.
  - destruct Hinv as [i Hnear]. exists i, b, bd. split; [exact Hnear |].
    rewrite (forecast_reply_run w city api_key target log _ _ _ Hreply Hstatus).
    rewrite Hrun. reflexivity.
  - rewrite (Hinv item Hin) in Hitem. discriminate.
Qed.

(** C5 (amended). On a feed whose offset is strictly between -24 h and
    24 h, with a list that is not empty and of which no entry is on the
    target date (every numeric timestamp converting), the forecast path
    reads the fields of the first entry, as it would those of a matching
    one, when the first entry is a mapping; when it is not, the path
    returns the error ["invalid forecast entry"]. *)
Theorem no_match_falls_back_to_first (w : World) (city api_key : str)
    (target : Date) (log : list Request) (status_code : Z) (text : str)
    (data : value) (first : value) (rest : list value) :
  requests_get w (owm_request_of (lit "forecast") (owm_params city api_key))
    = Response status_code text (JsonBody data) ->
  status_code < 400 ->
  py_get data (lit "list") (VList []) = Ret (VList (first :: rest)) ->
  -86400 < feed_offset data < 86400 ->
  (forall item, In item (first :: rest) ->
     entry_distance (feed_offset data) target item = Ret None) ->
  _weather_from_forecast w city api_key target log =
  (match first with
   | VDict record => weather_fields (VDict record) MISSING_FORECAST_TEMPERATURE
   | _ => Ret (None, None, Some INVALID_FORECAST_ENTRY)
   end,
   log ++ [owm_request_of (lit "forecast") (owm_params city api_key)]).
Proof.
  intros Hreply Hstatus Hlist Hoff Hnone.
  assert (Hconv : forallb (converts (feed_offset data)) (first :: rest) = true).
  { apply forallb_forall. intros item Hin.
    exact (distance_none_converts _ target item (Hnone item Hin)). }
  destruct (forecast_of_data_scanned data target first rest Hlist Hoff Hconv)
    as [best [best_delta [Hinv Hrun]]].
  rewrite (forecast_reply_run w city api_key target log _ _ _ Hreply Hstatus).
  rewrite Hrun. unfold scanned in Hinv.
  destruct best as [b |], best_delta as [bd |]; try contradiction.
  - destruct Hinv as [i [Hnth [Hdist _]]].
    apply nth_error_In in Hnth. rewrite (Hnone _ Hnth) in Hdist. discriminate.
  - reflexivity.
Qed.


(** ** The travel catalog *)










End ServerProofs.

(** * Further properties of the code *)

Lemma str_eqb_eq (a b : str) : str_eqb a b = true -> a = b.
Proof.
  unfold str_eqb. destruct (str_eq_dec a b); [trivial | discriminate].
Qed.

(** ** The response parser along a path in two parts *)

Lemma _safe_get_none path : _safe_get VNone path = Ret VNone.
Proof. destruct path; reflexivity. Qed.

(** X1. Reading a path in two steps is reading it at once: the value
    found at the end of [p], be it [None] for a path that breaks, is where
    the lookup of [q] goes on. *)
Theorem safe_get_composes (cur : value) (p q : list str) :
  _safe_get cur (p ++ q) = obind (_safe_get cur p) (fun v => _safe_get v q).
Proof.
  revert cur. induction p as [|key p IH]; intros cur; [reflexivity|].
  cbn [app]. destruct cur; try (cbn; now rewrite _safe_get_none).
  rewrite !_safe_get_step. destruct (dict_lookup d key) as [v|].
  - apply IH.
  - cbn. now rewrite _safe_get_none.
Qed.

Section MoreProofs.
Context {U : Unicode}.

(** ** White space around a text *)

Lemma lstrip_spaces pre s :
  forallb isspace pre = true -> lstrip (pre ++ s) = lstrip s.
Proof.
  induction pre as [|c pre IH]; cbn [app forallb lstrip]; [reflexivity|].
  intros H. apply andb_prop in H as [Hc Hp]. rewrite Hc. auto.
Qed.

Lemma lstrip_blank s : forallb isspace s = true -> lstrip s = [].
Proof.
  intros H. rewrite <- (app_nil_r s), lstrip_spaces by assumption. reflexivity.
Qed.

Lemma lstrip_head s c rest : lstrip s = c :: rest -> isspace c = false.
Proof.
  induction s as [|a s IH]; cbn [lstrip]; [discriminate|].
  destruct (isspace a) eqn:Ha; [exact IH|].
  intros H. injection H as <- _. exact Ha.
Qed.

Lemma lstrip_nil s : lstrip s = [] -> forallb isspace s = true.
Proof.
  induction s as [|a s IH]; cbn [lstrip forallb]; [reflexivity|].
  destruct (isspace a); [exact IH | discriminate].
Qed.

Lemma lstrip_app_nonblank s t :
  lstrip s <> [] -> lstrip (s ++ t) = lstrip s ++ t.
Proof.
  induction s as [|a s IH]; cbn [lstrip app]; [congruence|].
  destruct (isspace a); [exact IH | reflexivity].
Qed.

Lemma forallb_rev_true {A} (f : A -> bool) l :
  forallb f l = true -> forallb f (rev l) = true.
Proof.
  rewrite !forallb_forall. intros H x Hx. apply H, in_rev, Hx.
Qed.

Lemma rstrip_spaces s post :
  forallb isspace post = true -> rstrip (s ++ post) = rstrip s.
Proof.
  intros H. unfold rstrip.
  rewrite rev_app_distr, lstrip_spaces; [reflexivity|].
  apply forallb_rev_true, H.
Qed.

(** White space before and after a text is not seen by [strip]. *)
Lemma strip_padding pre s post :
  forallb isspace pre = true -> forallb isspace post = true ->
  strip (pre ++ s ++ post) = strip s.
Proof.
  intros Hpre Hpost. unfold strip. rewrite lstrip_spaces by assumption.
  destruct (lstrip s) as [|c rest] eqn:Hs.
  - rewrite lstrip_blank; [reflexivity|].
    rewrite forallb_app, Hpost, (lstrip_nil _ Hs). reflexivity.
  - rewrite lstrip_app_nonblank, Hs by congruence.
    apply rstrip_spaces, Hpost.
Qed.

(** [strip] leaves nothing of a text exactly when the text is white space. *)
Lemma strip_nil_iff s : strip s = [] <-> forallb isspace s = true.
Proof.
  split.
  - unfold strip, rstrip. intros H.
    destruct (lstrip s) as [|c rest] eqn:Hs; [apply lstrip_nil, Hs|].
    assert (H' : lstrip (rev (c :: rest)) = []).
    { rewrite <- (rev_involutive (lstrip (rev (c :: rest)))), H. reflexivity. }
    apply lstrip_nil, forallb_rev_true in H'. rewrite rev_involutive in H'.
    cbn [forallb] in H'. rewrite (lstrip_head _ _ _ Hs) in H'. discriminate.
  - intros H. unfold strip. rewrite lstrip_blank by assumption. reflexivity.
Qed.

(** ** The date string and the credential *)

(** The resolver reads the date string through its parse only, once it
    has a credential. *)
Lemma get_weather_by_parse w city date1 date2 log :
  api_key_of w <> [] ->
  _parse_yyyy_mm_dd date1 = _parse_yyyy_mm_dd date2 ->
  get_weather_impl w city date1 log = get_weather_impl w city date2 log.
Proof.
  intros Hkey Hparse. unfold get_weather_impl.
  destruct (api_key_of w); [congruence|]. rewrite Hparse. reflexivity.
Qed.

(** X5. White space before and after the date string changes neither the
    date it parses to nor, with a credential, the lookup: the answer and
    the request are those of the string without it. *)
Theorem date_padding_is_ignored (w : World) (city pre date post : str)
    (log : list Request) :
  all_space pre = true -> all_space post = true ->
  _parse_yyyy_mm_dd (pre ++ date ++ post) = _parse_yyyy_mm_dd date
  /\ (api_key_of w <> [] ->
      get_weather_impl w city (pre ++ date ++ post) log
      = get_weather_impl w city date log).
Proof.
  intros Hpre Hpost.
  assert (Hparse : _parse_yyyy_mm_dd (pre ++ date ++ post) = _parse_yyyy_mm_dd date).
  { unfold _parse_yyyy_mm_dd. rewrite strip_padding by assumption. reflexivity. }
  split; [exact Hparse|]. intros Hkey. apply get_weather_by_parse; assumption.
Qed.

(** X10. The credential counts as missing exactly when the variable is
    unset or holds white space only, the empty text included; a lookup
    then answers with the unavailable message and sends nothing. *)
Theorem blank_credential_is_missing (w : World) (city date : str)
    (log : list Request) :
  (api_key_of w = [] <->
   match environ w (lit "OPENWEATHER_API_KEY") with
   | Some v => all_space v = true
   | None => True
   end)
  /\ (forall v, environ w (lit "OPENWEATHER_API_KEY") = Some v ->
        all_space v = true ->
        get_weather_impl w city date log = (Ret (unavailable_message city date), log)).
Proof.
  assert (Hiff : api_key_of w = [] <->
                 match environ w (lit "OPENWEATHER_API_KEY") with
                 | Some v => all_space v = true
                 | None => True
                 end).
  { unfold api_key_of, environ_get.
    destruct (environ w (lit "OPENWEATHER_API_KEY")) as [v|].
    - apply strip_nil_iff.
    - split; [trivial | reflexivity]. }
  split; [exact Hiff|]. intros v Hv Hblank.
  apply get_weather_no_key, Hiff. rewrite Hv. exact Hblank.
Qed.

(** ** One request and what is made of the reply *)

(** X2. [_owm_request] never raises and sends exactly one request, with
    a timeout of 15 seconds.  It returns the decoded body and no error for
    a reply below status 400 whose body decodes; for every other reply it
    returns no data and an error text that is not empty: of the status and
    the text of the reply from status 400 on, whatever the body, of the
    failure otherwise. *)
Theorem owm_request_reports (w : World) (endpoint : str)
    (params : list (str * str)) (log : list Request) :
  let request := owm_request_of endpoint params in
  exists data err,
    _owm_request w endpoint params log = (Ret (data, err), log ++ [request])
    /\ req_params request = params /\ req_timeout request = 15
    /\ match requests_get w request with
       | Failed msg =>
           data = VNone /\ err = Some (lit "Request failed: " ++ msg)
       | Response status_code text body =>
           if 400 <=? status_code then
             data = VNone
             /\ err = Some (lit "OpenWeatherMap error " ++ str_of_int status_code
                            ++ lit ": " ++ text)
           else
             match body with
             | JsonBody decoded => data = decoded /\ err = None
             | BadBody msg =>
                 data = VNone /\ err = Some (lit "Request failed: " ++ msg)
             end
       end
    /\ (err = None \/ (data = VNone /\ truthy_str err = true)).
Proof.
  intros request.
  exists (fst (owm_outcome (requests_get w request))),
         (snd (owm_outcome (requests_get w request))).
  split; [|split; [reflexivity|split; [reflexivity|]]].
  - subst request. rewrite owm_request_run.
    destruct (owm_outcome _); reflexivity.
  - destruct (requests_get w request) as [msg | status_code text body];
      cbn [owm_outcome].
    + split; [split; reflexivity | right; split; reflexivity].
    + rewrite Z.geb_leb. destruct (400 <=? status_code).
      * split; [split; reflexivity | right; split; reflexivity].
      * destruct body as [decoded | msg]; cbn [fst snd].
        -- split; [split; reflexivity | left; reflexivity].
        -- split; [split; reflexivity | right; split; reflexivity].
Qed.

(** The endpoint of a path. *)
Lemma lookup_request_forecast city api_key :
  owm_request_of (lit "forecast") (owm_params city api_key)
  = mkRequest FORECAST_URL (owm_params city api_key) 15.
Proof. reflexivity. Qed.

Lemma lookup_request_current city api_key :
  owm_request_of (lit "weather") (owm_params city api_key)
  = mkRequest CURRENT_URL (owm_params city api_key) 15.
Proof. reflexivity. Qed.

(** The request of the path taken. *)
Lemma chosen_path_request w in_window city api_key target log :
  snd (chosen_path w in_window city api_key target log)
  = log ++ [mkRequest (if in_window then FORECAST_URL else CURRENT_URL)
              (owm_params city api_key) 15].
Proof.
  unfold chosen_path. destruct in_window.
  - rewrite weather_from_forecast_run. reflexivity.
  - rewrite weather_from_current_run. reflexivity.
Qed.

(** The path taken on a reply that carries an error. *)
Lemma chosen_path_error w (in_window : bool) city api_key target log e :
  snd (owm_outcome
         (requests_get w (mkRequest (if in_window then FORECAST_URL else CURRENT_URL)
                            (owm_params city api_key) 15))) = Some e ->
  e <> [] ->
  fst (chosen_path w in_window city api_key target log) = Ret (None, None, Some e).
Proof.
  intros He Hne. unfold chosen_path. destruct in_window.
  - rewrite weather_from_forecast_run, lookup_request_forecast.
    destruct (owm_outcome _) as [data err]. cbn [snd] in He. subst err.
    destruct e; [congruence | reflexivity].
  - rewrite weather_from_current_run, lookup_request_current.
    destruct (owm_outcome _) as [data err]. cbn [snd] in He. subst err.
    destruct e; [congruence | reflexivity].
Qed.

(** The answer for a path that ends in an error text. *)
Lemma get_weather_error w city date target in_window log e :
  api_key_of w <> [] -> _parse_yyyy_mm_dd date = Some target ->
  in_forecast_window (utc_today w) target = Ret in_window ->
  fst (chosen_path w in_window city (api_key_of w) target log)
    = Ret (None, None, Some e) ->
  e <> [] ->
  get_weather_impl w city date log =
  (Ret (failed_prefix city target (source_tag in_window) ++ e),
   log ++ [mkRequest (if in_window then FORECAST_URL else CURRENT_URL)
             (owm_params city (api_key_of w)) 15]).
Proof.
  intros Hkey Hparse Hwin Hpath Hne.
  rewrite (get_weather_run _ _ _ _ _ _ Hkey Hparse Hwin), weather_path_chosen.
  cbn [fst snd]. rewrite Hpath, chosen_path_request.
  destruct e; [congruence | reflexivity].
Qed.

(** X3. A lookup whose request fails does not raise: it answers
    ["Weather lookup failed for {city} on {date} ({source}): "] followed by
    the reason, which is ["Request failed: "] and the text of the exception
    when the request raised or the body does not decode, and
    ["OpenWeatherMap error {status}: {text}"] from status 400 on, whatever
    the body. *)
Theorem lookup_failure_is_reported (w : World) (city date : str)
    (target : Date) (in_window : bool) (log : list Request) :
  api_key_of w <> [] ->
  _parse_yyyy_mm_dd date = Some target ->
  in_forecast_window (utc_today w) target = Ret in_window ->
  let request :=
    mkRequest (if in_window then FORECAST_URL else CURRENT_URL)
      (owm_params city (api_key_of w)) 15 in
  let failed := failed_prefix city target (source_tag in_window) in
  (forall msg,
     requests_get w request = Failed msg ->
     get_weather_impl w city date log
     = (Ret (failed ++ lit "Request failed: " ++ msg), log ++ [request]))
  /\ (forall status_code text body,
        requests_get w request = Response status_code text body ->
        400 <= status_code ->
        get_weather_impl w city date log
        = (Ret (failed ++ lit "OpenWeatherMap error " ++ str_of_int status_code
                ++ lit ": " ++ text), log ++ [request]))
  /\ (forall status_code text msg,
        requests_get w request = Response status_code text (BadBody msg) ->
        status_code < 400 ->
        get_weather_impl w city date log
        = (Ret (failed ++ lit "Request failed: " ++ msg), log ++ [request])).
Proof.
  intros Hkey Hparse Hwin request failed.
  assert (Hrun : forall e,
            snd (owm_outcome (requests_get w request)) = Some e -> e <> [] ->
            get_weather_impl w city date log = (Ret (failed ++ e), log ++ [request])).
  { intros e He Hne.
    apply (get_weather_error _ _ _ _ _ _ _ Hkey Hparse Hwin); [|exact Hne].
    apply chosen_path_error; assumption. }
  split; [|split].
  - intros msg Hreply. apply Hrun; [rewrite Hreply; reflexivity | discriminate].
  - intros status_code text body Hreply Hstatus. apply Hrun; [|discriminate].
    rewrite Hreply. cbn [owm_outcome].
    replace (status_code >=? 400) with true; [reflexivity|].
    symmetry. rewrite Z.geb_leb. apply Z.leb_le. lia.
  - intros status_code text msg Hreply Hstatus. apply Hrun; [|discriminate].
    rewrite Hreply. cbn [owm_outcome].
    replace (status_code >=? 400) with false; [reflexivity|].
    symmetry. rewrite Z.geb_leb. apply Z.leb_gt. lia.
Qed.

(** ** The ISO form of a date *)

Lemma ascii_digit_digit_char k :
  0 <= k <= 9 -> ascii_digit (digit_char k) = Some k.
Proof.
  intros H.
  assert (Hk : k = 0 \/ k = 1 \/ k = 2 \/ k = 3 \/ k = 4 \/ k = 5 \/ k = 6
               \/ k = 7 \/ k = 8 \/ k = 9) by lia.
  repeat (destruct Hk as [-> | Hk]); try subst k; reflexivity.
Qed.

Lemma four_digits_all : forallb four_digits_ok (seq 0%nat (Z.to_nat 10000)) = true.
Proof. vm_compute. reflexivity. Qed.

Lemma two_digits_all : forallb two_digits_ok (seq 0%nat (Z.to_nat 100)) = true.
Proof. vm_compute. reflexivity. Qed.

Lemma zfill_four_digits y :
  0 <= y < 10000 -> zfill 4 (dec y) = four_digits y.
Proof.
  intros H. pose proof four_digits_all as Hall.
  rewrite forallb_forall in Hall.
  specialize (Hall (Z.to_nat y)). unfold four_digits_ok in Hall.
  rewrite Z2Nat.id in Hall by lia.
  apply str_eqb_eq, Hall, in_seq. lia.
Qed.

Lemma zfill_two_digits n :
  0 <= n < 100 -> zfill 2 (dec n) = two_digits n.
Proof.
  intros H. pose proof two_digits_all as Hall.
  rewrite forallb_forall in Hall.
  specialize (Hall (Z.to_nat n)). unfold two_digits_ok in Hall.
  rewrite Z2Nat.id in Hall by lia.
  apply str_eqb_eq, Hall, in_seq. lia.
Qed.

(** The ten characters of the ISO form. *)
Lemma isoformat_digits d :
  valid_date d = true ->
  isoformat d =
  four_digits (year d) ++ 45%N :: two_digits (month d) ++ 45%N :: two_digits (day d).
Proof.
  intros Hvalid. destruct (valid_date_fields _ Hvalid) as (Hy & Hm & Hd).
  pose proof (month_length (_is_leap (year d)) (month d) Hm) as Hlen.
  unfold isoformat.
  rewrite zfill_four_digits, !zfill_two_digits by lia. reflexivity.
Qed.

Lemma iso_calendar_date_isoformat d :
  valid_date d = true -> iso_calendar_date (isoformat d) = Some d.
Proof.
  intros Hvalid. destruct (valid_date_fields _ Hvalid) as (Hy & Hm & Hd).
  pose proof (month_length (_is_leap (year d)) (month d) Hm) as Hlen.
  rewrite isoformat_digits by assumption.
  destruct d as [y m dd]. cbn [year month day] in *.
  unfold four_digits, two_digits. cbn [app]. unfold iso_calendar_date.
  rewrite !ascii_digit_digit_char
    by (clear Hvalid; Z.div_mod_to_equations; lia).
  replace (mkDate _ _ _) with (mkDate y m dd).
  - rewrite Hvalid. reflexivity.
  - f_equal; clear Hvalid; Z.div_mod_to_equations; lia.
Qed.

(** X4. The ISO form of a date of the calendar is its four-digit year,
    two-digit month and two-digit day between hyphens, and it parses back
    to the same date. *)
Theorem isoformat_round_trip (d : Date) :
  valid_date d = true ->
  iso_calendar_date (isoformat d) = Some d
  /\ _parse_yyyy_mm_dd (isoformat d) = Some d
  /\ List.length (isoformat d) = 10%nat.
Proof.
  intros Hvalid. pose proof (iso_calendar_date_isoformat _ Hvalid) as Hiso.
  split; [exact Hiso|]. split; [apply iso_calendar_date_parses, Hiso|].
  rewrite isoformat_digits by assumption. reflexivity.
Qed.

Lemma parse_isoformat d :
  valid_date d = true -> _parse_yyyy_mm_dd (isoformat d) = Some d.
Proof.
  intros Hvalid. apply iso_calendar_date_parses, iso_calendar_date_isoformat, Hvalid.
Qed.

(** X6. With a credential, a lookup for a date string is the lookup for
    the ISO form of the date it parses to, the form that the answer
    shows: the same answer and the same request, however the string was
    written. *)
Theorem lookup_of_the_normal_form (w : World) (city date : str)
    (target : Date) (log : list Request) :
  api_key_of w <> [] ->
  _parse_yyyy_mm_dd date = Some target ->
  get_weather_impl w city date log
  = get_weather_impl w city (isoformat target) log.
Proof.
  intros Hkey Hparse. apply get_weather_by_parse; [exact Hkey|].
  rewrite Hparse, parse_isoformat; [reflexivity|].
  apply (parse_valid _ _ Hparse).
Qed.

(** ** The request of a lookup *)

Lemma in_forecast_window_within w target :
  valid_date (utc_today w) = true -> valid_date target = true ->
  toordinal (utc_today w) + 5 <= _MAXORDINAL ->
  in_forecast_window (utc_today w) target = Ret (within_window w target).
Proof. intros. unfold within_window. now apply in_forecast_window_ordinal. Qed.

Lemma get_weather_request w city date target log :
  api_key_of w <> [] ->
  _parse_yyyy_mm_dd date = Some target ->
  valid_date (utc_today w) = true ->
  toordinal (utc_today w) + 5 <= _MAXORDINAL ->
  snd (get_weather_impl w city date log) = log ++ [lookup_request w city target].
Proof.
  intros Hkey Hparse Htoday Hmax.
  pose proof (in_forecast_window_within w target Htoday
                (parse_valid _ _ Hparse) Hmax) as Hwin.
  rewrite (get_weather_run _ _ _ _ _ _ Hkey Hparse Hwin), weather_path_chosen.
  cbn [snd]. apply chosen_path_request.
Qed.

(** X11. With a credential and a date that parses, the one request of a
    lookup asks the endpoint of the window decision for the city as it
    was typed, neither trimmed nor changed in case, in metric units, with
    the credential without the white space around it, and waits 15
    seconds at most.  Today is the UTC date of the clock, a date five days
    after which is still a date. *)
Theorem lookup_sends_this_request (w : World) (city date : str)
    (target : Date) (log : list Request) :
  api_key_of w <> [] ->
  _parse_yyyy_mm_dd date = Some target ->
  valid_date (utc_today w) = true ->
  toordinal (utc_today w) + 5 <= _MAXORDINAL ->
  snd (get_weather_impl w city date log) =
  log ++ [mkRequest
            (if (toordinal (utc_today w) <=? toordinal target)
                && (toordinal target <=? toordinal (utc_today w) + 5)
             then OPENWEATHER_BASE_URL ++ lit "/forecast"
             else OPENWEATHER_BASE_URL ++ lit "/weather")
            [ (lit "q", city);
              (lit "appid", strip (environ_get w (lit "OPENWEATHER_API_KEY") []));
              (lit "units", lit "metric") ]
            15].
Proof. intros. now apply get_weather_request. Qed.

(** X9. At the end of the calendar, when five days after today is no
    date any more, a lookup for today or a later date raises
    [OverflowError] before any request, and a lookup for a date before
    today still asks for the current conditions: the sum is not computed
    for it. *)
Theorem window_sum_overflow (w : World) (city date : str) (target : Date)
    (log : list Request) :
  api_key_of w <> [] ->
  _parse_yyyy_mm_dd date = Some target ->
  valid_date (utc_today w) = true ->
  _MAXORDINAL < toordinal (utc_today w) + 5 ->
  (toordinal (utc_today w) <= toordinal target ->
   get_weather_impl w city date log = (Raise OverflowError, log))
  /\ (toordinal target < toordinal (utc_today w) ->
      snd (get_weather_impl w city date log)
      = log ++ [mkRequest CURRENT_URL (owm_params city (api_key_of w)) 15]).
Proof.
  intros Hkey Hparse Htoday Hmax.
  pose proof (parse_valid _ _ Hparse) as Htarget.
  pose proof (date_leb_ordinal _ _ Htoday Htarget) as Hleb.
  split; intros Hord.
  - apply (get_weather_overflow _ _ _ _ _ _ Hkey Hparse).
    unfold in_forecast_window. rewrite Hleb.
    replace (toordinal (utc_today w) <=? toordinal target) with true
      by (symmetry; apply Z.leb_le; lia).
    unfold date_add_days.
    replace (toordinal (utc_today w) + 5 <=? _MAXORDINAL) with false
      by (symmetry; apply Z.leb_gt; lia).
    rewrite andb_false_r. reflexivity.
  - assert (Hwin : in_forecast_window (utc_today w) target = Ret false).
    { unfold in_forecast_window. rewrite Hleb.
      replace (toordinal (utc_today w) <=? toordinal target) with false
        by (symmetry; apply Z.leb_gt; lia).
      reflexivity. }
    rewrite (get_weather_run _ _ _ _ _ _ Hkey Hparse Hwin), weather_path_chosen.
    cbn [snd]. apply chosen_path_request.
Qed.

(** ** The description of a record *)

(** X7. A record with a numeric temperature that converts and a
    ["weather"] list whose first element is a mapping with a description
    that is a string and not blank resolves to that temperature and to
    the description exactly as it is stored, white space around it
    included; the other elements of the list are not read. *)
Theorem description_is_first_and_as_stored (top d0 : dict)
    (others : list value) (s missing : str) (temp : value) (t : float) :
  _safe_get (VDict top) [lit "main"; lit "temp"] = Ret temp ->
  is_number temp = true ->
  py_float temp = Ret t ->
  dict_lookup top (lit "weather") = Some (VList (VDict d0 :: others)) ->
  dict_lookup d0 (lit "description") = Some (VStr s) ->
  strip s <> [] ->
  weather_fields (VDict top) missing = Ret (Some t, Some s, None).
Proof.
  intros Htemp Hnum Hfloat Hweather Hdesc Hstrip.
  unfold weather_fields. rewrite Htemp. cbn [obind]. rewrite Hnum. cbn [negb].
  rewrite Hfloat. cbn [obind].
  unfold description_of, py_get, dict_get. rewrite Hweather.
  cbn [obind truthy List.length Nat.eqb negb getitem0 try_except].
  rewrite Hdesc. unfold conditions_or_unknown.
  destruct (strip s); [congruence | reflexivity].
Qed.

(** ** The reasons of a failed lookup *)

Lemma owm_outcome_reason reply data e :
  owm_outcome reply = (data, Some e) -> known_reason e.
Proof.
  destruct reply as [msg | status_code text body]; cbn [owm_outcome].
  - intros H. injection H as _ <-. left. now exists msg.
  - destruct (status_code >=? 400).
    + intros H. injection H as _ <-. right. left. now exists status_code, text.
    + destruct body as [decoded | msg]; intros H; [discriminate|].
      injection H as _ <-. left. now exists msg.
Qed.

(** A record gives its two fields, or the error text of its path. *)
Lemma weather_fields_result record missing r :
  weather_fields record missing = Ret r ->
  r = (None, None, Some missing)
  \/ exists t c, r = (Some t, Some c, None) /\ strip c <> [].
Proof.
  destruct (weather_fields_cases record missing) as (temp & _ & Hno & Hyes).
  destruct (is_number temp).
  - rewrite (Hyes eq_refl). destruct (py_float temp) as [t|]; [|discriminate].
    cbn [obind]. intros H. apply Ret_inj in H. subst r. right.
    exists t, (conditions_or_unknown (description_of record)).
    split; [reflexivity | apply conditions_or_unknown_not_blank].
  - rewrite (Hno eq_refl). intros H. apply Ret_inj in H. now left.
Qed.

Lemma forecast_of_data_result data target r :
  forecast_of_data data target = Ret r ->
  (exists e, r = (None, None, Some e)
             /\ In e [ MISSING_FORECAST_TEMPERATURE; MISSING_FORECAST_LIST;
                       INVALID_FORECAST_ENTRY ])
  \/ exists t c, r = (Some t, Some c, None) /\ strip c <> [].
Proof.
  assert (Hfields : forall b,
            weather_fields (VDict b) MISSING_FORECAST_TEMPERATURE = Ret r ->
            (exists e, r = (None, None, Some e)
                       /\ In e [ MISSING_FORECAST_TEMPERATURE; MISSING_FORECAST_LIST;
                                 INVALID_FORECAST_ENTRY ])
            \/ exists t c, r = (Some t, Some c, None) /\ strip c <> []).
  { intros b H. destruct (weather_fields_result _ _ _ H) as [-> | Hok].
    - left. eexists. split; [reflexivity | now left].
    - now right. }
  assert (Hlist : Ret (A := weather) (None, None, Some MISSING_FORECAST_LIST) = Ret r ->
            (exists e, r = (None, None, Some e)
                       /\ In e [ MISSING_FORECAST_TEMPERATURE; MISSING_FORECAST_LIST;
                                 INVALID_FORECAST_ENTRY ])
            \/ exists t c, r = (Some t, Some c, None) /\ strip c <> []).
  { intros H. apply Ret_inj in H. subst r. left. eexists.
    split; [reflexivity | right; now left]. }
  unfold forecast_of_data.
  destruct (_safe_get data _) as [tzv|]; [|discriminate]. cbn [obind].
  destruct (new_timezone _) as [tz|]; [|discriminate]. cbn [obind].
  destruct (py_get data _ _) as [entries|]; [|discriminate]. cbn [obind].
  destruct entries as [| | | | |l|]; try exact Hlist.
  destruct l as [|first rest]; [exact Hlist|].
  destruct (scan_entries _ _ _ _ _) as [found|]; [|discriminate]. cbn [obind].
  destruct (fst found) as [best|]; [apply Hfields|].
  destruct first; try apply Hfields;
    intros H; apply Ret_inj in H; subst r; left; eexists;
    (split; [reflexivity | right; right; now left]).
Qed.

Lemma chosen_path_result w in_window city api_key target log r :
  fst (chosen_path w in_window city api_key target log) = Ret r ->
  (exists e, r = (None, None, Some e) /\ e <> [] /\ known_reason e)
  \/ exists t c, r = (Some t, Some c, None) /\ strip c <> [].
Proof.
  assert (Herr : forall reply data err,
            owm_outcome reply = (data, err) -> truthy_str err = true ->
            Ret (A := weather) (None, None, err) = Ret r ->
            (exists e, r = (None, None, Some e) /\ e <> [] /\ known_reason e)
            \/ exists t c, r = (Some t, Some c, None) /\ strip c <> []).
  { intros reply data err Hout Htruthy H. apply Ret_inj in H. subst r.
    destruct err as [e|]; [|discriminate]. left. exists e.
    split; [reflexivity|]. split.
    - destruct e; [discriminate | discriminate].
    - apply (owm_outcome_reason _ _ _ Hout). }
  unfold chosen_path. destruct in_window.
  - rewrite weather_from_forecast_run. cbn [fst].
    destruct (owm_outcome _) as [data err] eqn:Hout.
    destruct (truthy_str err) eqn:Htruthy; [apply (Herr _ _ _ Hout Htruthy)|].
    intros H. destruct (forecast_of_data_result _ _ _ H) as [(e & -> & Hin) | Hok];
      [|now right].
    left. exists e. split; [reflexivity|]. split.
    + cbn [In] in Hin. destruct Hin as [<- | [<- | [<- | []]]]; discriminate.
    + right. right. cbn [In] in *. tauto.
  - rewrite weather_from_current_run. cbn [fst].
    destruct (owm_outcome _) as [data err] eqn:Hout.
    destruct (truthy_str err) eqn:Htruthy; [apply (Herr _ _ _ Hout Htruthy)|].
    intros H. destruct (weather_fields_result _ _ _ H) as [-> | Hok]; [|now right].
    left. eexists. split; [reflexivity|]. split; [discriminate|].
    right. right. now left.
Qed.

(** X8. Every answer of the resolver is of one of four kinds: the
    unavailable message, the invalid-date message, a failure sentence
    whose reason is the error text that the path returned (of a failed
    request, of a status from 400 on, or one of the four texts for a reply
    of an unexpected shape), or the weather sentence with conditions that
    are not blank.  The reason ["unexpected response"] of line 184 is
    none of them: that line is never reached. *)
Theorem answers_of_the_resolver (w : World) (city date answer : str)
    (log : list Request) :
  fst (get_weather_impl w city date log) = Ret answer ->
  (answer = unavailable_message city date
   \/ answer = INVALID_DATE
   \/ exists target in_window,
        _parse_yyyy_mm_dd date = Some target
        /\ ((exists e,
               known_reason e /\ e <> []
               /\ answer = failed_prefix city target (source_tag in_window) ++ e)
            \/ (exists t c,
                  strip c <> []
                  /\ answer = lit "Weather for " ++ city ++ lit " on "
                              ++ isoformat target ++ lit " ("
                              ++ source_tag in_window ++ lit "): "
                              ++ _fmt_temp_c t ++ lit ", " ++ c ++ lit ".")))
  /\ ~ known_reason (lit "unexpected response").
Proof.
  intros Hanswer. split.
  - destruct (str_eq_dec (api_key_of w) []) as [Hkey | Hkey'].
    { rewrite get_weather_no_key in Hanswer by assumption.
      apply Ret_inj in Hanswer. now left. }
    destruct (_parse_yyyy_mm_dd date) as [target|] eqn:Hparse.
    2: { rewrite get_weather_bad_date in Hanswer by assumption.
         apply Ret_inj in Hanswer. right. now left. }
    destruct (in_forecast_window (utc_today w) target) as [in_window|e] eqn:Hwin.
    2: { rewrite (get_weather_overflow _ _ _ _ _ _ Hkey' Hparse Hwin) in Hanswer.
         discriminate. }
    right. right. exists target, in_window. split; [reflexivity|].
    rewrite (get_weather_run _ _ _ _ _ _ Hkey' Hparse Hwin), weather_path_chosen
      in Hanswer.
    cbn [fst] in Hanswer.
    destruct (fst (chosen_path w in_window city (api_key_of w) target log))
      as [r|] eqn:Hpath; [|discriminate].
    apply Ret_inj in Hanswer. subst answer.
    destruct (chosen_path_result _ _ _ _ _ _ _ Hpath)
      as [(e & -> & Hne & Hreason) | (t & c & -> & Hc)].
    + left. exists e. split; [exact Hreason|]. split; [exact Hne|].
      destruct e; [congruence | reflexivity].
    + right. exists t, c. split; [exact Hc | reflexivity].
  - intros [(msg & H) | [(status_code & text & H) | H]].
    + discriminate H.
    + discriminate H.
    + cbn [In] in H. destruct H as [H | [H | [H | [H | []]]]]; discriminate H.
Qed.

(** ** The forecast feed *)

(** X12. An entry that the loop skips, because it is not a mapping, has
    no numeric ["dt"], or is on another local date than the target, does
    not change the outcome of the scan, wherever it stands in the list and
    whatever the best entry so far. *)
Theorem skipped_entries_do_not_matter (tz : Z) (target : Date)
    (before after : list value) (item : value)
    (best : option dict) (best_delta : option Z) :
  entry_distance tz target item = Ret None ->
  scan_entries tz target (before ++ item :: after) best best_delta
  = scan_entries tz target (before ++ after) best best_delta.
Proof.
  intros Hskip. revert best best_delta.
  induction before as [|x before IH]; intros best best_delta; cbn [app].
  - rewrite scan_entries_cons, Hskip. reflexivity.
  - rewrite !scan_entries_cons.
    destruct (entry_distance tz target x) as [[[d delta]|]|]; cbn [obind];
      [|apply IH | reflexivity].
    destruct (match best_delta with
              | Some bd => delta <? bd
              | None => true
              end); apply IH.
Qed.

(** The entries that the loop skips without reading a timestamp. *)
Lemma entry_without_timestamp tz target item :
  match item with
  | VDict d => is_number (dict_get d (lit "dt") VNone) = false
  | _ => True
  end ->
  entry_distance tz target item = Ret None.
Proof.
  unfold entry_distance, entry_local_dt.
  destruct item; try reflexivity. intros ->. reflexivity.
Qed.

(** X14. A feed whose offset is not strictly between -24 h and 24 h makes
    the forecast path raise, whatever its list: [OverflowError] when the
    offset is beyond what a [timedelta] holds, [ValueError] otherwise. *)
Theorem offset_out_of_range_raises (data : value) (target : Date) :
  ~ (-86400 < feed_offset data < 86400) ->
  forecast_of_data data target
  = Raise (if 999999999 <? Z.abs (feed_offset data / 86400)
           then OverflowError else ValueError).
Proof.
  intros Hout. destruct (feed_offset_safe_get data) as (tzv & Hget & Hoff).
  unfold forecast_of_data. rewrite Hget. cbn [obind]. rewrite Hoff.
  unfold new_timezone.
  destruct (999999999 <? Z.abs (feed_offset data / 86400)); [reflexivity|].
  destruct ((-86400 <? feed_offset data) && (feed_offset data <? 86400)) eqn:Hin;
    [|reflexivity].
  apply andb_prop in Hin as [H1 H2]. apply Z.ltb_lt in H1, H2. lia.
Qed.

Lemma forecast_of_data_no_list top target :
  -86400 < feed_offset (VDict top) < 86400 ->
  match dict_lookup top (lit "list") with
  | Some (VList (_ :: _)) => False
  | _ => True
  end ->
  forecast_of_data (VDict top) target
  = Ret (None, None, Some MISSING_FORECAST_LIST).
Proof.
  intros Hoff Hlist.
  destruct (feed_offset_safe_get (VDict top)) as (tzv & Hget & Htz).
  unfold forecast_of_data. rewrite Hget. cbn [obind]. rewrite Htz.
  rewrite new_timezone_in_range by assumption. cbn [obind py_get].
  unfold dict_get. destruct (dict_lookup top (lit "list")) as [v|]; [|reflexivity].
  destruct v as [| | | | |l|]; try reflexivity.
  destruct l; [reflexivity | contradiction].
Qed.

(** X15. A feed that is a mapping, with an offset of a time zone, whose
    ["list"] is missing, empty or not a list gives the error text
    ["missing forecast list"]; it does not raise. *)
Theorem forecast_list_missing (top : dict) (target : Date) :
  -86400 < feed_offset (VDict top) < 86400 ->
  match dict_lookup top (lit "list") with
  | Some (VList (_ :: _)) => False
  | _ => True
  end ->
  forecast_of_data (VDict top) target
  = Ret (None, None, Some MISSING_FORECAST_LIST).
Proof. apply forecast_of_data_no_list. Qed.

(** X25. On a feed that is a mapping, with an offset of a time zone and
    timestamps that all convert to a local date-time, the forecast path
    raises in one case only: the [OverflowError] of an integer
    temperature too large for a float. *)
Theorem forecast_raises_for_the_temperature_only (top : dict)
    (target : Date) (e : exn) :
  -86400 < feed_offset (VDict top) < 86400 ->
  (forall entries,
     dict_lookup top (lit "list") = Some (VList entries) ->
     forallb (converts (feed_offset (VDict top))) entries = true) ->
  forecast_of_data (VDict top) target = Raise e ->
  e = OverflowError.
Proof.
  intros Hoff Hconv Hraise.
  destruct (dict_lookup top (lit "list")) as [v|] eqn:Hlist.
  2: { rewrite forecast_of_data_no_list in Hraise;
         [discriminate | assumption | now rewrite Hlist]. }
  assert (Hno : match v with VList (_ :: _) => False | _ => True end ->
                e = OverflowError).
  { intros Hv. rewrite forecast_of_data_no_list in Hraise;
      [discriminate | assumption | now rewrite Hlist]. }
  destruct v as [| | | | |l|]; try (apply Hno; exact I).
  destruct l as [|first rest]; [apply Hno; exact I|].
  destruct (forecast_of_data_scanned (VDict top) target first rest)
    as (best & best_delta & _ & Hrun).
  - cbn [py_get]. unfold dict_get. now rewrite Hlist.
  - exact Hoff.
  - apply Hconv. reflexivity.
  - rewrite Hrun in Hraise. destruct best as [b|].
    + apply (weather_fields_raises _ _ _ Hraise).
    + destruct first; try discriminate Hraise.
      apply (weather_fields_raises _ _ _ Hraise).
Qed.

Lemma forecast_of_no_mapping data target :
  is_dict data = false -> forecast_of_data data target = Raise AttributeError.
Proof. destruct data; try discriminate; reflexivity. Qed.

Lemma weather_fields_of_no_mapping data missing :
  is_dict data = false ->
  weather_fields data missing = Ret (None, None, Some missing).
Proof. destruct data; try discriminate; reflexivity. Qed.

(** X13. A reply below status 400 whose decoded body is not a mapping (a
    list, a number, [null]) is answered by the current path with the
    failure sentence for a missing temperature, while the forecast path
    raises [AttributeError] out of the resolver; either way one request
    was sent. *)
Theorem body_that_is_no_mapping (w : World) (city date : str)
    (target : Date) (log : list Request) (status_code : Z) (text : str)
    (data : value) :
  api_key_of w <> [] ->
  _parse_yyyy_mm_dd date = Some target ->
  valid_date (utc_today w) = true ->
  toordinal (utc_today w) + 5 <= _MAXORDINAL ->
  requests_get w (lookup_request w city target)
    = Response status_code text (JsonBody data) ->
  status_code < 400 ->
  is_dict data = false ->
  get_weather_impl w city date log =
  (if within_window w target then Raise AttributeError
   else Ret (failed_prefix city target (lit "current") ++ MISSING_TEMPERATURE),
   log ++ [lookup_request w city target]).
Proof.
  intros Hkey Hparse Htoday Hmax Hreply Hstatus Hdata.
  pose proof (in_forecast_window_within w target Htoday
                (parse_valid _ _ Hparse) Hmax) as Hwin.
  rewrite (get_weather_run _ _ _ _ _ _ Hkey Hparse Hwin), weather_path_chosen.
  cbn [fst snd]. rewrite chosen_path_request. fold (lookup_request w city target).
  f_equal. unfold chosen_path, lookup_request in *.
  assert (Hge : (status_code >=? 400) = false)
    by (rewrite Z.geb_leb; apply Z.leb_gt; lia).
  destruct (within_window w target).
  - rewrite weather_from_forecast_run, lookup_request_forecast.
    unfold owm_params. rewrite Hreply. cbn [owm_outcome fst]. rewrite Hge.
    cbn [truthy_str]. rewrite forecast_of_no_mapping by assumption. reflexivity.
  - rewrite weather_from_current_run, lookup_request_current.
    unfold owm_params. rewrite Hreply. cbn [owm_outcome fst]. rewrite Hge.
    cbn [truthy_str]. rewrite weather_fields_of_no_mapping by assumption.
    reflexivity.
Qed.

(** ** Temperature and conditions of a path *)







(** ** The dates of a trip *)

Lemma toordinal_injective a b :
  valid_date a = true -> valid_date b = true ->
  toordinal a = toordinal b -> a = b.
Proof.
  intros Ha Hb Heq.
  destruct (date_leb_cases a b) as [[_ [Hlt | (Hy & Hm & Hd)]] | [_ Hlt]].
  - pose proof (toordinal_lt _ _ Ha Hb Hlt). lia.
  - destruct a as [ya ma da], b as [yb mb db]. cbn [year month day] in *. congruence.
  - pose proof (toordinal_lt _ _ Hb Ha Hlt). lia.
Qed.

Lemma date_add_days_valid d n :
  1 <= toordinal d + n <= _MAXORDINAL ->
  exists d', date_add_days d n = Ret d'
             /\ valid_date d' = true /\ toordinal d' = toordinal d + n.
Proof.
  intros H. unfold date_add_days.
  replace (0 <? toordinal d + n) with true by (symmetry; apply Z.ltb_lt; lia).
  replace (toordinal d + n <=? _MAXORDINAL) with true
    by (symmetry; apply Z.leb_le; lia).
  cbn [andb]. eexists. split; [reflexivity|]. apply ord2ymd_correct. lia.
Qed.

Lemma date_range_from_days start count : forall i0,
  1 <= toordinal start + i0 ->
  toordinal start + i0 + Z.of_nat count - 1 <= _MAXORDINAL ->
  exists dates,
    date_range_from start i0 count = Ret dates
    /\ List.length dates = count
    /\ forall k d, nth_error dates k = Some d ->
         valid_date d = true /\ toordinal d = toordinal start + i0 + Z.of_nat k.
Proof.
  induction count as [|count IH]; intros i0 Hlow Hhigh.
  - exists []. split; [reflexivity|]. split; [reflexivity|].
    intros [|k] d H; discriminate H.
  - destruct (date_add_days_valid start i0) as (d0 & Hadd & Hv0 & Ho0); [lia|].
    destruct (IH (i0 + 1)) as (rest & Hrest & Hlen & Hnth); [lia | lia |].
    exists (d0 :: rest). cbn [date_range_from]. rewrite Hadd. cbn [obind].
    rewrite Hrest. cbn [obind]. split; [reflexivity|].
    split; [cbn [List.length]; now rewrite Hlen|].
    intros [|k] d H; cbn [nth_error] in H.
    + injection H as <-. split; [exact Hv0 | lia].
    + destruct (Hnth _ _ H) as [Hv Ho]. split; [exact Hv | lia].
Qed.

Lemma date_range_from_overflow start count : forall i0,
  (0 < count)%nat ->
  1 <= toordinal start + i0 ->
  _MAXORDINAL < toordinal start + i0 + Z.of_nat count - 1 ->
  date_range_from start i0 count = Raise OverflowError.
Proof.
  induction count as [|count IH]; intros i0 Hcount Hlow Hhigh; [lia|].
  cbn [date_range_from].
  destruct (Z_le_gt_dec (toordinal start + i0) _MAXORDINAL) as [Hle | Hgt].
  - destruct (date_add_days_valid start i0) as (d0 & Hadd & _); [lia|].
    rewrite Hadd. cbn [obind]. rewrite IH by lia. reflexivity.
  - unfold date_add_days.
    replace (toordinal start + i0 <=? _MAXORDINAL) with false
      by (symmetry; apply Z.leb_gt; lia).
    rewrite andb_false_r. reflexivity.
Qed.

(** X16. For a start date of the calendar and a number of days [n >= 0]
    that does not lead beyond 9999-12-31, the dates of the trip are [n]
    dates of the calendar, day after day: the date at index [k] is [k]
    days after the start, and the first one is the start date itself. *)
Theorem trip_dates_are_consecutive (start : Date) (num_days : Z) :
  valid_date start = true ->
  0 <= num_days ->
  toordinal start + num_days - 1 <= _MAXORDINAL ->
  exists dates,
    _compute_date_range start num_days = Ret dates
    /\ List.length dates = Z.to_nat num_days
    /\ (forall k d, nth_error dates k = Some d ->
          valid_date d = true /\ toordinal d = toordinal start + Z.of_nat k)
    /\ (0 < num_days -> nth_error dates 0 = Some start).
Proof.
  intros Hstart Hn Hmax. pose proof (toordinal_positive _ Hstart) as Hpos.
  destruct (date_range_from_days start (Z.to_nat num_days) 0)
    as (dates & Hrun & Hlen & Hnth); [lia | lia |].
  exists dates. split; [exact Hrun|]. split; [exact Hlen|]. split.
  - intros k d H. destruct (Hnth _ _ H) as [Hv Ho]. split; [exact Hv | lia].
  - intros Hpos'. destruct dates as [|d0 rest].
    + cbn [List.length] in Hlen. lia.
    + cbn [nth_error]. f_equal. destruct (Hnth 0%nat d0 eq_refl) as [Hv Ho].
      apply toordinal_injective; [assumption | assumption | lia].
Qed.

(** X17. A number of days that is zero or negative gives no dates at
    all; a number of days that leads beyond 9999-12-31 makes the
    computation raise [OverflowError]. *)
Theorem trip_dates_at_the_bounds (start : Date) (num_days : Z) :
  (num_days <= 0 -> _compute_date_range start num_days = Ret [])
  /\ (valid_date start = true -> 0 < num_days ->
      _MAXORDINAL < toordinal start + num_days - 1 ->
      _compute_date_range start num_days = Raise OverflowError).
Proof.
  split.
  - intros Hn. unfold _compute_date_range.
    replace (Z.to_nat num_days) with 0%nat by lia. reflexivity.
  - intros Hstart Hn Hmax. pose proof (toordinal_positive _ Hstart) as Hpos.
    apply date_range_from_overflow; lia.
Qed.

(** ** The weather block of the planner *)

Lemma get_weather_iso_request w city d log :
  api_key_of w <> [] ->
  valid_date (utc_today w) = true ->
  toordinal (utc_today w) + 5 <= _MAXORDINAL ->
  valid_date d = true ->
  snd (get_weather_impl w city (isoformat d) log)
  = log ++ [lookup_request w city d].
Proof.
  intros Hkey Htoday Hmax Hd.
  apply get_weather_request; auto using parse_isoformat.
Qed.

Lemma trip_weather_cons w city d rest log :
  trip_weather w city (d :: rest) log =
  match get_weather_impl w city (isoformat d) log with
  | (Ret line, log1) =>
      match trip_weather w city rest log1 with
      | (Ret lines, log2) => (Ret (line :: lines), log2)
      | (Raise e, log2) => (Raise e, log2)
      end
  | (Raise e, log1) => (Raise e, log1)
  end.
Proof.
  cbn [trip_weather]. unfold io_bind at 1.
  destruct (get_weather_impl w city (isoformat d) log) as [[line|e] log1];
    [|reflexivity].
  unfold io_bind, io_ret.
  destruct (trip_weather w city rest log1) as [[lines|e] log2]; reflexivity.
Qed.

(** The lookups of a list of dates go on until one raises; each sends its
    request. *)
Lemma trip_weather_requests w city dates : forall log,
  api_key_of w <> [] ->
  valid_date (utc_today w) = true ->
  toordinal (utc_today w) + 5 <= _MAXORDINAL ->
  forallb valid_date dates = true ->
  exists k,
    (k <= List.length dates)%nat
    /\ snd (trip_weather w city dates log)
       = log ++ map (lookup_request w city) (firstn k dates)
    /\ (forall lines, fst (trip_weather w city dates log) = Ret lines ->
          k = List.length dates /\ List.length lines = List.length dates).
Proof.
  induction dates as [|d rest IH]; intros log Hkey Htoday Hmax Hvalid.
  - exists 0%nat. split; [apply Nat.le_refl|]. cbn. rewrite app_nil_r.
    split; [reflexivity|]. intros lines H. apply Ret_inj in H. now subst lines.
  - cbn [forallb] in Hvalid. apply andb_prop in Hvalid as [Hd Hrest].
    pose proof (get_weather_iso_request w city d log Hkey Htoday Hmax Hd) as Hreq.
    rewrite trip_weather_cons.
    destruct (get_weather_impl w city (isoformat d) log) as [[line|e] log1].
    + cbn [snd] in Hreq. subst log1.
      destruct (IH (log ++ [lookup_request w city d]) Hkey Htoday Hmax Hrest)
        as (k & Hk & Hsnd & Hret).
      exists (S k). split; [cbn [List.length]; lia|].
      destruct (trip_weather w city rest (log ++ [lookup_request w city d]))
        as [[lines|e] log2]; cbn [fst snd] in *; subst log2.
      * split; [now rewrite <- app_assoc|].
        intros lines' H. apply Ret_inj in H. subst lines'.
        destruct (Hret lines eq_refl) as [-> Hlen].
        cbn [List.length]. now rewrite Hlen.
      * split; [now rewrite <- app_assoc | discriminate].
    + cbn [snd] in Hreq. subst log1. exists 1%nat.
      split; [cbn [List.length]; lia|]. cbn [fst snd firstn map].
      split; [reflexivity | discriminate].
Qed.

(** The block is the lookups for today and for the dates of the trip, in
    this order, and then the text. *)
Lemma weather_block_run w local_today city trip_dates log :
  _get_weather_block w local_today city trip_dates log =
  match trip_weather w city (local_today :: trip_dates) log with
  | (Ret lines, log') =>
      (Ret (join_lines
              ([ lit "Current weather (today, " ++ isoformat local_today ++ lit "):";
                 hd [] lines;
                 [];
                 lit "Weather during trip:" ]
               ++ tl lines)), log')
  | (Raise e, log') => (Raise e, log')
  end.
Proof.
  rewrite trip_weather_cons. unfold _get_weather_block, io_bind at 1.
  destruct (get_weather_impl w city (isoformat local_today) log) as [[line|e] log1];
    [|reflexivity].
  unfold io_bind, io_ret.
  destruct (trip_weather w city trip_dates log1) as [[lines|e] log2]; reflexivity.
Qed.

(** The requests of the block. *)
Lemma weather_block_log (w : World) (local_today : Date) (city : str)
    (trip_dates : list Date) (log : list Request) :
  api_key_of w <> [] ->
  valid_date (utc_today w) = true ->
  toordinal (utc_today w) + 5 <= _MAXORDINAL ->
  valid_date local_today = true ->
  forallb valid_date trip_dates = true ->
  let block := _get_weather_block w local_today city trip_dates log in
  (exists k,
     (1 <= k <= 1 + List.length trip_dates)%nat
     /\ snd block
        = log ++ map (lookup_request w city) (firstn k (local_today :: trip_dates)))
  /\ (forall text, fst block = Ret text ->
        snd block = log ++ map (lookup_request w city) (local_today :: trip_dates)).
Proof.
  intros Hkey Htoday Hmax Hlocal Hdates block.
  assert (Hall : forallb valid_date (local_today :: trip_dates) = true)
    by (cbn [forallb]; now rewrite Hlocal).
  destruct (trip_weather_requests w city (local_today :: trip_dates) log
              Hkey Htoday Hmax Hall) as (k & Hk & Hsnd & Hret).
  subst block. rewrite weather_block_run.
  destruct (trip_weather w city (local_today :: trip_dates) log)
    as [[lines|e] log'] eqn:Hrun; cbn [fst snd] in *; subst log'.
  - destruct (Hret lines eq_refl) as [-> Hlen]. split.
    + exists (List.length (local_today :: trip_dates)).
      split; [cbn [List.length]; lia | reflexivity].
    + intros text _. now rewrite firstn_all.
  - split; [|discriminate]. exists k. split; [|reflexivity].
    split; [|cbn [List.length] in Hk; lia].
    destruct k; [|lia]. exfalso.
    pose proof (get_weather_iso_request w city local_today log
                  Hkey Htoday Hmax Hlocal) as Hreq.
    rewrite trip_weather_cons in Hrun.
    destruct (get_weather_impl w city (isoformat local_today) log)
      as [[line|e0] log1]; cbn [snd] in Hreq; subst log1.
    + destruct (trip_weather_requests w city trip_dates
                  (log ++ [lookup_request w city local_today])
                  Hkey Htoday Hmax Hdates) as (k' & _ & Hsnd' & _).
      destruct (trip_weather w city trip_dates
                  (log ++ [lookup_request w city local_today]))
        as [[lines|e1] log2]; cbn [snd] in Hsnd'; subst log2;
        [discriminate|].
      injection Hrun as _ Hlog. cbn [firstn map] in Hlog.
      rewrite app_nil_r, <- app_assoc in Hlog.
      apply (f_equal (@List.length Request)) in Hlog.
      rewrite !length_app in Hlog. cbn [List.length] in Hlog. lia.
    + injection Hrun as _ Hlog. cbn [firstn map] in Hlog.
      rewrite app_nil_r in Hlog.
      apply (f_equal (@List.length Request)) in Hlog.
      rewrite !length_app in Hlog. cbn [List.length] in Hlog. lia.
Qed.


Lemma trip_weather_no_key w city dates log :
  api_key_of w = [] ->
  trip_weather w city dates log
  = (Ret (map (fun d => unavailable_message city (isoformat d)) dates), log).
Proof.
  intros Hkey. induction dates as [|d rest IH]; [reflexivity|].
  rewrite trip_weather_cons, get_weather_no_key, IH by assumption. reflexivity.
Qed.

(** X19. Without a credential the weather block sends nothing and does
    not raise, whatever the dates: its text is the two headings with the
    unavailable message in the place of every lookup, that for the local
    date and those for the dates of the trip, each with the city and its
    own date. *)
Theorem weather_block_without_credential (w : World) (local_today : Date)
    (city : str) (trip_dates : list Date) (log : list Request) :
  api_key_of w = [] ->
  _get_weather_block w local_today city trip_dates log =
  (Ret (join_lines
          ([ lit "Current weather (today, " ++ isoformat local_today ++ lit "):";
             unavailable_message city (isoformat local_today);
             [];
             lit "Weather during trip:" ]
           ++ map (fun d => unavailable_message city (isoformat d)) trip_dates)),
   log).
Proof.
  intros Hkey. rewrite weather_block_run, trip_weather_no_key by assumption.
  reflexivity.
Qed.

Lemma within_window_today w :
  within_window w (utc_today w) = true.
Proof.
  unfold within_window. apply andb_true_intro.
  split; apply Z.leb_le; lia.
Qed.

(** A lookup never takes a request off the log. *)
Lemma get_weather_extends w city date log :
  exists later, snd (get_weather_impl w city date log) = log ++ later.
Proof.
  destruct (str_eq_dec (api_key_of w) []) as [Hkey | Hkey].
  { exists []. rewrite get_weather_no_key, app_nil_r by assumption. reflexivity. }
  destruct (_parse_yyyy_mm_dd date) as [target|] eqn:Hparse.
  2: { exists []. rewrite get_weather_bad_date, app_nil_r by assumption. reflexivity. }
  destruct (in_forecast_window (utc_today w) target) as [in_window|e] eqn:Hwin.
  - rewrite (get_weather_run _ _ _ _ _ _ Hkey Hparse Hwin), weather_path_chosen.
    cbn [snd]. rewrite chosen_path_request. eexists. reflexivity.
  - exists []. rewrite (get_weather_overflow _ _ _ _ _ _ Hkey Hparse Hwin), app_nil_r.
    reflexivity.
Qed.

Lemma trip_weather_extends w city dates : forall log,
  exists later, snd (trip_weather w city dates log) = log ++ later.
Proof.
  induction dates as [|d rest IH]; intros log.
  - exists []. cbn. now rewrite app_nil_r.
  - rewrite trip_weather_cons.
    destruct (get_weather_extends w city (isoformat d) log) as (l1 & H1).
    destruct (get_weather_impl w city (isoformat d) log) as [[line|e] log1];
      cbn [snd] in H1; subst log1.
    + destruct (IH (log ++ l1)) as (l2 & H2).
      destruct (trip_weather w city rest (log ++ l1)) as [[lines|e] log2];
        cbn [snd] in *; subst log2; exists (l1 ++ l2); now rewrite app_assoc.
    + now exists l1.
Qed.

(** X22. When the local date is the UTC date of the clock, the lookup
    whose line the block puts under the heading of the current weather of
    today is taken from the forecast endpoint, the first request of the
    block: today is in the forecast window. *)
Theorem current_weather_line_is_a_forecast (w : World) (city : str)
    (trip_dates : list Date) (log : list Request) :
  api_key_of w <> [] ->
  valid_date (utc_today w) = true ->
  toordinal (utc_today w) + 5 <= _MAXORDINAL ->
  exists later,
    snd (_get_weather_block w (utc_today w) city trip_dates log)
    = log ++ mkRequest FORECAST_URL (owm_params city (api_key_of w)) 15 :: later.
Proof.
  intros Hkey Htoday Hmax.
  pose proof (get_weather_iso_request w city (utc_today w) log
                Hkey Htoday Hmax Htoday) as Hreq.
  unfold lookup_request in Hreq. rewrite within_window_today in Hreq.
  rewrite weather_block_run, trip_weather_cons.
  destruct (get_weather_impl w city (isoformat (utc_today w)) log)
    as [[line|e] log1]; cbn [snd] in Hreq; subst log1.
  - destruct (trip_weather_extends w city trip_dates
                (log ++ [mkRequest FORECAST_URL
                           [(lit "q", city); (lit "appid", api_key_of w);
                            (lit "units", lit "metric")] 15]))
      as (later & Hlater).
    destruct (trip_weather w city trip_dates _) as [[lines|e] log2];
      cbn [snd] in *; subst log2; exists later; now rewrite <- app_assoc.
  - exists []. reflexivity.
Qed.

(** ** The inputs of the prompt *)

Lemma last_nth_error {A} (l : list A) (d : A) :
  l <> [] -> nth_error l (List.length l - 1) = Some (last l d).
Proof.
  induction l as [|a l IH]; [congruence|]. intros _.
  destruct l as [|b l]; [reflexivity|].
  change (last (a :: b :: l) d) with (last (b :: l) d).
  rewrite <- IH by discriminate.
  replace (List.length (a :: b :: l) - 1)%nat
    with (S (List.length (b :: l) - 1)) by (cbn [List.length]; lia).
  reflexivity.
Qed.

(** The planner step by step: its client, its dates, its block. *)
Lemma run_planner_inputs_run w construct local_today city origin start_date
    num_days month_label preferences model_name log :
  run_planner_inputs w construct local_today city origin start_date num_days
    month_label preferences model_name log =
  match _get_llm w construct model_name with
  | Raise e => (Raise e, log)
  | Ret llm =>
      match _compute_date_range start_date num_days with
      | Ret [] => (Raise IndexError, log)
      | Ret ((first_date :: _) as trip_dates) =>
          match _get_weather_block w local_today city trip_dates log with
          | (Ret weather_summary, log') =>
              (Ret (llm,
                    mkPromptInputs
                      (_build_default_user_request city num_days month_label)
                      city origin num_days
                      (isoformat first_date ++ lit " to "
                       ++ isoformat (last trip_dates first_date))
                      weather_summary
                      (_get_travel_options origin city first_date
                         (last trip_dates first_date))
                      (match preferences with
                       | [] => NO_PREFERENCES
                       | _ :: _ => preferences
                       end)), log')
          | (Raise e, log') => (Raise e, log')
          end
      | Raise e => (Raise e, log)
      end
  end.
Proof.
  unfold run_planner_inputs, io_bind at 1, io_lift.
  destruct (_get_llm w construct model_name) as [llm|e]; [|reflexivity].
  unfold io_bind at 1.
  destruct (_compute_date_range start_date num_days) as [[|first_date rest]|e];
    reflexivity.
Qed.

(** The client is built when the key of the model is not blank and the
    library does not raise. *)
Lemma _get_llm_cases w construct model_name :
  (strip (environ_get w (lit "GOOGLE_API_KEY") []) = [] ->
   _get_llm w construct model_name = Raise (RuntimeError MISSING_GOOGLE_API_KEY))
  /\ (strip (environ_get w (lit "GOOGLE_API_KEY") []) <> [] ->
      _get_llm w construct model_name =
      match construct (mkChatGoogleGenerativeAI model_name float_0_4 2048) with
      | Some e => Raise e
      | None => Ret (mkChatGoogleGenerativeAI model_name float_0_4 2048)
      end).
Proof.
  unfold _get_llm.
  destruct (strip (environ_get w (lit "GOOGLE_API_KEY") [])); split;
    congruence.
Qed.

(** X27. Without the key of the model, [GOOGLE_API_KEY] unset or holding
    white space only, the planner raises [RuntimeError] with its message
    before anything else, whatever the trip: no client is built and no
    request is sent. *)
Theorem planner_needs_the_model_key (w : World)
    (construct : ChatGoogleGenerativeAI -> option exn) (local_today : Date)
    (city origin : str) (start_date : Date) (num_days : Z)
    (month_label : option str) (preferences model_name : str)
    (log : list Request) :
  match environ w (lit "GOOGLE_API_KEY") with
  | Some v => all_space v = true
  | None => True
  end ->
  run_planner_inputs w construct local_today city origin start_date num_days
    month_label preferences model_name log
  = (Raise (RuntimeError MISSING_GOOGLE_API_KEY), log).
Proof.
  intros Hblank. rewrite run_planner_inputs_run.
  rewrite (proj1 (_get_llm_cases w construct model_name)); [reflexivity|].
  unfold environ_get.
  destruct (environ w (lit "GOOGLE_API_KEY")) as [v|]; [|reflexivity].
  apply strip_nil_iff, Hblank.
Qed.

(** X20. A trip of no day, or of a negative number of days, has no first
    date.  The planner sends no request for it and raises: [RuntimeError]
    when the key of the model is blank, what the library raised when the
    client could not be built, and [IndexError], before any lookup, when
    the client was built. *)
Theorem planner_needs_a_day (w : World)
    (construct : ChatGoogleGenerativeAI -> option exn) (local_today : Date)
    (city origin : str) (start_date : Date) (num_days : Z)
    (month_label : option str) (preferences model_name : str)
    (log : list Request) :
  num_days <= 0 ->
  let run :=
    run_planner_inputs w construct local_today city origin start_date num_days
      month_label preferences model_name log in
  snd run = log
  /\ (strip (environ_get w (lit "GOOGLE_API_KEY") []) = [] ->
      fst run = Raise (RuntimeError MISSING_GOOGLE_API_KEY))
  /\ (forall e,
        strip (environ_get w (lit "GOOGLE_API_KEY") []) <> [] ->
        construct (mkChatGoogleGenerativeAI model_name float_0_4 2048) = Some e ->
        fst run = Raise e)
  /\ (strip (environ_get w (lit "GOOGLE_API_KEY") []) <> [] ->
      construct (mkChatGoogleGenerativeAI model_name float_0_4 2048) = None ->
      fst run = Raise IndexError).
Proof.
  intros Hn run. subst run. rewrite run_planner_inputs_run.
  destruct (_get_llm_cases w construct model_name) as [Hblank Hkey].
  unfold _compute_date_range.
  replace (Z.to_nat num_days) with 0%nat by lia. cbn [date_range_from].
  split; [destruct (_get_llm w construct model_name); reflexivity|].
  split; [intros H; rewrite (Hblank H); reflexivity|].
  split.
  - intros e H He. rewrite (Hkey H), He. reflexivity.
  - intros H Hnone. rewrite (Hkey H), Hnone. reflexivity.
Qed.

(** X21. For a trip of [n >= 1] days from a start date of the calendar,
    not leading beyond 9999-12-31, the inputs that the planner builds
    name the travel dates as the ISO form of the start date, [" to "], and
    the ISO form of the date [n - 1] days later (the start date again for
    a trip of one day); the travel options are those looked up for the
    destination city between these two dates; and empty preferences are
    replaced by the text that none were provided. *)
Theorem planner_inputs_of_a_trip (w : World)
    (construct : ChatGoogleGenerativeAI -> option exn) (local_today : Date)
    (city origin : str) (start_date : Date) (num_days : Z)
    (month_label : option str) (preferences model_name : str)
    (log : list Request) (llm : ChatGoogleGenerativeAI)
    (inputs : PromptInputs) :
  valid_date start_date = true ->
  0 < num_days ->
  toordinal start_date + num_days - 1 <= _MAXORDINAL ->
  fst (run_planner_inputs w construct local_today city origin start_date
         num_days month_label preferences model_name log)
    = Ret (llm, inputs) ->
  exists last_date,
    valid_date last_date = true
    /\ toordinal last_date = toordinal start_date + num_days - 1
    /\ p_travel_dates inputs
       = isoformat start_date ++ lit " to " ++ isoformat last_date
    /\ p_travel_options inputs
       = search_travel_options_impl origin city
           (isoformat start_date) (isoformat last_date)
    /\ p_preferences inputs
       = (if str_eqb preferences [] then NO_PREFERENCES else preferences)
    /\ p_city inputs = city /\ p_origin inputs = origin
    /\ p_num_days inputs = num_days.
Proof.
  intros Hstart Hn Hmax Hrun. pose proof (toordinal_positive _ Hstart) as Hpos.
  rewrite run_planner_inputs_run in Hrun. unfold _compute_date_range in Hrun.
  destruct (_get_llm w construct model_name) as [llm'|e]; [|discriminate].
  destruct (date_range_from_days start_date (Z.to_nat num_days) 0)
    as (dates & Hdates & Hlen & Hnth); [lia | lia |].
  rewrite Hdates in Hrun. destruct dates as [|first_date rest].
  { cbn [List.length] in Hlen. lia. }
  destruct (_get_weather_block w local_today city (first_date :: rest) log)
    as [[text|e] log']; [|discriminate].
  cbn [fst] in Hrun. apply Ret_inj in Hrun.
  apply (f_equal snd) in Hrun. cbn [snd] in Hrun. subst inputs.
  cbn [p_travel_dates p_travel_options p_preferences p_city p_origin p_num_days].
  assert (Hfirst : first_date = start_date).
  { destruct (Hnth 0%nat first_date eq_refl) as [Hv Ho].
    apply toordinal_injective; [assumption | assumption | lia]. }
  pose proof (last_nth_error (first_date :: rest) first_date) as Hlast.
  destruct (Hnth _ _ (Hlast ltac:(discriminate))) as [Hv Ho].
  remember (last (first_date :: rest) first_date) as last_date eqn:Elast.
  exists last_date.
  split; [exact Hv|]. split; [rewrite Ho, Hlen; lia|].
  unfold _get_travel_options. rewrite Hfirst.
  repeat split. destruct preferences; reflexivity.
Qed.

(** X26. With a credential, the planner on a trip of [n >= 1] days that
    returns its inputs has sent one request for the local date and one for
    each of the [n] dates of the trip, in this order: [n + 1] requests,
    each to the endpoint of the window decision for its date. *)
Theorem planner_sends_a_request_per_day (w : World)
    (construct : ChatGoogleGenerativeAI -> option exn) (local_today : Date)
    (city origin : str) (start_date : Date) (num_days : Z)
    (month_label : option str) (preferences model_name : str)
    (log : list Request) (llm : ChatGoogleGenerativeAI)
    (inputs : PromptInputs) :
  api_key_of w <> [] ->
  valid_date (utc_today w) = true ->
  toordinal (utc_today w) + 5 <= _MAXORDINAL ->
  valid_date local_today = true ->
  valid_date start_date = true ->
  0 < num_days ->
  toordinal start_date + num_days - 1 <= _MAXORDINAL ->
  fst (run_planner_inputs w construct local_today city origin start_date
         num_days month_label preferences model_name log)
    = Ret (llm, inputs) ->
  exists trip_dates,
    _compute_date_range start_date num_days = Ret trip_dates
    /\ List.length trip_dates = Z.to_nat num_days
    /\ snd (run_planner_inputs w construct local_today city origin start_date
              num_days month_label preferences model_name log)
       = log ++ map (lookup_request w city) (local_today :: trip_dates).
Proof.
  intros Hkey Htoday Hmax Hlocal Hstart Hn Hend Hrun.
  pose proof (toordinal_positive _ Hstart) as Hpos.
  destruct (date_range_from_days start_date (Z.to_nat num_days) 0)
    as (dates & Hdates & Hlen & Hnth); [lia | lia |].
  exists dates. split; [exact Hdates|]. split; [exact Hlen|].
  rewrite run_planner_inputs_run in *. unfold _compute_date_range in *.
  destruct (_get_llm w construct model_name) as [llm'|e]; [|discriminate].
  rewrite Hdates in *. destruct dates as [|first_date rest].
  { cbn [List.length] in Hlen. lia. }
  assert (Hvalid : forallb valid_date (first_date :: rest) = true).
  { apply forallb_forall. intros d Hd.
    destruct (In_nth_error _ _ Hd) as (k & Hk). apply (Hnth _ _ Hk). }
  destruct (weather_block_log w local_today city (first_date :: rest) log
              Hkey Htoday Hmax Hlocal Hvalid) as [_ Hret].
  destruct (_get_weather_block w local_today city (first_date :: rest) log)
    as [[text|e] log'] eqn:Hblock; [|discriminate].
  cbn [fst snd] in *. apply (Hret text eq_refl).
Qed.

(** ** Text after a date *)

Lemma re_d_two_digits_then (s : str) d1 d2 g h rest :
  s = d1 :: d2 :: rest ->
  ascii_digit d1 = Some g -> ascii_digit d2 = Some h -> 1 <= 10 * g + h <= 31 ->
  exists others, re_d s = (10 * g + h, rest) :: others.
Proof.
  intros -> H1 H2 Hd.
  pose proof (todecimal_ascii_digit d2 h H2) as Htd.
  digit_cases d1 H1; digit_cases d2 H2; try lia;
    unfold re_d, re_two, re_one; rewrite ?Htd; eexists; reflexivity.
Qed.

(** The first match of the pattern on the ISO form of a date followed by
    any text: the date, and the text left over. *)
Lemma re_ymd_isoformat d tail :
  valid_date d = true ->
  exists others,
    re_ymd (isoformat d ++ tail) = (year d, month d, day d, tail) :: others.
Proof.
  intros Hvalid. destruct (valid_date_fields _ Hvalid) as (Hy & Hm & Hd).
  pose proof (month_length (_is_leap (year d)) (month d) Hm) as Hlen.
  rewrite isoformat_digits by assumption.
  destruct d as [y m dd]. cbn [year month day] in *. clear Hvalid.
  unfold four_digits, two_digits. cbn [app]. unfold re_ymd, re_Y.
  assert (Hdigit : forall k, 0 <= k <= 9 -> todecimal (digit_char k) = Some k)
    by (intros k Hk; apply todecimal_ascii_digit, ascii_digit_digit_char, Hk).
  rewrite (Hdigit (y / 1000)), (Hdigit (y / 100 mod 10)),
    (Hdigit (y / 10 mod 10)), (Hdigit (y mod 10))
    by (Z.div_mod_to_equations; lia).
  replace (1000 * (y / 1000) + 100 * (y / 100 mod 10) + 10 * (y / 10 mod 10) + y mod 10)
    with y by (Z.div_mod_to_equations; lia).
  assert (Hm1 : ascii_digit (digit_char (m / 10)) = Some (m / 10))
    by (apply ascii_digit_digit_char; Z.div_mod_to_equations; lia).
  assert (Hm2 : ascii_digit (digit_char (m mod 10)) = Some (m mod 10))
    by (apply ascii_digit_digit_char; Z.div_mod_to_equations; lia).
  assert (Hd1 : ascii_digit (digit_char (dd / 10)) = Some (dd / 10))
    by (apply ascii_digit_digit_char; Z.div_mod_to_equations; lia).
  assert (Hd2 : ascii_digit (digit_char (dd mod 10)) = Some (dd mod 10))
    by (apply ascii_digit_digit_char; Z.div_mod_to_equations; lia).
  assert (Hm12 : 1 <= 10 * (m / 10) + m mod 10 <= 12)
    by (Z.div_mod_to_equations; lia).
  assert (Hd31 : 1 <= 10 * (dd / 10) + dd mod 10 <= 31)
    by (Z.div_mod_to_equations; lia).
  cbn [flat_map re_lit N.eqb Pos.eqb app].
  match goal with
  | |- context [re_m ?l] =>
      destruct (re_m_two_digits l _ _ _ _ _ eq_refl Hm1 Hm2 Hm12)
        as [others_m Hre_m];
      rewrite Hre_m
  end.
  cbn [flat_map re_lit N.eqb Pos.eqb app].
  match goal with
  | |- context [re_d ?l] =>
      destruct (re_d_two_digits_then l _ _ _ _ tail eq_refl Hd1 Hd2 Hd31)
        as [others_d Hre_d];
      rewrite Hre_d
  end.
  cbn [map app].
  replace (10 * (m / 10) + m mod 10) with m by (Z.div_mod_to_equations; lia).
  replace (10 * (dd / 10) + dd mod 10) with dd by (Z.div_mod_to_equations; lia).
  eexists. reflexivity.
Qed.

Lemma strip_isoformat_then d extra :
  valid_date d = true -> rstrip extra <> [] ->
  strip (isoformat d ++ extra) = isoformat d ++ rstrip extra.
Proof.
  intros Hvalid Hextra. destruct (valid_date_fields _ Hvalid) as (Hy & _).
  assert (Hl : lstrip (isoformat d ++ extra) = isoformat d ++ extra).
  { rewrite isoformat_digits by assumption. unfold four_digits. cbn [app lstrip].
    rewrite (isspace_ascii_digit (digit_char (year d / 1000)) (year d / 1000))
      by (apply ascii_digit_digit_char; Z.div_mod_to_equations; lia).
    reflexivity. }
  unfold strip. rewrite Hl. unfold rstrip in *.
  rewrite rev_app_distr, lstrip_app_nonblank, rev_app_distr, rev_involutive.
  - reflexivity.
  - intros H. apply Hextra. now rewrite H.
Qed.

(** X24. The ISO form of a date followed by text that is not white space
    only, such as a time of day, is not a date for the parser, and with a
    credential the resolver answers it with the invalid-date message
    without a request. *)
Theorem text_after_a_date_is_refused (w : World) (city : str) (d : Date)
    (extra : str) (log : list Request) :
  valid_date d = true ->
  all_space extra = false ->
  _parse_yyyy_mm_dd (isoformat d ++ extra) = None
  /\ (api_key_of w <> [] ->
      get_weather_impl w city (isoformat d ++ extra) log = (Ret INVALID_DATE, log)).
Proof.
  intros Hvalid Hextra.
  assert (Hr : rstrip extra <> []).
  { intros H. unfold rstrip in H.
    assert (H' : lstrip (rev extra) = []).
    { rewrite <- (rev_involutive (lstrip (rev extra))), H. reflexivity. }
    apply lstrip_nil, forallb_rev_true in H'. rewrite rev_involutive in H'.
    unfold all_space in Hextra. congruence. }
  assert (Hparse : _parse_yyyy_mm_dd (isoformat d ++ extra) = None).
  { unfold _parse_yyyy_mm_dd, strptime_ymd.
    rewrite strip_isoformat_then by assumption.
    destruct (re_ymd_isoformat d (rstrip extra) Hvalid) as (others & ->).
    destruct (rstrip extra); [congruence | reflexivity]. }
  split; [exact Hparse|]. intros Hkey.
  apply get_weather_bad_date; assumption.
Qed.

(** ** The keys of the catalog *)

(** X23. Every key of the catalog is its own trimmed lower-case form, so
    that every entry is reached: the destination that is a key of the
    catalog, with any white space before and after it, gets the report of
    that key's flights and hotels, with the origin, the destination as
    typed and the two dates in its route and dates lines. *)
Theorem catalog_entries_are_reached (key : str) (data : Catalog)
    (pre post origin depart_date return_date : str) :
  In (key, data) _MOCK_DATA ->
  all_space pre = true -> all_space post = true ->
  lower (strip key) = key
  /\ search_travel_options_impl origin (pre ++ key ++ post) depart_date return_date =
     join_lines
       ([ lit "Travel options (MOCK DATA)";
          lit "Route: " ++ origin ++ [32%N; 8594%N; 32%N] ++ (pre ++ key ++ post);
          lit "Dates: " ++ depart_date ++ lit " to " ++ return_date;
          [];
          lit "Flights:" ]
        ++ map flight_line (flights data)
        ++ [ []; lit "Hotels:" ]
        ++ map hotel_line (hotels data)).
Proof.
  intros Hin Hpre Hpost.
  assert (Hkey : lower (strip key) = key
                 /\ mock_data_get _MOCK_DATA key = Some data).
  { cbn [In _MOCK_DATA] in Hin.
    destruct Hin as [H | [H | []]]; injection H as <- <-; split; reflexivity. }
  destruct Hkey as [Hnormal Hget]. split; [exact Hnormal|].
  unfold search_travel_options_impl.
  rewrite strip_padding, Hnormal, Hget by assumption. reflexivity.
Qed.

End MoreProofs.

(** * Examples *)

#[local] Existing Instance ascii_only.

(** C1 at its upper end: on 1 January a request for 6 January is a forecast
    request. *)
Lemma forecast_window_decision_witness :
  exists r,
    snd (get_weather_impl (ok_world sample_feed) (lit "Tokyo") (lit "2030-01-06") [])
      = [] ++ [r]
    /\ req_url r = FORECAST_URL.
Proof.
  destruct (forecast_window_decision (ok_world sample_feed) (lit "Tokyo")
              (lit "2030-01-06") (mkDate 2030 1 6) [])
    as [r [Hlog [Hforecast _]]].
  - vm_compute. discriminate.
  - left. vm_compute. reflexivity.
  - vm_compute. reflexivity.
  - vm_compute. discriminate.
  - exists r. split; [exact Hlog |]. apply Hforecast.
    vm_compute. split; discriminate.
Defined.

(** The parser takes more than the ISO form: ["2030-1-5"] is read as
    5 January. *)
Lemma one_digit_date_is_accepted :
  iso_calendar_date (lit "2030-1-5") = None
  /\ _parse_yyyy_mm_dd (lit "2030-1-5") = Some (mkDate 2030 1 5).
Proof. split; vm_compute; reflexivity. Qed.



(** C7, as stated, fails: a credential, a date that does not parse, and no
    request at all. *)
Lemma present_credential_without_request :
  api_key_of (ok_world sample_feed) <> []
  /\ snd (get_weather_impl (ok_world sample_feed) (lit "Tokyo") (lit "not-a-date") [])
     = [].
Proof. split; [vm_compute; discriminate | vm_compute; reflexivity]. Qed.


(** C9, as stated, fails: a temperature that is not a number is rendered
    without any decimal place. *)
Lemma nan_temperature_sentence :
  fst (get_weather_impl (ok_world (sample_current (VFloat S754_nan)))
         (lit "Tokyo") (lit "2030-02-01") [])
  = Ret (lit "Weather for Tokyo on 2030-02-01 (current): nan" ++ [176%N; 67%N]
         ++ lit ", clear sky.")
  /\ one_decimal_place (lit "nan") = false.
Proof. split; vm_compute; reflexivity. Qed.

(** C9 on a temperature of 43 degrees. *)
Lemma successful_lookup_sentence_witness :
  fst (get_weather_impl (ok_world (sample_current (VFloat (float_of_Z 43))))
         (lit "Tokyo") (lit "2030-02-01") [])
  = Ret (lit "Weather for Tokyo on 2030-02-01 (current): 43.0" ++ [176%N; 67%N]
         ++ lit ", clear sky.")
  /\ one_decimal_place (lit "43.0") = true.
Proof.
  destruct (successful_lookup_sentence
              (ok_world (sample_current (VFloat (float_of_Z 43))))
              (lit "Tokyo") (lit "2030-02-01") (mkDate 2030 2 1) false
              (float_of_Z 43) (lit "clear sky") None [])
    as [Hsentence [Hfinite _]].
  - vm_compute. discriminate.
  - vm_compute. reflexivity.
  - vm_compute. reflexivity.
  - vm_compute. reflexivity.
  - split; [exact Hsentence | exact (Hfinite eq_refl)].
Defined.

(** C5, as stated, fails: a list that is not empty, without an entry on the
    target date, and the path ends in an error. *)
Lemma fallback_to_a_null_entry :
  (forall item, In item [VNone] ->
     entry_distance 0 sample_today item = Ret None)
  /\ fst (_weather_from_forecast (ok_world (VDict [(lit "list", VList [VNone])]))
           (lit "Tokyo") (lit "secret") sample_today [])
     = Ret (None, None, Some INVALID_FORECAST_ENTRY).
Proof.
  split.
  - intros item [<- | []]. reflexivity.
  - vm_compute. reflexivity.
Qed.

(** C5 on the sample feed and 5 January, of which the feed has no entry. *)
Lemma no_match_falls_back_to_first_witness :
  _weather_from_forecast (ok_world sample_feed) (lit "Tokyo") (lit "secret")
    (mkDate 2030 1 5) []
  = (Ret (Some (binary_normalize 53 1024 10 (-1) false), Some (lit "the day before"), None),
     [owm_request_of (lit "forecast") (owm_params (lit "Tokyo") (lit "secret"))]).
Proof.
  rewrite (no_match_falls_back_to_first (ok_world sample_feed) (lit "Tokyo")
             (lit "secret") (mkDate 2030 1 5) [] 200 [] sample_feed
             (sample_entry 1893477600 10 "the day before")
             (tl sample_entries)).
  - vm_compute. reflexivity.
  - reflexivity.
  - reflexivity.
  - reflexivity.
  - vm_compute. split; reflexivity.
  - intros item Hin.
    repeat (destruct Hin as [<- | Hin]; [vm_compute; reflexivity |]).
    destruct Hin.
Defined.

(** C2, as stated, fails: an entry on the target date, and a timestamp
    after it that no date-time can hold; the path raises. *)
Lemma unconvertible_timestamp_raises :
  (exists d delta,
     entry_distance (feed_offset overflowing_feed) (mkDate 2030 1 2)
       (sample_entry 1893553200 43 "noon") = Ret (Some (d, delta)))
  /\ fst (_weather_from_forecast (ok_world overflowing_feed) (lit "Tokyo")
           (lit "secret") (mkDate 2030 1 2) [])
     = Raise OverflowError.
Proof.
  split.
  - eexists. eexists. vm_compute. reflexivity.
  - vm_compute. reflexivity.
Qed.

(** C2 on the sample feed: of the entries of 09:00, 12:00 and 15:00 local
    time of 2 January, the forecast path reads the one of 12:00. *)
Lemma nearest_to_noon_is_selected_witness :
  _weather_from_forecast (ok_world sample_feed) (lit "Tokyo") (lit "secret")
    (mkDate 2030 1 2) []
  = (Ret (Some (binary_normalize 53 1024 43 (-1) false), Some (lit "noon"), None),
     [owm_request_of (lit "forecast") (owm_params (lit "Tokyo") (lit "secret"))]).
Proof.
  destruct (nearest_to_noon_is_selected (ok_world sample_feed) (lit "Tokyo")
              (lit "secret") (mkDate 2030 1 2) [] 200 [] sample_feed sample_entries)
    as (i & best & delta & (Hnth & Hdist & Hmin) & Hrun).
  - reflexivity.
  - reflexivity.
  - reflexivity.
  - vm_compute. split; reflexivity.
  - vm_compute. reflexivity.
  - exists (sample_entry 1893553200 43 "noon"). eexists. eexists.
    split; [right; right; left; reflexivity | vm_compute; reflexivity].
  - rewrite Hrun.
    assert (Hnoon : exists d',
              entry_distance (feed_offset sample_feed) (mkDate 2030 1 2)
                (sample_entry 1893553200 43 "noon") = Ret (Some (d', 0)))
      by (eexists; vm_compute; reflexivity).
    destruct Hnoon as [d' Hnoon].
    destruct (Hmin 2%nat _ d' 0 eq_refl Hnoon) as [Hle _].
    destruct i as [| [| [| [| [| i]]]]]; vm_compute in Hnth;
      [| | | | | destruct i; discriminate Hnth];
      injection Hnth as <-; vm_compute in Hdist;
      try discriminate Hdist;
      injection Hdist as <-;
      try (exfalso; apply Hle; reflexivity).
    vm_compute. reflexivity.
Defined.

(** C3 on a report of current conditions: the temperature is found, and a
    path through the temperature is not. *)
Lemma safe_get_total_and_exact_witness :
  _safe_get (sample_current (VInt 5)) [lit "main"; lit "temp"] = Ret (VInt 5)
  /\ _safe_get (sample_current (VInt 5)) [lit "main"; lit "temp"; lit "unit"]
     = Ret VNone.
Proof.
  split.
  - apply (proj1 (safe_get_total_and_exact (sample_current (VInt 5))
                    [lit "main"; lit "temp"])).
    eapply path_step; [reflexivity |].
    eapply path_step; [reflexivity |]. apply path_here.
  - apply (proj1 (proj2 (safe_get_total_and_exact (sample_current (VInt 5))
                           [lit "main"; lit "temp"; lit "unit"]))).
    eapply broken_deeper; [reflexivity |].
    eapply broken_deeper; [reflexivity |].
    apply broken_not_mapping. reflexivity.
Defined.

(** C10 in a world without the credential, on a date that does not parse. *)
Lemma credential_checked_before_date_witness :
  get_weather_impl (sample_world None sample_today (Failed [])) (lit "Tokyo")
    (lit "not-a-date") []
  = (Ret (UNAVAILABLE ++ [10%N] ++ lit "Input: city='Tokyo', date='not-a-date'"), []).
Proof.
  destruct (proj1 (credential_checked_before_date
                     (sample_world None sample_today (Failed []))
                     (lit "Tokyo") (lit "not-a-date") []))
    as [Hanswer _].
  - vm_compute. reflexivity.
  - rewrite Hanswer. vm_compute. reflexivity.
Defined.

(** C7 with the credential and a date that parses: one request. *)
Lemma requests_per_invocation_witness :
  exists r,
    snd (get_weather_impl (ok_world sample_feed) (lit "Tokyo") (lit "2030-01-02") [])
    = [] ++ [r].
Proof.
  apply (proj2 (proj2 (requests_per_invocation (ok_world sample_feed)
                         (lit "Tokyo") (lit "2030-01-02") []))).
  - vm_compute. discriminate.
  - vm_compute. discriminate.
  - vm_compute. reflexivity.
Defined.




(** ** Examples of the further properties *)

(** X3 on a request that timed out. *)
Lemma lookup_failure_is_reported_witness :
  get_weather_impl
    (sample_world (Some (lit "secret")) sample_today (Failed (lit "timed out")))
    (lit "Tokyo") (lit "2030-01-02") []
  = (Ret (lit "Weather lookup failed for Tokyo on 2030-01-02 (forecast): Request failed: timed out"),
     [mkRequest FORECAST_URL (owm_params (lit "Tokyo") (lit "secret")) 15]).
Proof.
  destruct (lookup_failure_is_reported
              (sample_world (Some (lit "secret")) sample_today (Failed (lit "timed out")))
              (lit "Tokyo") (lit "2030-01-02") (mkDate 2030 1 2) true [])
    as [Hfailed _].
  - vm_compute. discriminate.
  - vm_compute. reflexivity.
  - vm_compute. reflexivity.
  - apply (Hfailed (lit "timed out")). vm_compute. reflexivity.
Defined.

(** X4 on 5 January 2030. *)
Lemma isoformat_round_trip_witness :
  isoformat (mkDate 2030 1 5) = lit "2030-01-05"
  /\ _parse_yyyy_mm_dd (isoformat (mkDate 2030 1 5)) = Some (mkDate 2030 1 5).
Proof.
  split; [vm_compute; reflexivity|].
  apply (isoformat_round_trip (mkDate 2030 1 5)). vm_compute. reflexivity.
Defined.

(** X5 on a date between two spaces and a line feed. *)
Lemma date_padding_is_ignored_witness :
  _parse_yyyy_mm_dd (lit "  " ++ lit "2030-01-05" ++ [10%N])
  = _parse_yyyy_mm_dd (lit "2030-01-05").
Proof.
  apply (date_padding_is_ignored (ok_world sample_feed) (lit "Tokyo")
           (lit "  ") (lit "2030-01-05") [10%N] []).
  - vm_compute. reflexivity.
  - vm_compute. reflexivity.
Defined.

(** X6 on ["2030-1-5"], which the answer shows as ["2030-01-05"]. *)
Lemma lookup_of_the_normal_form_witness :
  get_weather_impl (ok_world sample_feed) (lit "Tokyo") (lit "2030-1-5") []
  = get_weather_impl (ok_world sample_feed) (lit "Tokyo") (lit "2030-01-05") [].
Proof.
  apply (lookup_of_the_normal_form (ok_world sample_feed) (lit "Tokyo")
           (lit "2030-1-5") (mkDate 2030 1 5) []).
  - vm_compute. discriminate.
  - vm_compute. reflexivity.
Defined.

(** X7 on a record with two descriptions, the first one with white space
    around it. *)
Lemma description_is_first_and_as_stored_witness :
  weather_fields
    (VDict [ (lit "main", VDict [(lit "temp", VInt 20)]);
             (lit "weather",
              VList [ VDict [(lit "description", VStr (lit "  light rain "))];
                      VDict [(lit "description", VStr (lit "mist"))] ]) ])
    MISSING_TEMPERATURE
  = Ret (Some (float_of_Z 20), Some (lit "  light rain "), None).
Proof.
  apply (description_is_first_and_as_stored _ [(lit "description", VStr (lit "  light rain "))]
           [VDict [(lit "description", VStr (lit "mist"))]] (lit "  light rain ")
           MISSING_TEMPERATURE (VInt 20) (float_of_Z 20)).
  - vm_compute. reflexivity.
  - vm_compute. reflexivity.
  - vm_compute. reflexivity.
  - vm_compute. reflexivity.
  - vm_compute. reflexivity.
  - vm_compute. discriminate.
Defined.

(** X8 on a lookup that succeeds. *)
Lemma answers_of_the_resolver_witness :
  fst (get_weather_impl (ok_world (sample_current (VInt 20)))
         (lit "Tokyo") (lit "2030-02-01") [])
  = Ret (lit "Weather for Tokyo on 2030-02-01 (current): 20.0" ++ [176%N; 67%N]
         ++ lit ", clear sky.")
  /\ ~ known_reason (lit "unexpected response").
Proof.
  split; [vm_compute; reflexivity|].
  apply (answers_of_the_resolver (ok_world (sample_current (VInt 20)))
           (lit "Tokyo") (lit "2030-02-01")
           (lit "Weather for Tokyo on 2030-02-01 (current): 20.0" ++ [176%N; 67%N]
            ++ lit ", clear sky.") []).
  vm_compute. reflexivity.
Defined.

(** X9 on 30 December 9999: no lookup for the next day. *)
Lemma window_sum_overflow_witness :
  get_weather_impl
    (sample_world (Some (lit "secret")) (mkDate 9999 12 30) (Failed []))
    (lit "Tokyo") (lit "9999-12-31") []
  = (Raise OverflowError, []).
Proof.
  apply (window_sum_overflow
           (sample_world (Some (lit "secret")) (mkDate 9999 12 30) (Failed []))
           (lit "Tokyo") (lit "9999-12-31") (mkDate 9999 12 31) []).
  - vm_compute. discriminate.
  - vm_compute. reflexivity.
  - vm_compute. reflexivity.
  - vm_compute. reflexivity.
  - vm_compute. discriminate.
Defined.

(** X10 on a credential of three spaces. *)
Lemma blank_credential_is_missing_witness :
  get_weather_impl
    (sample_world (Some (lit "   ")) sample_today (Failed []))
    (lit "Tokyo") (lit "2030-01-02") []
  = (Ret (unavailable_message (lit "Tokyo") (lit "2030-01-02")), []).
Proof.
  apply (proj2 (blank_credential_is_missing
                  (sample_world (Some (lit "   ")) sample_today (Failed []))
                  (lit "Tokyo") (lit "2030-01-02") []) (lit "   ")).
  - vm_compute. reflexivity.
  - vm_compute. reflexivity.
Defined.

(** X11 on a lookup for the last day of the window. *)
Lemma lookup_sends_this_request_witness :
  snd (get_weather_impl (ok_world sample_feed) (lit "Tokyo") (lit "2030-01-06") [])
  = [mkRequest (lit "https://api.openweathermap.org/data/2.5/forecast")
       [(lit "q", lit "Tokyo"); (lit "appid", lit "secret"); (lit "units", lit "metric")]
       15].
Proof.
  apply (lookup_sends_this_request (ok_world sample_feed) (lit "Tokyo")
           (lit "2030-01-06") (mkDate 2030 1 6) []).
  - vm_compute. discriminate.
  - vm_compute. reflexivity.
  - vm_compute. reflexivity.
  - vm_compute. discriminate.
Defined.

(** X12 on a string among the entries of the sample feed. *)
Lemma skipped_entries_do_not_matter_witness :
  scan_entries 32400 (mkDate 2030 1 2)
    (firstn 2 sample_entries ++ VStr (lit "junk") :: skipn 2 sample_entries)
    None None
  = scan_entries 32400 (mkDate 2030 1 2)
      (firstn 2 sample_entries ++ skipn 2 sample_entries) None None.
Proof.
  apply (skipped_entries_do_not_matter 32400 (mkDate 2030 1 2)).
  vm_compute. reflexivity.
Defined.

(** X13 on a body that is the empty list. *)
Lemma body_that_is_no_mapping_witness :
  get_weather_impl (ok_world (VList [])) (lit "Tokyo") (lit "2030-01-02") []
  = (Raise AttributeError,
     [mkRequest FORECAST_URL (owm_params (lit "Tokyo") (lit "secret")) 15]).
Proof.
  apply (body_that_is_no_mapping (ok_world (VList [])) (lit "Tokyo")
           (lit "2030-01-02") (mkDate 2030 1 2) [] 200 [] (VList [])).
  - vm_compute. discriminate.
  - vm_compute. reflexivity.
  - vm_compute. reflexivity.
  - vm_compute. discriminate.
  - vm_compute. reflexivity.
  - vm_compute. reflexivity.
  - vm_compute. reflexivity.
Defined.

(** X14 on an offset of exactly 24 hours. *)
Lemma offset_out_of_range_raises_witness :
  forecast_of_data
    (VDict [(lit "city", VDict [(lit "timezone", VInt 86400)])])
    (mkDate 2030 1 2)
  = Raise ValueError.
Proof.
  apply (offset_out_of_range_raises
           (VDict [(lit "city", VDict [(lit "timezone", VInt 86400)])])
           (mkDate 2030 1 2)).
  vm_compute. intros [_ H]. discriminate H.
Defined.

(** X15 on a feed with an empty list. *)
Lemma forecast_list_missing_witness :
  forecast_of_data (VDict [(lit "list", VList [])]) (mkDate 2030 1 2)
  = Ret (None, None, Some MISSING_FORECAST_LIST).
Proof.
  apply (forecast_list_missing [(lit "list", VList [])] (mkDate 2030 1 2)).
  - vm_compute. split; reflexivity.
  - vm_compute. exact I.
Defined.

(** X25 on a feed whose only entry has the temperature [2^1024]. *)
Lemma forecast_raises_for_the_temperature_only_witness :
  exists e,
    forecast_of_data
      (VDict [(lit "list",
               VList [VDict [(lit "main", VDict [(lit "temp", VInt (2 ^ 1024))])]])])
      (mkDate 2030 1 2) = Raise e
    /\ e = OverflowError.
Proof.
  exists OverflowError. split; [vm_compute; reflexivity|].
  apply (forecast_raises_for_the_temperature_only
           [(lit "list",
             VList [VDict [(lit "main", VDict [(lit "temp", VInt (2 ^ 1024))])]])]
           (mkDate 2030 1 2) OverflowError).
  - vm_compute. split; reflexivity.
  - intros entries H. vm_compute in H. injection H as <-. vm_compute. reflexivity.
  - vm_compute. reflexivity.
Defined.

(** X16 on four days from 30 January 2030. *)
Lemma trip_dates_are_consecutive_witness :
  exists dates,
    _compute_date_range (mkDate 2030 1 30) 4 = Ret dates
    /\ List.length dates = 4%nat
    /\ nth_error dates 0 = Some (mkDate 2030 1 30).
Proof.
  destruct (trip_dates_are_consecutive (mkDate 2030 1 30) 4)
    as (dates & Hrun & Hlen & _ & Hfirst).
  - vm_compute. reflexivity.
  - vm_compute. discriminate.
  - vm_compute. discriminate.
  - exists dates. split; [exact Hrun|]. split; [exact Hlen|].
    apply Hfirst. vm_compute. reflexivity.
Defined.

(** X17 on three days from 30 December 9999. *)
Lemma trip_dates_at_the_bounds_witness :
  _compute_date_range (mkDate 9999 12 30) 3 = Raise OverflowError.
Proof.
  apply (proj2 (trip_dates_at_the_bounds (mkDate 9999 12 30) 3)).
  - vm_compute. reflexivity.
  - vm_compute. reflexivity.
  - vm_compute. reflexivity.
Defined.


(** X19 on a trip of one day. *)
Lemma weather_block_without_credential_witness :
  snd (_get_weather_block (sample_world None sample_today (Failed [])) sample_today
         (lit "Tokyo") [mkDate 2030 1 8] []) = [].
Proof.
  rewrite (weather_block_without_credential
             (sample_world None sample_today (Failed [])) sample_today
             (lit "Tokyo") [mkDate 2030 1 8] []).
  - reflexivity.
  - vm_compute. reflexivity.
Defined.

(** X22 on the sample world. *)
Lemma current_weather_line_is_a_forecast_witness :
  exists later,
    snd (_get_weather_block (ok_world sample_feed) sample_today (lit "Tokyo")
           [mkDate 2030 1 8] [])
    = [] ++ mkRequest FORECAST_URL (owm_params (lit "Tokyo") (lit "secret")) 15 :: later.
Proof.
  apply (current_weather_line_is_a_forecast (ok_world sample_feed) (lit "Tokyo")
           [mkDate 2030 1 8] []).
  - vm_compute. discriminate.
  - vm_compute. reflexivity.
  - vm_compute. discriminate.
Defined.

(** X20 on a trip of no day, with the key of the model and a library that
    builds the client. *)
Lemma planner_needs_a_day_witness :
  run_planner_inputs
    (planner_world (Some (lit "model-key")) (Some (lit "secret")) sample_today
       (Failed []))
    builds_every_client sample_today (lit "Tokyo") (lit "Delhi")
    (mkDate 2030 1 8) 0 None [] (lit "gemini-2.5-flash") []
  = (Raise IndexError, []).
Proof.
  destruct (planner_needs_a_day
              (planner_world (Some (lit "model-key")) (Some (lit "secret"))
                 sample_today (Failed []))
              builds_every_client sample_today (lit "Tokyo") (lit "Delhi")
              (mkDate 2030 1 8) 0 None [] (lit "gemini-2.5-flash") [])
    as (Hlog & _ & _ & Hindex).
  - vm_compute. discriminate.
  - apply injective_projections.
    + apply Hindex; [vm_compute; discriminate | reflexivity].
    + exact Hlog.
Defined.

(** X27 on a world without the key of the model. *)
Lemma planner_needs_the_model_key_witness :
  run_planner_inputs
    (planner_world None (Some (lit "secret")) sample_today (Failed []))
    builds_every_client sample_today (lit "Tokyo") (lit "Delhi")
    (mkDate 2030 1 8) 2 None [] (lit "gemini-2.5-flash") []
  = (Raise (RuntimeError MISSING_GOOGLE_API_KEY), []).
Proof.
  apply planner_needs_the_model_key. vm_compute. exact I.
Defined.

(** X21 on a trip of two days from 8 January 2030. *)
Lemma planner_inputs_of_a_trip_witness :
  exists llm inputs last_date,
    fst (run_planner_inputs
           (planner_world (Some (lit "model-key")) None sample_today (Failed []))
           builds_every_client sample_today (lit "Tokyo") (lit "Delhi")
           (mkDate 2030 1 8) 2 None [] (lit "gemini-2.5-flash") [])
      = Ret (llm, inputs)
    /\ toordinal last_date = toordinal (mkDate 2030 1 8) + 2 - 1
    /\ p_travel_dates inputs
       = isoformat (mkDate 2030 1 8) ++ lit " to " ++ isoformat last_date
    /\ p_preferences inputs = NO_PREFERENCES.
Proof.
  assert (Hrun : exists llm inputs,
            fst (run_planner_inputs
                   (planner_world (Some (lit "model-key")) None sample_today
                      (Failed []))
                   builds_every_client sample_today (lit "Tokyo") (lit "Delhi")
                   (mkDate 2030 1 8) 2 None [] (lit "gemini-2.5-flash") [])
            = Ret (llm, inputs)).
  { vm_compute. eexists. eexists. reflexivity. }
  destruct Hrun as (llm & inputs & Hrun).
  destruct (planner_inputs_of_a_trip
              (planner_world (Some (lit "model-key")) None sample_today (Failed []))
              builds_every_client sample_today (lit "Tokyo") (lit "Delhi")
              (mkDate 2030 1 8) 2 None [] (lit "gemini-2.5-flash") [] llm inputs)
    as (last_date & _ & Hord & Hdates & _ & Hpref & _).
  - vm_compute. reflexivity.
  - vm_compute. reflexivity.
  - vm_compute. discriminate.
  - exact Hrun.
  - exists llm, inputs, last_date. split; [exact Hrun|]. split; [exact Hord|].
    split; [exact Hdates | exact Hpref].
Defined.

(** X23 on the key ["tokyo"] between two spaces. *)
Lemma catalog_entries_are_reached_witness :
  exists data,
    mock_data_get _MOCK_DATA (lit "tokyo") = Some data
    /\ search_travel_options_impl (lit "Delhi") (lit " " ++ lit "tokyo" ++ lit " ")
         (lit "2030-01-08") (lit "2030-01-09") =
       join_lines
         ([ lit "Travel options (MOCK DATA)";
            lit "Route: " ++ lit "Delhi" ++ [32%N; 8594%N; 32%N]
            ++ (lit " " ++ lit "tokyo" ++ lit " ");
            lit "Dates: " ++ lit "2030-01-08" ++ lit " to " ++ lit "2030-01-09";
            [];
            lit "Flights:" ]
          ++ map flight_line (flights data)
          ++ [ []; lit "Hotels:" ]
          ++ map hotel_line (hotels data)).
Proof.
  eexists. split; [vm_compute; reflexivity|].
  apply (catalog_entries_are_reached (lit "tokyo") _ (lit " ") (lit " ")
           (lit "Delhi") (lit "2030-01-08") (lit "2030-01-09")).
  - left. vm_compute. reflexivity.
  - vm_compute. reflexivity.
  - vm_compute. reflexivity.
Defined.

(** X24 on a date with a time of day. *)
Lemma text_after_a_date_is_refused_witness :
  _parse_yyyy_mm_dd (lit "2030-01-05T12:00") = None.
Proof.
  apply (text_after_a_date_is_refused (ok_world sample_feed) (lit "Tokyo")
           (mkDate 2030 1 5) (lit "T12:00") []).
  - vm_compute. reflexivity.
  - vm_compute. reflexivity.
Defined.

(** X26 on a trip of two days from 8 January 2030: three requests. *)
Lemma planner_sends_a_request_per_day_witness :
  exists trip_dates,
    _compute_date_range (mkDate 2030 1 8) 2 = Ret trip_dates
    /\ List.length trip_dates = 2%nat
    /\ snd (run_planner_inputs
              (planner_world (Some (lit "model-key")) (Some (lit "secret"))
                 sample_today
                 (Response 200 [] (JsonBody (sample_current (VInt 20)))))
              builds_every_client sample_today (lit "Tokyo") (lit "Delhi")
              (mkDate 2030 1 8) 2 None [] (lit "gemini-2.5-flash") [])
       = [] ++ map (lookup_request
                      (planner_world (Some (lit "model-key")) (Some (lit "secret"))
                         sample_today
                         (Response 200 [] (JsonBody (sample_current (VInt 20)))))
                      (lit "Tokyo"))
                 (sample_today :: trip_dates).
Proof.
  assert (Hrun : exists llm inputs,
            fst (run_planner_inputs
                   (planner_world (Some (lit "model-key")) (Some (lit "secret"))
                      sample_today
                      (Response 200 [] (JsonBody (sample_current (VInt 20)))))
                   builds_every_client sample_today (lit "Tokyo") (lit "Delhi")
                   (mkDate 2030 1 8) 2 None [] (lit "gemini-2.5-flash") [])
            = Ret (llm, inputs)).
  { vm_compute. eexists. eexists. reflexivity. }
  destruct Hrun as (llm & inputs & Hrun).
  apply (planner_sends_a_request_per_day
           (planner_world (Some (lit "model-key")) (Some (lit "secret"))
              sample_today
              (Response 200 [] (JsonBody (sample_current (VInt 20)))))
           builds_every_client sample_today (lit "Tokyo") (lit "Delhi")
           (mkDate 2030 1 8) 2 None [] (lit "gemini-2.5-flash") [] llm inputs).
  - vm_compute. discriminate.
  - vm_compute. reflexivity.
  - vm_compute. discriminate.
  - vm_compute. reflexivity.
  - vm_compute. reflexivity.
  - vm_compute. reflexivity.
  - vm_compute. discriminate.
  - exact Hrun.
Defined.
